(** * YouTube transcript extractor: caption normalizer and retry loop

    A shallow embedding of [src/main.py]: the methods of
    [YouTubeTranscriptExtractor] and the per-item loop of [main], with the
    properties of the specification proved about them.

    Conventions of the embedding.
    - A Python [str] is a Rocq [string]; a character is a code point
      below 256, so the documents range over Latin-1 text.  On that range
      Python's [\d] is exactly [0-9] and [str.strip()] removes the code
      points 9-13, 28-32, 0x85 and 0xA0.
    - The patterns of [re] are terms of [Re.regex], run by a backtracking
      matcher with Python's priorities.
    - Exceptions are values of [outcome]: [Return v] or [Raise e].
    - The fetch collaborator (the [yt-dlp] subprocess and the files it
      leaves in the scratch directory) is an input of the model, one
      response for each attempt; the scratch directory itself is left out.
    - [Actor.push_data], [asyncio.sleep] and [Actor.fail] are events of a
      trace and do not raise; logging is left out. *)

From Stdlib Require Import String Ascii List Bool Arith ZArith Lia.
From Stdlib Require Import DecimalString.
From stdpp Require Import gmap strings.
Import ListNotations.

Open Scope string_scope.
Open Scope list_scope.

(** [simpl] unfolds the append of strings, as it does for lists. *)
Arguments String.append !s1 s2 : simpl nomatch.

(** ** Python string primitives *)

Module Str.

Definition code (c : ascii) : N := N_of_ascii c.

Definition in_range (lo hi c : ascii) : bool :=
  (code lo <=? code c)%N && (code c <=? code hi)%N.

(** [str.isspace] on one character, for code points below 256. *)
Definition is_space (c : ascii) : bool :=
  ((9 <=? code c)%N && (code c <=? 13)%N)
  || ((28 <=? code c)%N && (code c <=? 32)%N)
  || (code c =? 133)%N || (code c =? 160)%N.

Fixpoint lstrip (s : string) : string :=
  match s with
  | String c s' => if is_space c then lstrip s' else s
  | EmptyString => EmptyString
  end.

Fixpoint rstrip (s : string) : string :=
  match s with
  | String c s' =>
      match rstrip s' with
      | EmptyString => if is_space c then EmptyString else String c EmptyString
      | r => String c r
      end
  | EmptyString => EmptyString
  end.

(** [s.strip()] *)
Definition strip (s : string) : string := rstrip (lstrip s).

(** [s.startswith(p)] *)
Definition startswith (s p : string) : bool := String.prefix p s.

(** [sub in s] *)
Fixpoint contains (sub s : string) : bool :=
  String.prefix sub s
  || match s with
     | String _ s' => contains sub s'
     | EmptyString => false
     end.

(** [s.split(sep)] for a non-empty [sep].  [skip] counts the characters
    of a separator found earlier that are still to be passed over. *)
Fixpoint split_go (sep : string) (skip : nat) (s : string) : list string :=
  match s with
  | EmptyString => [EmptyString]
  | String c s' =>
      match skip with
      | S n => split_go sep n s'
      | O =>
          if String.prefix sep s
          then EmptyString :: split_go sep (String.length sep - 1) s'
          else match split_go sep 0 s' with
               | h :: t => String c h :: t
               | [] => [String c EmptyString]
               end
      end
  end.

Definition split (s sep : string) : list string := split_go sep 0 s.

(** [sep.join(l)] *)
Fixpoint join (sep : string) (l : list string) : string :=
  match l with
  | [] => EmptyString
  | [x] => x
  | x :: l' => x ++ sep ++ join sep l'
  end.

(** [s.replace(old, new)] for a non-empty [old]: every non-overlapping
    occurrence, leftmost first. *)
Fixpoint replace_go (old new : string) (skip : nat) (s : string) : string :=
  match s with
  | EmptyString => EmptyString
  | String c s' =>
      match skip with
      | S n => replace_go old new n s'
      | O =>
          if String.prefix old s
          then new ++ replace_go old new (String.length old - 1) s'
          else String c (replace_go old new 0 s')
      end
  end.

Definition replace (s old new : string) : string := replace_go old new 0 s.

(** [s.rfind(c)] for a one-character needle: the last index, if any. *)
Fixpoint rfind (c : ascii) (s : string) : option nat :=
  match s with
  | EmptyString => None
  | String d s' =>
      match rfind c s' with
      | Some i => Some (S i)
      | None => if Ascii.eqb d c then Some 0 else None
      end
  end.

(** [str(n)] for an integer. *)
Definition of_Z (n : Z) : string := NilZero.string_of_int (Z.to_int n).

(** Truthiness of a string: non-empty. *)
Definition truthy (s : string) : bool := negb (String.eqb s EmptyString).

End Str.

(** ** The fragment of Python's [re] the program uses

    A backtracking matcher in continuation-passing style, with Python's
    priorities: alternatives left to right, quantifiers greedy.  [*] and
    [+] are applied to character sets only, as in the source's patterns. *)

Module Re.

Inductive regex : Type :=
| Eps
| Lit (c : ascii)                       (* an ordinary or escaped character *)
| Set_ (p : ascii -> bool)              (* [...] and \d *)
| Seq (r1 r2 : regex)
| Alt (r1 r2 : regex)                   (* r1|r2 *)
| Star (p : ascii -> bool)              (* [...]* *)
| Plus (p : ascii -> bool)              (* [...]+ *)
| Repeat (lo hi : nat) (r : regex)      (* r{lo,hi}; r? is r{0,1} *)
| Group (n : nat) (r : regex)           (* capturing group number n *)
| Bol                                   (* ^ *)
| Eol.                                  (* $ *)

Definition Opt (r : regex) : regex := Repeat 0 1 r.
Definition Times (n : nat) (r : regex) : regex := Repeat n n r.

(** The characters of a literal, in sequence. *)
Fixpoint Str (s : string) : regex :=
  match s with
  | EmptyString => Eps
  | String c EmptyString => Lit c
  | String c s' => Seq (Lit c) (Str s')
  end.

(** Spans of the capturing groups, most recent first. *)
Definition groups : Type := list (nat * (nat * nat)).

(** A successful match: where it ends, and the groups. *)
Definition result : Type := (nat * groups)%type.

Definition cont : Type := nat -> string -> groups -> option result.

Definition or_else (a : option result) (b : option result) : option result :=
  match a with
  | Some x => Some x
  | None => b
  end.

(** Greedy [p*]: take as many characters as possible, give back one at a
    time. *)
Fixpoint star (p : ascii -> bool) (k : cont) (pos : nat) (s : string)
    (g : groups) : option result :=
  match s with
  | String c s' =>
      if p c then or_else (star p k (S pos) s' g) (k pos s g) else k pos s g
  | EmptyString => k pos s g
  end.

(** [$] without MULTILINE: at the end, or before a final newline. *)
Definition at_end (s : string) : bool :=
  match s with
  | EmptyString => true
  | String c EmptyString => Ascii.eqb c "010"
  | _ => false
  end.

(** [r{lo,hi}] for a matcher [m] of [r]: greedy, at most [hi] times, and
    on to [k] once [lo] have been done. *)
Fixpoint rep (m : cont -> cont) (k : cont) (lo hi : nat) (pos : nat)
    (s : string) (g : groups) {struct hi} : option result :=
  match hi with
  | O => match lo with O => k pos s g | S _ => None end
  | S hi' =>
      or_else (m (rep m k (Nat.pred lo) hi') pos s g)
              (match lo with O => k pos s g | S _ => None end)
  end.

(** [mtch r k pos s g]: match [r] against [s], the rest of the subject
    from index [pos] on, then continue with [k]. *)
Fixpoint mtch (r : regex) (k : cont) (pos : nat) (s : string) (g : groups)
    {struct r} : option result :=
  match r with
  | Eps => k pos s g
  | Lit c =>
      match s with
      | String d s' => if Ascii.eqb d c then k (S pos) s' g else None
      | EmptyString => None
      end
  | Set_ p =>
      match s with
      | String d s' => if p d then k (S pos) s' g else None
      | EmptyString => None
      end
  | Seq r1 r2 => mtch r1 (mtch r2 k) pos s g
  | Alt r1 r2 => or_else (mtch r1 k pos s g) (mtch r2 k pos s g)
  | Star p => star p k pos s g
  | Plus p =>
      match s with
      | String d s' => if p d then star p k (S pos) s' g else None
      | EmptyString => None
      end
  | Repeat lo hi r1 => rep (mtch r1) k lo hi pos s g
  | Group n r1 =>
      mtch r1 (fun pos' s' g' => k pos' s' ((n, (pos, pos')) :: g')) pos s g
  | Bol => match pos with O => k pos s g | S _ => None end
  | Eol => if at_end s then k pos s g else None
  end.

Definition accept : cont := fun pos _ g => Some (pos, g).

(** A match object: the subject, the span of the match and of its
    groups. *)
Record match_object : Type := {
  subject : string;
  m_start : nat;
  m_end : nat;
  m_groups : groups;
}.

Fixpoint span_of (n : nat) (g : groups) : option (nat * nat) :=
  match g with
  | [] => None
  | (i, sp) :: g' => if Nat.eqb i n then Some sp else span_of n g'
  end.

(** [m.group(n)] for a group that took part in the match. *)
Definition group (m : match_object) (n : nat) : option string :=
  match span_of n (m_groups m) with
  | Some (a, b) => Some (String.substring a (b - a) (subject m))
  | None => None
  end.

(** [Pattern.match(s)]: a match starting at index 0. *)
Definition re_match (r : regex) (s : string) : option match_object :=
  match mtch r accept 0 s [] with
  | Some (e, g) =>
      Some {| subject := s; m_start := 0; m_end := e; m_groups := g |}
  | None => None
  end.

(** [re.search(r, s)]: the match with the leftmost start. *)
Fixpoint search_from (r : regex) (whole : string) (pos : nat) (s : string)
    : option match_object :=
  match mtch r accept pos s [] with
  | Some (e, g) =>
      Some {| subject := whole; m_start := pos; m_end := e; m_groups := g |}
  | None =>
      match s with
      | String _ s' => search_from r whole (S pos) s'
      | EmptyString => None
      end
  end.

Definition search (r : regex) (s : string) : option match_object :=
  search_from r s 0 s.

(** [Pattern.sub(repl, s)] for a literal [repl]: the non-overlapping
    matches, leftmost first, are replaced.  [skip] counts the characters
    of the last match still to be passed over; an empty match leaves the
    character after it in place. *)
Fixpoint sub_go (r : regex) (repl : string) (pos skip : nat) (s : string)
    : string :=
  match s with
  | EmptyString =>
      match skip, mtch r accept pos s [] with
      | O, Some _ => repl
      | _, _ => EmptyString
      end
  | String c s' =>
      match skip with
      | S n => sub_go r repl (S pos) n s'
      | O =>
          match mtch r accept pos s [] with
          | Some (e, _) =>
              if Nat.eqb e pos
              then repl ++ String c (sub_go r repl (S pos) 0 s')
              else repl ++ sub_go r repl (S pos) (e - pos - 1) s'
          | None => String c (sub_go r repl (S pos) 0 s')
          end
      end
  end.

Definition sub (r : regex) (repl s : string) : string := sub_go r repl 0 0 s.

(** Every character of [s] is in the set [p]. *)
Fixpoint all_in (p : ascii -> bool) (s : string) : bool :=
  match s with
  | EmptyString => true
  | String c s' => p c && all_in p s'
  end.

(** [n] words in a row, each accepted by [L] at its place. *)
Fixpoint power (L : nat -> string -> string -> Prop) (n : nat) (pos : nat)
    (w rest : string) : Prop :=
  match n with
  | O => w = EmptyString
  | S n' =>
      exists w1 w2 : string,
        w = (w1 ++ w2)%string
        /\ L pos w1 (w2 ++ rest)%string
        /\ power L n' (pos + String.length w1) w2 rest
  end.

(** What a pattern stands for: [lang r pos w rest] when [r] can match the
    word [w] at index [pos] of a subject that goes on with [rest]. *)
Fixpoint lang (r : regex) (pos : nat) (w rest : string) : Prop :=
  match r with
  | Eps => w = EmptyString
  | Lit c => w = String c EmptyString
  | Set_ p => exists c, w = String c EmptyString /\ p c = true
  | Seq r1 r2 =>
      exists w1 w2 : string,
        w = (w1 ++ w2)%string
        /\ lang r1 pos w1 (w2 ++ rest)%string
        /\ lang r2 (pos + String.length w1) w2 rest
  | Alt r1 r2 => lang r1 pos w rest \/ lang r2 pos w rest
  | Star p => all_in p w = true
  | Plus p => w <> EmptyString /\ all_in p w = true
  | Repeat lo hi r1 =>
      exists n, lo <= n /\ n <= hi /\ power (lang r1) n pos w rest
  | Group _ r1 => lang r1 pos w rest
  | Bol => w = EmptyString /\ pos = 0
  | Eol => w = EmptyString /\ at_end rest = true
  end.

(** A continuation reached after the word [w]: what [k] is given when a
    match of [w] at [pos] in [s] goes on. *)
Definition reaches (k : cont) (pos : nat) (s : string) (res : result)
    (L : string -> string -> Prop) : Prop :=
  exists (w rest : string) (g' : groups),
    s = (w ++ rest)%string
    /\ L w rest
    /\ k (pos + String.length w) rest g' = Some res.

End Re.

(** ** Exceptions *)

Inductive exc_class : Type :=
| ValueError
| RuntimeError
| OSError
| UnicodeDecodeError.

Record exn : Type := { exc_type : exc_class; exc_message : string }.

Inductive outcome (A : Type) : Type :=
| Return (a : A)
| Raise (e : exn).

Arguments Return {A} a.
Arguments Raise {A} e.

(** [str(e)] *)
Definition str_of_exn (e : exn) : string := exc_message e.

(** ** class YouTubeTranscriptExtractor *)

Import Re.

(** [\d] *)
Definition digit : ascii -> bool := Str.in_range "0" "9".

(** [[a-zA-Z0-9_-]] *)
Definition id_char (c : ascii) : bool :=
  Str.in_range "a" "z" c || Str.in_range "A" "Z" c || Str.in_range "0" "9" c
  || Ascii.eqb c "_" || Ascii.eqb c "-".

(** [[^>]] *)
Definition not_gt (c : ascii) : bool := negb (Ascii.eqb c ">").

(** A pattern written as the sequence of its items. *)
Definition Cat (l : list regex) : regex := fold_right Seq Eps l.

(** [^\d+$] *)
Definition digits_pattern : regex := Cat [Bol; Plus digit; Eol].

(** [^\d{1,2}:\d{2}(:\d{2})?(\.\d{3})?$] *)
Definition clock_pattern : regex :=
  Cat [Bol; Repeat 1 2 (Set_ digit); Lit ":"; Times 2 (Set_ digit);
       Opt (Group 1 (Cat [Lit ":"; Times 2 (Set_ digit)]));
       Opt (Group 2 (Cat [Lit "."; Times 3 (Set_ digit)]));
       Eol].

(** [r'^\d+$|^\d{1,2}:\d{2}(:\d{2})?(\.\d{3})?$'] *)
Definition timestamp_regex : regex := Alt digits_pattern clock_pattern.

(** [r'<[^>]*>'] *)
Definition tag_regex : regex := Cat [Lit "<"; Star not_gt; Lit ">"].

(** [(?:https?://)?(?:www\.)?] *)
Definition url_prefix : list regex :=
  [Opt (Cat [Str "http"; Opt (Lit "s"); Str "://"]); Opt (Str "www.")].

(** [([a-zA-Z0-9_-]{11})] *)
Definition id_group : regex := Group 1 (Times 11 (Set_ id_char)).

Definition patterns : list regex :=
  [ Cat (url_prefix ++ [Str "youtube.com/watch?v="; id_group]);
    Cat (url_prefix ++ [Str "youtu.be/"; id_group]);
    Cat (url_prefix ++ [Str "youtube.com/shorts/"; id_group]);
    Cat (url_prefix ++ [Str "youtube.com/embed/"; id_group]) ].

(** [for pattern in patterns: ... return match.group(1)], else [None]. *)
Fixpoint first_match (ps : list regex) (url : string) : option string :=
  match ps with
  | [] => None
  | pattern :: ps' =>
      match search pattern url with
      | Some m => group m 1
      | None => first_match ps' url
      end
  end.

Definition extract_video_id (url : string) : option string :=
  first_match patterns url.

Definition is_timestamp_line (line : string) : bool :=
  match re_match timestamp_regex line with
  | Some _ => true
  | None => false
  end.

Definition remove_vtt_tags (text : string) : string := sub tag_regex "" text.

Definition format_vtt_timestamp (vtt_time : string) : string :=
  match Str.split vtt_time "." with
  | p :: _ => p
  | [] => vtt_time
  end.

(** The variables of the loop of [process_vtt_file]. *)
Record vtt_state : Type := {
  text_builder : list string;
  seen_segments : gset string;
  current_timestamp : option string;
}.

Definition vtt_init : vtt_state :=
  {| text_builder := []; seen_segments := ∅; current_timestamp := None |}.

(** The first test of the loop body: header, metadata and empty lines. *)
Definition is_skipped (line : string) : bool :=
  String.eqb line ""
  || String.eqb line "WEBVTT"
  || Str.startswith line "NOTE"
  || Str.startswith line "STYLE"
  || Str.startswith line "Kind:"
  || Str.startswith line "Language:".

(** The third test of the loop body:
    [self.is_timestamp_line(line) and not ":" in line]. *)
Definition is_index_marker (line : string) : bool :=
  is_timestamp_line line && negb (Str.contains ":" line).

(** The string appended to [text_builder]:
    [f"[{current_timestamp}] {clean_line}"] if
    [include_timestamps and current_timestamp], else [clean_line]. *)
Definition format_segment (include_timestamps : bool)
    (current_timestamp : option string) (clean_line : string) : string :=
  match current_timestamp with
  | Some t =>
      if include_timestamps && Str.truthy t
      then "[" ++ t ++ "] " ++ clean_line
      else clean_line
  | None => clean_line
  end.

(** One iteration of [for line in lines]. *)
Definition vtt_step (include_timestamps : bool) (st : vtt_state)
    (raw : string) : vtt_state :=
  let line := Str.strip raw in
  if is_skipped line then st
  else if Str.contains "-->" line then
    if include_timestamps then
      match Str.split line " --> " with
      | p :: _ =>
          {| text_builder := text_builder st;
             seen_segments := seen_segments st;
             current_timestamp := Some (format_vtt_timestamp p) |}
      | [] => st
      end
    else st
  else if is_index_marker line then st
  else
    let clean_line := remove_vtt_tags line in
    if Str.truthy clean_line then
      if decide (clean_line ∈ seen_segments st) then st
      else
        {| text_builder :=
             text_builder st
             ++ [format_segment include_timestamps (current_timestamp st)
                                clean_line];
           seen_segments := {[clean_line]} ∪ seen_segments st;
           current_timestamp := current_timestamp st |}
    else st.

Definition vtt_loop (include_timestamps : bool) (lines : list string)
    : vtt_state :=
  fold_left (vtt_step include_timestamps) lines vtt_init.

(** ["\n"] *)
Definition newline : string := String "010" "".

(** The segments appended to [text_builder] for a document. *)
Definition emitted_segments (content : string) (include_timestamps : bool)
    : list string :=
  text_builder (vtt_loop include_timestamps (Str.split content newline)).

(** The body of the [try] block; [file] is what opening and reading the
    path gives. *)
Definition process_vtt_body (file : outcome string) (include_timestamps : bool)
    : outcome string :=
  match file with
  | Raise e => Raise e
  | Return content =>
      if negb (Str.truthy (Str.strip content)) then Return ""
      else
        let text_builder := emitted_segments content include_timestamps in
        if include_timestamps
        then Return (Str.join newline text_builder)
        else Return (Str.join " " text_builder)
  end.

(** [try: ... except Exception: return ""] *)
Definition process_vtt_file (file : outcome string) (include_timestamps : bool)
    : outcome string :=
  match process_vtt_body file include_timestamps with
  | Return result => Return result
  | Raise _ => Return ""
  end.

(** *** extract_transcript *)

(** What [subprocess.run(cmd, ..., timeout=120)] does. *)
Inductive run_result : Type :=
| TimeoutExpired
| RunRaised (e : exn)
| Completed (returncode : Z) (stderr : string).

(** A caption document the collaborator left in the scratch directory:
    the final component of its path, and what reading it gives. *)
Record vtt_path : Type := { name : string; read_text : outcome string }.

(** The response of the fetch collaborator to one invocation: the result
    of the subprocess and [list(vtt_dir.rglob("*.vtt"))]. *)
Record fetch_response : Type := {
  run : run_result;
  vtt_files : list vtt_path;
}.

(** The success record. *)
Record success_result : Type := {
  video_id : string;
  video_url : string;
  video_title : string;
  transcript : string;
  transcript_length : nat;
  source : string;
  language : string;
  proxy_used : string;
  includes_timestamps : bool;
}.

(** The failure record of [main]. *)
Record failed_result : Type := {
  failed_video_url : string;
  error : option string;
  attempts : Z;
  failed_source : string;
}.

(** An item of the dataset; the constructor is the [success] field. *)
Inductive dataset_item : Type :=
| Success (r : success_result)
| Failure (r : failed_result).

(** What a run does, as seen from outside. *)
Inductive event : Type :=
| CallExtract (video_url : string)      (* extract_transcript is called *)
| RunYtDlp (youtube_url : string) (proxy : option string)
                                        (* subprocess.run(cmd, ...) *)
| Sleep (seconds : Z)                   (* await asyncio.sleep(seconds) *)
| PushData (item : dataset_item)        (* await Actor.push_data(item) *)
| ActorFail (message : string).         (* await Actor.fail(message) *)

(** [Path.stem]: the final component without its last suffix. *)
Definition stem (name : string) : string :=
  match Str.rfind "." name with
  | Some i =>
      if ((0 <? i) && (i <? String.length name - 1))%nat
      then String.substring 0 i name
      else name
  | None => name
  end.

(** [vtt_file.stem.replace('.en', '').replace('.vtt', '')] *)
Definition title_of (vtt_file : vtt_path) : string :=
  Str.replace (Str.replace (stem (name vtt_file)) ".en" "") ".vtt" "".

Definition invalid_url (video_url : string) : exn :=
  {| exc_type := ValueError;
     exc_message := "Could not extract video ID from URL: " ++ video_url |}.

Definition runtime_error (message : string) : exn :=
  {| exc_type := RuntimeError; exc_message := message |}.

(** [proxy] as a condition: neither [None] nor empty. *)
Definition given (proxy : option string) : option string :=
  match proxy with
  | Some p => if Str.truthy p then Some p else None
  | None => None
  end.

(** The part of [extract_transcript] after the subprocess has run. *)
Definition after_run (video_id video_url : string) (proxy : option string)
    (include_timestamps : bool) (resp : fetch_response)
    : outcome success_result :=
  match run resp with
  | TimeoutExpired =>
      Raise (runtime_error "yt-dlp command timed out after 120 seconds")
  | RunRaised e => Raise e
  | Completed returncode stderr =>
      if negb (returncode =? 0)%Z then
        Raise (runtime_error ("yt-dlp failed with return code "
                              ++ Str.of_Z returncode ++ ": " ++ stderr))
      else
        match vtt_files resp with
        | [] => Raise (runtime_error "No VTT files found")
        | vtt_file :: _ =>
            match process_vtt_file (read_text vtt_file) include_timestamps with
            | Raise e => Raise e
            | Return transcript_text =>
                if negb (Str.truthy transcript_text)
                   || (String.length (Str.strip transcript_text) =? 0)%nat
                then Raise (runtime_error
                              "No transcript content found in VTT file")
                else
                  Return
                    {| video_id := video_id;
                       video_url := video_url;
                       video_title := title_of vtt_file;
                       transcript := Str.strip transcript_text;
                       transcript_length :=
                         String.length (Str.strip transcript_text);
                       source := "ytdlp_vtt_optimized";
                       language := "en";
                       proxy_used :=
                         match given proxy with
                         | Some p => p
                         | None => "direct"
                         end;
                       includes_timestamps := include_timestamps |}
            end
        end
  end.

(** One call of [extract_transcript]: the events it causes and how it
    ends.  [resp] is consulted only if the subprocess is run. *)
Definition extract_transcript (video_url : string) (proxy : option string)
    (include_timestamps : bool) (resp : fetch_response)
    : list event * outcome success_result :=
  match extract_video_id video_url with
  | None => ([], Raise (invalid_url video_url))
  | Some video_id =>
      if negb (Str.truthy video_id) then ([], Raise (invalid_url video_url))
      else
        ([RunYtDlp ("https://www.youtube.com/watch?v=" ++ video_id)
                   (given proxy)],
         after_run video_id video_url proxy include_timestamps resp)
  end.

(** ** main *)

(** The variables of the retry loop, and the events so far. *)
Record retry_state : Type := {
  retry_count : Z;
  success : bool;
  last_error : option string;
  trace : list event;
}.

Section Item.

Variable max_retries : Z.
Variable proxy : option string.
Variable include_timestamps : bool.
Variable url : string.
(** The collaborator's response to the attempt made when [retry_count]
    is [k]. *)
Variable fetch : nat -> fetch_response.

Definition retry_init : retry_state :=
  {| retry_count := 0; success := false; last_error := None; trace := [] |}.

(** [retry_count < max_retries and not success] *)
Definition loop_cond (st : retry_state) : bool :=
  (retry_count st <? max_retries)%Z && negb (success st).

(** The body of the [while]: the [try] and its [except Exception]. *)
Definition attempt (st : retry_state) : retry_state :=
  let '(evs, res) :=
    extract_transcript url proxy include_timestamps
      (fetch (Z.to_nat (retry_count st))) in
  match res with
  | Return result =>
      {| retry_count := retry_count st;
         success := true;
         last_error := last_error st;
         trace := trace st ++ CallExtract url :: evs
                  ++ [PushData (Success result)] |}
  | Raise e =>
      let retry_count' := (retry_count st + 1)%Z in
      {| retry_count := retry_count';
         success := success st;
         last_error := Some (str_of_exn e);
         trace := trace st ++ CallExtract url :: evs
                  ++ (if (retry_count' <? max_retries)%Z
                      then [Sleep 5] else []) |}
  end.

(** The [while] loop, unfolded at most [fuel] times. *)
Fixpoint while_loop (fuel : nat) (st : retry_state) : retry_state :=
  match fuel with
  | O => st
  | S fuel' => if loop_cond st then while_loop fuel' (attempt st) else st
  end.

Definition failed_record : retry_state -> failed_result :=
  fun st =>
    {| failed_video_url := url;
       error := last_error st;
       attempts := max_retries;
       failed_source := "ytdlp_vtt_optimized" |}.

(** One iteration of [for i, video_url in enumerate(all_urls, 1)]: the
    events it causes.  [max_retries] unfoldings are enough for the loop to
    end (see [process_url_loop_ended]). *)
Definition process_url : list event :=
  let st := while_loop (Z.to_nat max_retries) retry_init in
  if negb (success st)
  then trace st ++ [PushData (Failure (failed_record st))]
  else trace st.

(** How the attempt made when [retry_count] is [k] ends. *)
Definition attempt_outcome (k : nat) : outcome success_result :=
  snd (extract_transcript url proxy include_timestamps (fetch k)).


End Item.

(** An entry of [startUrls]. *)
Inductive start_url : Type :=
| UrlDict (url : option string)
| UrlStr (url : string)
| UrlOther.

(** The input of the Actor; [None] is a key that is absent. *)
Record actor_input : Type := {
  startUrls : option (list start_url);
  videoUrls : option (list string);
  proxy : option string;
  maxRetries : option Z;
  includeTimestamps : option bool;
}.

(** [actor_input.get('maxRetries', 3)] *)
Definition max_retries_of (input : actor_input) : Z :=
  match maxRetries input with
  | Some n => n
  | None => 3
  end.

(** [actor_input.get('includeTimestamps', False)] *)
Definition include_timestamps_of (input : actor_input) : bool :=
  match includeTimestamps input with
  | Some b => b
  | None => false
  end.

(** [all_urls] after both sources have been combined. *)
Definition all_urls (input : actor_input) : list string :=
  flat_map (fun start_url =>
              match start_url with
              | UrlDict (Some url) => if Str.truthy url then [url] else []
              | UrlDict None => []
              | UrlStr url => [url]
              | UrlOther => []
              end)
           (match startUrls input with Some l => l | None => [] end)
  ++ match videoUrls input with Some l => l | None => [] end.

(** The loop over [all_urls]; [i] counts the items done. *)
Fixpoint process_all (input : actor_input)
    (fetch : nat -> nat -> fetch_response) (i : nat) (urls : list string)
    : list event :=
  match urls with
  | [] => []
  | video_url :: urls' =>
      process_url (max_retries_of input) (proxy input)
                  (include_timestamps_of input) video_url (fetch i)
      ++ process_all input fetch (S i) urls'
  end.

(** The events of a run; [fetch i k] is the collaborator's response to
    attempt [k] for item [i]. *)
Definition main (input : actor_input) (fetch : nat -> nat -> fetch_response)
    : list event :=
  match all_urls input with
  | [] => [ActorFail
             "No video URLs provided. Please provide URLs in startUrls or videoUrls fields."]
  | urls => process_all input fetch 0 urls
  end.

(** The records written to the dataset, in order. *)
Definition pushed (evs : list event) : list dataset_item :=
  flat_map (fun ev => match ev with PushData item => [item] | _ => [] end) evs.

(** The delays, in order. *)
Definition sleeps (evs : list event) : list Z :=
  flat_map (fun ev => match ev with Sleep n => [n] | _ => [] end) evs.

(** The calls of [extract_transcript], in order. *)
Definition calls (evs : list event) : list string :=
  flat_map (fun ev => match ev with CallExtract u => [u] | _ => [] end) evs.

(** ** Notions of the specification *)

(** What the loop body does with a trimmed line. *)
Inductive line_kind : Type :=
| Skipped      (* empty, header or metadata *)
| Timing       (* contains the arrow *)
| IndexMarker  (* discarded as a sequence index *)
| Text.

Definition classify (line : string) : line_kind :=
  if is_skipped line then Skipped
  else if Str.contains "-->" line then Timing
  else if is_index_marker line then IndexMarker
  else Text.

(** The cleaned text of a raw line, if it is a text line with something
    left once its tags are removed. *)
Definition cleaned_text (raw : string) : option string :=
  match classify (Str.strip raw) with
  | Text =>
      let clean_line := remove_vtt_tags (Str.strip raw) in
      if Str.truthy clean_line then Some clean_line else None
  | _ => None
  end.

(** The cleaned texts of the lines, in order, repetitions included. *)
Definition cleaned_of_lines (lines : list string) : list string :=
  omap cleaned_text lines.

Definition cleaned_texts (content : string) : list string :=
  cleaned_of_lines (Str.split content newline).

(** The first occurrence of each element, in order. *)
Fixpoint first_occurrences (l : list string) : list string :=
  match l with
  | [] => []
  | x :: l' => x :: filter (fun y => y ≠ x) (first_occurrences l')
  end.

(** The elements that are not in [seen] and have not come before. *)
Fixpoint dedup_from (seen : gset string) (l : list string) : list string :=
  match l with
  | [] => []
  | x :: l' =>
      if decide (x ∈ seen) then dedup_from seen l'
      else x :: dedup_from ({[x]} ∪ seen) l'
  end.

(** A cleaned segment: the text, and the timestamp attached to it. *)
Record segment : Type := { seg_tag : option string; seg_text : string }.

Definition render (sg : segment) : string :=
  match seg_tag sg with
  | Some t => "[" ++ t ++ "] " ++ seg_text sg
  | None => seg_text sg
  end.

(** The timestamp a segment is given: [current_timestamp], if timestamps
    are asked for and there is one. *)
Definition tag_of (include_timestamps : bool)
    (current_timestamp : option string) : option string :=
  match current_timestamp with
  | Some t => if include_timestamps && Str.truthy t then Some t else None
  | None => None
  end.

(** A string made of decimal digits only. *)
Definition all_digits (s : string) : bool := all_in digit s.

(** "A line consisting solely of digits". *)
Definition solely_digits (line : string) : Prop :=
  line ≠ "" ∧ all_digits line = true.

(** [n] digits. *)
Definition digits_n (n : nat) (s : string) : Prop :=
  String.length s = n ∧ all_digits s = true.

(** "A bare timestamp pattern (H:MM(:SS)?(.mmm)?)", the hour of one or
    two digits. *)
Definition bare_timestamp (line : string) : Prop :=
  ∃ h mm ss ms : string,
    line = (h ++ ":" ++ mm ++ ss ++ ms)%string
    ∧ (digits_n 1 h ∨ digits_n 2 h)
    ∧ digits_n 2 mm
    ∧ (ss = "" ∨ ∃ d : string, ss = (":" ++ d)%string ∧ digits_n 2 d)
    ∧ (ms = "" ∨ ∃ d : string, ms = ("." ++ d)%string ∧ digits_n 3 d).

(** The rule of section 4.1 of the specification for sequence-index
    markers, in its words: "a line consisting solely of digits, OR matching
    a bare timestamp pattern when it contains no colon". *)
Definition spec_index_marker (line : string) : Prop :=
  solely_digits line
  ∨ (bare_timestamp line ∧ Str.contains ":" line = false).

(** A start time in the form [HH:MM:SS.mmm]. *)
Definition vtt_time (s : string) : Prop :=
  ∃ hh mm ss ms : string,
    s = (hh ++ ":" ++ mm ++ ":" ++ ss ++ "." ++ ms)%string
    ∧ digits_n 2 hh ∧ digits_n 2 mm ∧ digits_n 2 ss ∧ digits_n 3 ms.

(** The URL a record is about. *)
Definition item_url (item : dataset_item) : string :=
  match item with
  | Success r => video_url r
  | Failure r => failed_video_url r
  end.

(** What the dataset has received when the loop is left: nothing while
    no attempt has succeeded, the success record after. *)
Definition pushes_ok (url : string) (st : retry_state) : Prop :=
  (success st = false /\ pushed (trace st) = [])
  \/ (success st = true
      /\ exists r, pushed (trace st) = [Success r] /\ video_url r = url).

(** "Fails that item immediately without retrying": one call of
    [extract_transcript] and no delay. *)
Definition fails_immediately (max_retries : Z) (proxy : option string)
    (include_timestamps : bool) (url : string) (fetch : nat -> fetch_response)
    : Prop :=
  calls (process_url max_retries proxy include_timestamps url fetch) = [url]
  /\ sleeps (process_url max_retries proxy include_timestamps url fetch) = [].

(** A call of [extract_transcript] followed by the delay, [n] times. *)
Definition failed_rounds (url : string) (n : nat) : list event :=
  concat (repeat [CallExtract url; Sleep 5] n).

(** A collaborator that always fails with status 1. *)
Definition failing_fetch : nat -> fetch_response :=
  fun _ => {| run := Completed 1 "ERROR: blocked"; vtt_files := [] |}.

(** Patterns that end with the group of the id. *)
Definition id_patterns (ps : list regex) : Prop :=
  Forall (fun p => exists items, p = Cat (items ++ [id_group])) ps.

(** What the collaborator leaves for a video whose title is
    "Node.env tips": the output template is [%(title)s.%(ext)s]. *)
Definition dotenv_response : fetch_response :=
  {| run := Completed 0 "";
     vtt_files :=
       [ {| name := "Node.env tips.en.vtt";
            read_text :=
              Return ("WEBVTT" ++ newline ++ newline
                      ++ "00:00:01.000 --> 00:00:03.000" ++ newline
                      ++ "use a .env file" ++ newline)%string |} ] |}.

(** The dedup scenario of the specification: two consecutive cues with the
    text "hello world". *)
Definition repeated_cue_document : string :=
  ("WEBVTT" ++ newline ++ newline
   ++ "00:00:01.000 --> 00:00:03.000" ++ newline
   ++ "hello world" ++ newline ++ newline
   ++ "00:00:03.000 --> 00:00:05.000" ++ newline
   ++ "hello <c>world</c>" ++ newline)%string.

(** "Cleaned (tag-stripped, trimmed) text content", in the specification's
    words: the tags removed, then the whitespace at both ends. *)
Definition spec_cleaned (text : string) : string :=
  Str.strip (remove_vtt_tags text).

(** "No two segments whose cleaned (tag-stripped, trimmed) text content is
    identical". *)
Definition no_two_alike (segments : list string) : Prop :=
  NoDup (map spec_cleaned segments).

(** Two cues with the same words, the first with a tag at its end: the
    blank before the tag stays when the tag is removed. *)
Definition tag_blank_document : string :=
  ("hello <c>" ++ newline ++ "hello")%string.

(** Any character but the newline. *)
Definition not_newline (c : ascii) : bool := negb (Ascii.eqb c "010").

(** What the loop keeps true of its variables when the lines are made of
    characters in [p]: so are the segments and the current timestamp. *)
Definition made_of (p : ascii -> bool) (st : vtt_state) : Prop :=
  Forall (fun seg => all_in p seg = true) (text_builder st)
  /\ forall t, current_timestamp st = Some t -> all_in p t = true.

(** A document with everything the loop passes over, and no text. *)
Definition no_text_document : string :=
  ("WEBVTT" ++ newline ++ "Kind: captions" ++ newline
   ++ "Language: en" ++ newline ++ newline
   ++ "1" ++ newline
   ++ "00:00:01.000 --> 00:00:03.000" ++ newline
   ++ "<c></c>" ++ newline)%string.

(** A document with two cues. *)
Definition two_cue_document : string :=
  ("WEBVTT" ++ newline ++ newline
   ++ "00:01:02.345 --> 00:01:05.000" ++ newline
   ++ "never gonna <c>give</c>" ++ newline ++ newline
   ++ "00:01:05.000 --> 00:01:07.500 align:start" ++ newline
   ++ "you up" ++ newline)%string.

(** The separator of the output. *)
Definition separator (include_timestamps : bool) : string :=
  if include_timestamps then newline else " ".

(** The characters of [HH:MM:SS] and [HH:MM:SS.mmm]. *)
Definition clock_char (c : ascii) : bool :=
  digit c || Ascii.eqb c ":" || Ascii.eqb c ".".

(** [s.removesuffix(suffix)] *)
Definition removesuffix (s suffix : string) : string :=
  let n := String.length s - String.length suffix in
  if (String.length suffix <=? String.length s)%nat
     && String.eqb (String.substring n (String.length suffix) s) suffix
  then String.substring 0 n s
  else s.

(** The display title in the specification's words: "the caption
    document's filename stem with its known suffixes stripped from the
    end". *)
Definition spec_title (vtt_file : vtt_path) : string :=
  removesuffix (removesuffix (stem (name vtt_file)) ".en") ".vtt".

(** ** Notions for the rest of the code *)

(** The index of the first ">", if there is one. *)
Fixpoint first_gt (s : string) : option nat :=
  match s with
  | EmptyString => None
  | String c s' => if Ascii.eqb c ">" then Some 0 else option_map S (first_gt s')
  end.

(** The length of the tag at the start of [s]: "<", then up to the first
    ">". *)
Definition tag_length (s : string) : option nat :=
  match s with
  | String c s' =>
      if Ascii.eqb c "<" then option_map (fun n => n + 2) (first_gt s')
      else None
  | EmptyString => None
  end.

(** A tag somewhere in [s]. *)
Fixpoint has_tag (s : string) : bool :=
  match s with
  | EmptyString => false
  | String _ s' =>
      match tag_length s with
      | Some _ => true
      | None => has_tag s'
      end
  end.

(** A caption file that cannot be decoded, after a run with status 0. *)
Definition unreadable_response : fetch_response :=
  {| run := Completed 0 "";
     vtt_files :=
       [ {| name := "a.en.vtt";
            read_text :=
              Raise {| exc_type := UnicodeDecodeError;
                       exc_message := "invalid start byte" |} |} ] |}.

(** What the retry loop keeps true of its counters and its trace, for
    [max_retries] at least 1: as many calls as failures, and one more after
    a success; a delay after each failure but the one that exhausts the
    retries. *)
Definition counts_ok (max_retries : Z) (st : retry_state) : Prop :=
  (0 <= retry_count st <= max_retries)%Z
  /\ (success st = true -> (retry_count st < max_retries)%Z)
  /\ length (calls (trace st))
     = Z.to_nat (retry_count st) + (if success st then 1 else 0)
  /\ sleeps (trace st)
     = repeat 5%Z (Z.to_nat (Z.min (retry_count st) (max_retries - 1))).

(** What an event of the item [url] may be: a call for [url], a run of the
    collaborator on the watch page of the id found in [url] with the proxy
    if one is given, a delay of 5 seconds, a record about [url]. *)
Definition event_ok (url : string) (proxy : option string) (ev : event)
    : Prop :=
  match ev with
  | CallExtract u => u = url
  | RunYtDlp u p =>
      (exists id, extract_video_id url = Some id
                  /\ u = ("https://www.youtube.com/watch?v=" ++ id)%string)
      /\ p = given proxy
  | Sleep n => n = 5%Z
  | PushData item => item_url item = url
  | ActorFail _ => False
  end.

(** The texts that come before the id in the four patterns. *)
Definition markers : list string :=
  ["youtube.com/watch?v="; "youtu.be/"; "youtube.com/shorts/";
   "youtube.com/embed/"].

(** The collaborator succeeds at the third attempt. *)
Definition third_time_lucky : nat -> fetch_response :=
  fun k => match k with
           | 2 => dotenv_response
           | _ => failing_fetch k
           end.

(** An event of a run is about one of the input URLs. *)
Definition run_event_ok (input : actor_input) (ev : event) : Prop :=
  exists u, In u (all_urls input) /\ event_ok u (proxy input) ev.

(** An input with one URL, two tries and no proxy. *)
Definition one_url_input : actor_input :=
  {| startUrls := None;
     videoUrls := Some ["https://youtu.be/dQw4w9WgXcQ"];
     proxy := None;
     maxRetries := Some 2%Z;
     includeTimestamps := None |}.

(** What the collaborator leaves for a video whose title is
    "Rick Astley": two caption files, of which the second is never read. *)
Definition plain_response : fetch_response :=
  {| run := Completed 0 "";
     vtt_files :=
       [ {| name := "Rick Astley.en.vtt";
            read_text :=
              Return ("WEBVTT" ++ newline ++ newline
                      ++ "00:00:01.000 --> 00:00:03.000" ++ newline
                      ++ "never gonna give you up" ++ newline)%string |};
         {| name := "Rick Astley.en-orig.vtt";
            read_text := Raise (runtime_error "not read") |} ] |}.

(** * Properties *)

(** ** Strings *)

Lemma append_nil_r (s : string) : (s ++ "")%string = s.
Proof. induction s as [| c s IH]; simpl; [reflexivity | now rewrite IH]. Qed.

Lemma append_assoc (a b c : string) :
  ((a ++ b) ++ c)%string = (a ++ b ++ c)%string.
Proof. induction a as [| x a IH]; simpl; [reflexivity | now rewrite IH]. Qed.

Lemma length_append (a b : string) :
  String.length (a ++ b) = String.length a + String.length b.
Proof. induction a as [| x a IH]; simpl; [reflexivity | now rewrite IH]. Qed.

Lemma prefix_nil (s : string) : String.prefix "" s = true.
Proof. destruct s; reflexivity. Qed.

Lemma prefix_append (p s : string) : String.prefix p (p ++ s) = true.
Proof.
  induction p as [| c p IH]; simpl; [apply prefix_nil |].
  destruct (ascii_dec c c); [exact IH | congruence].
Qed.

(** [p] is a prefix of [s] when [s] is [p] followed by something. *)
Lemma prefix_spec (p s : string) :
  String.prefix p s = true <-> exists t : string, s = (p ++ t)%string.
Proof.
  split.
  - revert s. induction p as [| c p IH]; intros s H; simpl.
    + now exists s.
    + destruct s as [| d s]; simpl in H; [discriminate |].
      destruct (ascii_dec c d) as [-> |]; [| discriminate].
      destruct (IH s H) as [t ->]. now exists t.
  - intros [t ->]. apply prefix_append.
Qed.

Lemma contains_prefix (sub s : string) :
  String.prefix sub s = true -> Str.contains sub s = true.
Proof. intros H. destruct s; simpl in *; rewrite H; reflexivity. Qed.

Lemma contains_append_r (sub a b : string) :
  Str.contains sub b = true -> Str.contains sub (a ++ b) = true.
Proof.
  intros H. induction a as [| c a IH]; simpl; [exact H |].
  rewrite IH. apply orb_true_r.
Qed.

Lemma contains_eq (sub s : string) :
  Str.contains sub s
  = String.prefix sub s
    || match s with
       | String _ s' => Str.contains sub s'
       | EmptyString => false
       end.
Proof. destruct s; reflexivity. Qed.

(** A string with [sub] in it has it at some place. *)
Lemma contains_spec (sub s : string) :
  Str.contains sub s = true
  <-> exists a b : string, s = (a ++ sub ++ b)%string.
Proof.
  split.
  - induction s as [| c s IH]; rewrite contains_eq; intros H;
      apply orb_true_iff in H as [H | H]; try discriminate.
    + apply prefix_spec in H as [t H]. exists "", t. exact H.
    + apply prefix_spec in H as [t H]. exists "", t. exact H.
    + destruct (IH H) as (a & b & ->). exists (String c a), b. reflexivity.
  - intros (a & b & ->).
    apply contains_append_r, contains_prefix, prefix_append.
Qed.

(** ** The matcher is sound for the language of a pattern *)

Lemma star_sound p k pos s g res :
  star p k pos s g = Some res ->
  exists w rest : string,
    s = (w ++ rest)%string
    /\ all_in p w = true
    /\ k (pos + String.length w) rest g = Some res.
Proof.
  revert pos. induction s as [| c s IH]; intros pos H; simpl in H.
  - exists "", "". rewrite Nat.add_0_r. auto.
  - destruct (p c) eqn:Hp.
    + destruct (star p k (S pos) s g) as [r |] eqn:Hs; simpl in H.
      * injection H as ->. destruct (IH _ Hs) as (w & rest & -> & Hw & Hk).
        exists (String c w), rest. simpl. rewrite Hp, Hw.
        rewrite Nat.add_succ_r. auto.
      * exists "", (String c s). rewrite Nat.add_0_r. auto.
    + exists "", (String c s). rewrite Nat.add_0_r. auto.
Qed.

Lemma rep_sound (m : cont -> cont) (L : nat -> string -> string -> Prop) :
  (forall k pos s g res,
      m k pos s g = Some res -> reaches k pos s res (L pos)) ->
  forall hi lo k pos s g res,
    rep m k lo hi pos s g = Some res ->
    reaches k pos s res
      (fun w rest => exists n, lo <= n /\ n <= hi /\ power L n pos w rest).
Proof.
  intros Hm. induction hi as [| hi IH]; intros lo k pos s g res H; simpl in H.
  - destruct lo; [| discriminate].
    exists "", s, g. rewrite Nat.add_0_r. repeat split; auto.
    exists 0. simpl. auto.
  - destruct (m (rep m k (Nat.pred lo) hi) pos s g) as [r |] eqn:Hr;
      simpl in H.
    + injection H as ->.
      destruct (Hm _ _ _ _ _ Hr) as (w1 & rest1 & g1 & -> & Hw1 & Hk1).
      destruct (IH _ _ _ _ _ _ Hk1) as (w2 & rest & g2 & -> & (n & Hlo & Hhi & Hp) & Hk).
      exists (w1 ++ w2)%string, rest, g2.
      rewrite append_assoc, length_append, Nat.add_assoc.
      repeat split; auto.
      exists (S n). repeat split; [lia | lia |].
      simpl. exists w1, w2. auto.
    + destruct lo; [| discriminate].
      exists "", s, g. rewrite Nat.add_0_r. repeat split; auto.
      exists 0. simpl. repeat split; auto; lia.
Qed.

(** If the matcher succeeds, it went on to its continuation after a word of
    the pattern's language. *)
Theorem mtch_sound r :
  forall k pos s g res,
    mtch r k pos s g = Some res -> reaches k pos s res (lang r pos).
Proof.
  induction r as [| c | p | r1 IH1 r2 IH2 | r1 IH1 r2 IH2 | p | p
                 | lo hi r1 IH | n r1 IH | |];
    intros k pos s g res H; simpl in H.
  - exists "", s, g. rewrite Nat.add_0_r. simpl. auto.
  - destruct s as [| d s]; [discriminate |].
    destruct (Ascii.eqb_spec d c) as [-> |]; [| discriminate].
    exists (String c ""), s, g. rewrite Nat.add_1_r. simpl. auto.
  - destruct s as [| d s]; [discriminate |].
    destruct (p d) eqn:Hp; [| discriminate].
    exists (String d ""), s, g. rewrite Nat.add_1_r. simpl. eauto.
  - destruct (IH1 _ _ _ _ _ H) as (w1 & rest1 & g1 & -> & Hw1 & Hk1).
    destruct (IH2 _ _ _ _ _ Hk1) as (w2 & rest & g2 & -> & Hw2 & Hk).
    exists (w1 ++ w2)%string, rest, g2.
    rewrite append_assoc, length_append, Nat.add_assoc.
    repeat split; auto. simpl. exists w1, w2. auto.
  - destruct (mtch r1 k pos s g) as [r |] eqn:H1; simpl in H.
    + injection H as ->.
      destruct (IH1 _ _ _ _ _ H1) as (w & rest & g' & -> & Hw & Hk).
      exists w, rest, g'. simpl. auto.
    + destruct (IH2 _ _ _ _ _ H) as (w & rest & g' & -> & Hw & Hk).
      exists w, rest, g'. simpl. auto.
  - destruct (star_sound _ _ _ _ _ _ H) as (w & rest & -> & Hw & Hk).
    exists w, rest, g. simpl. auto.
  - destruct s as [| d s]; [discriminate |].
    destruct (p d) eqn:Hp; [| discriminate].
    destruct (star_sound _ _ _ _ _ _ H) as (w & rest & -> & Hw & Hk).
    exists (String d w), rest, g. simpl. rewrite Hp, Hw.
    rewrite Nat.add_succ_r. repeat split; auto.
  - destruct (rep_sound (mtch r1) (lang r1) IH _ _ _ _ _ _ _ H)
      as (w & rest & g' & -> & Hw & Hk).
    exists w, rest, g'. simpl. auto.
  - destruct (IH _ _ _ _ _ H) as (w & rest & g' & -> & Hw & Hk).
    exists w, rest, ((n, (pos, pos + String.length w)) :: g'). simpl. auto.
  - destruct pos; [| discriminate].
    exists "", s, g. simpl. auto.
  - destruct (at_end s) eqn:He; [| discriminate].
    exists "", s, g. rewrite Nat.add_0_r. simpl. auto.
Qed.

(** A set of characters, [n] times. *)
Lemma power_set (p : ascii -> bool) (n pos : nat) (w rest : string) :
  power (lang (Set_ p)) n pos w rest ->
  String.length w = n /\ all_in p w = true.
Proof.
  revert pos w. induction n as [| n IH]; intros pos w H; simpl in H.
  - subst w. auto.
  - destruct H as (w1 & w2 & -> & (c & -> & Hc) & H).
    destruct (IH _ _ H) as [Hl Ha]. simpl. now rewrite Hl, Hc, Ha.
Qed.

(** ** Trimmed lines *)

Lemma rstrip_end (s w : string) (c : ascii) :
  Str.rstrip s = (w ++ String c "")%string -> Str.is_space c = false.
Proof.
  revert w. induction s as [| a s IH]; intros w H; simpl in H.
  - destruct w; discriminate.
  - destruct (Str.rstrip s) as [| b r] eqn:Hr.
    + destruct (Str.is_space a) eqn:Ha.
      * destruct w; discriminate.
      * destruct w as [| x w]; simpl in H.
        -- now injection H as <-.
        -- injection H as _ H. destruct w; discriminate.
    + destruct w as [| x w]; simpl in H; [discriminate |].
      injection H as _ H. now apply (IH w).
Qed.

Lemma strip_end (raw w : string) (c : ascii) :
  Str.strip raw = (w ++ String c "")%string -> Str.is_space c = false.
Proof. apply rstrip_end. Qed.

(** At the end of a trimmed line, [$] means the end. *)
Lemma strip_at_end (raw w rest : string) :
  Str.strip raw = (w ++ rest)%string -> at_end rest = true -> rest = "".
Proof.
  intros H He. destruct rest as [| c rest]; [reflexivity |].
  destruct rest; [| discriminate]. simpl in He.
  apply Ascii.eqb_eq in He as ->.
  apply strip_end in H. discriminate.
Qed.

(** ** The sequence-index guard *)

Lemma all_digits_no_colon (s : string) :
  all_digits s = true -> Str.contains ":" s = false.
Proof.
  induction s as [| c s IH]; intros H; [reflexivity |].
  simpl in H. apply andb_true_iff in H as [Hc Hs].
  rewrite contains_eq, (IH Hs), orb_false_r.
  change (String.prefix ":" (String c s))
    with (if ascii_dec ":" c then String.prefix "" s else false).
  destruct (ascii_dec ":" c) as [<- |]; [discriminate | reflexivity].
Qed.

Lemma star_all_in p k s pos g :
  all_in p s = true ->
  k (pos + String.length s) "" g <> None ->
  star p k pos s g <> None.
Proof.
  revert pos. induction s as [| c s IH]; intros pos Hs Hk; simpl in *.
  - now rewrite Nat.add_0_r in Hk.
  - apply andb_true_iff in Hs as [-> Hs].
    rewrite Nat.add_succ_r in Hk.
    specialize (IH (S pos) Hs Hk).
    destruct (star p k (S pos) s g); [discriminate | contradiction].
Qed.

(** The first alternative, [^\d+$], on a trimmed line. *)
Lemma digits_pattern_trimmed (raw : string) :
  mtch digits_pattern accept 0 (Str.strip raw) [] <> None
  <-> solely_digits (Str.strip raw).
Proof.
  split.
  - destruct (mtch _ _ _ _ _) as [res |] eqn:H; [intros _ | congruence].
    apply mtch_sound in H as (w & rest & g & Hl & Hw & _).
    simpl in Hw.
    destruct Hw as (w1 & w2 & -> & [-> _] & w3 & w4 & -> & [Hne Hd]
                    & w5 & w6 & -> & [-> He] & ->).
    simpl in *. rewrite !append_nil_r in *.
    rewrite (strip_at_end raw w3 rest Hl He), append_nil_r in Hl.
    rewrite Hl. split; assumption.
  - intros [Hne Hd]. unfold digits_pattern. simpl.
    destruct (Str.strip raw) as [| c s]; [contradiction |].
    simpl in Hd. apply andb_true_iff in Hd as [-> Hd].
    apply star_all_in; [exact Hd |]. discriminate.
Qed.

(** The second alternative matches lines with a colon only. *)
Lemma clock_pattern_colon (line : string) :
  mtch clock_pattern accept 0 line [] <> None ->
  Str.contains ":" line = true.
Proof.
  destruct (mtch _ _ _ _ _) as [res |] eqn:H; [intros _ | congruence].
  apply mtch_sound in H as (w & rest & g & -> & Hw & _).
  unfold clock_pattern in Hw. cbn [lang Cat fold_right] in Hw.
  destruct Hw as (w1 & w2 & -> & [-> _] & w3 & w4 & -> & _
                  & w5 & w6 & -> & -> & _).
  apply contains_spec. exists w3, (w6 ++ rest)%string.
  simpl. now rewrite !append_assoc.
Qed.

Lemma bare_timestamp_colon (line : string) :
  bare_timestamp line -> Str.contains ":" line = true.
Proof.
  intros (h & mm & ss & ms & -> & _).
  apply contains_spec. exists h, (mm ++ ss ++ ms)%string. reflexivity.
Qed.

(** [timestamp_regex.match(line)] succeeds when one of the alternatives
    does. *)
Lemma is_timestamp_line_alternatives (line : string) :
  is_timestamp_line line = true
  <-> mtch digits_pattern accept 0 line [] <> None
      \/ mtch clock_pattern accept 0 line [] <> None.
Proof.
  unfold is_timestamp_line, re_match, timestamp_regex.
  change (mtch (Alt digits_pattern clock_pattern) accept 0 line [])
    with (or_else (mtch digits_pattern accept 0 line [])
                  (mtch clock_pattern accept 0 line [])).
  destruct (mtch digits_pattern accept 0 line []) as [[e1 g1] |];
    destruct (mtch clock_pattern accept 0 line []) as [[e2 g2] |]; simpl;
    split; auto; try (intros _; left; discriminate);
    try (intros _; right; discriminate).
  intros [H | H]; contradiction.
Qed.

(** The guard of the code holds for the lines made of digits, and for
    no other trimmed line. *)
Lemma is_index_marker_digits (raw : string) :
  is_index_marker (Str.strip raw) = true <-> solely_digits (Str.strip raw).
Proof.
  unfold is_index_marker. rewrite andb_true_iff, negb_true_iff.
  rewrite is_timestamp_line_alternatives. split.
  - intros [[H | H] Hc].
    + now apply digits_pattern_trimmed.
    + apply clock_pattern_colon in H. congruence.
  - intros Hd. split.
    + left. now apply digits_pattern_trimmed.
    + apply all_digits_no_colon, Hd.
Qed.

(** The second alternative on a trimmed line: the shape of a bare
    timestamp. *)
Lemma clock_pattern_sound (raw : string) :
  mtch clock_pattern accept 0 (Str.strip raw) [] <> None ->
  bare_timestamp (Str.strip raw).
Proof.
  destruct (mtch _ _ _ _ _) as [res |] eqn:H; [intros _ | congruence].
  apply mtch_sound in H as (w & rest & g & Hl & Hw & _).
  unfold clock_pattern in Hw. cbn [lang Cat fold_right Opt Times] in Hw.
  destruct Hw as (w1 & w2 & -> & [-> _] & h & w4 & -> & (nh & Hh1 & Hh2 & Hh)
                  & w5 & w6 & -> & -> & mm & w8 & -> & (nm & Hm1 & Hm2 & Hm)
                  & ss & w10 & -> & (n1 & _ & Hs2 & Hss)
                  & ms & w12 & -> & (n2 & _ & Hms2 & Hms)
                  & w13 & w14 & -> & [-> He] & ->).
  apply power_set in Hh as [Lh Dh]. apply power_set in Hm as [Lm Dm].
  simpl in Hl. rewrite !append_nil_r in Hl.
  assert (rest = "") as ->.
  { eapply strip_at_end; [exact Hl | exact He]. }
  rewrite append_nil_r in Hl. rewrite Hl.
  exists h, mm, ss, ms. split; [reflexivity |].
  split; [| split; [| split]].
  - destruct nh as [| [| [| ?]]]; try lia; [left | right]; now split.
  - assert (nm = 2) as -> by lia. now split.
  - destruct n1 as [| [| ?]]; try lia; simpl in Hss; [now left | right].
    destruct Hss as (u1 & u2 & -> & (x1 & x2 & -> & -> & x3 & x4 & ->
                                     & (n & Hn1 & Hn2 & Hp) & ->) & ->).
    apply power_set in Hp as [Lp Dp].
    exists x3. rewrite !append_nil_r. split; [reflexivity |].
    assert (n = 2) as -> by lia. now split.
  - destruct n2 as [| [| ?]]; try lia; simpl in Hms; [now left | right].
    destruct Hms as (u1 & u2 & -> & (x1 & x2 & -> & -> & x3 & x4 & ->
                                     & (n & Hn1 & Hn2 & Hp) & ->) & ->).
    apply power_set in Hp as [Lp Dp].
    exists x3. rewrite !append_nil_r. split; [reflexivity |].
    assert (n = 3) as -> by lia. now split.
Qed.

Lemma digits_1 (s : string) :
  digits_n 1 s -> exists a, s = String a "" /\ digit a = true.
Proof.
  intros [L D]. destruct s as [| a [| ? ?]]; try discriminate L.
  unfold all_digits in D. simpl in D. rewrite andb_true_r in D. eauto.
Qed.

Lemma digits_2 (s : string) :
  digits_n 2 s ->
  exists a b, s = String a (String b "") /\ digit a = true /\ digit b = true.
Proof.
  intros [L D]. destruct s as [| a [| b [| ? ?]]]; try discriminate L.
  unfold all_digits in D. simpl in D. rewrite andb_true_r in D. apply andb_true_iff in D. eauto.
Qed.

Lemma digits_3 (s : string) :
  digits_n 3 s ->
  exists a b c,
    s = String a (String b (String c ""))
    /\ digit a = true /\ digit b = true /\ digit c = true.
Proof.
  intros [L D]. destruct s as [| a [| b [| c [| ? ?]]]]; try discriminate L.
  unfold all_digits in D. simpl in D. rewrite andb_true_r in D.
  apply andb_true_iff in D as [Da D]. apply andb_true_iff in D as [Db Dc].
  exists a, b, c. auto.
Qed.

(** A line of the shape of a bare timestamp is matched by the second
    alternative. *)
Lemma clock_pattern_complete (line : string) :
  bare_timestamp line -> mtch clock_pattern accept 0 line [] <> None.
Proof.
  intros (h & mm & ss & ms & -> & Hh & Hm & Hs & Hms).
  apply digits_2 in Hm as (m1 & m2 & -> & Hm1 & Hm2).
  assert (Hcolon : digit ":" = false) by reflexivity.
  assert (Hdot : digit "." = false) by reflexivity.
  destruct Hh as [(h1 & -> & Hh1)%digits_1 | (h1 & h2 & -> & Hh1 & Hh2)%digits_2];
    destruct Hs as [-> | (d & -> & (s1 & s2 & -> & Hs1 & Hs2)%digits_2)];
    destruct Hms as [-> | (e & -> & (e1 & e2 & e3 & -> & He1 & He2 & He3)%digits_3)];
    unfold clock_pattern; cbn;
    rewrite ?Hh1, ?Hh2, ?Hm1, ?Hm2, ?Hs1, ?Hs2, ?He1, ?He2, ?He3, ?Hcolon, ?Hdot;
    cbn; discriminate.
Qed.

(** The rule of the specification comes to the same lines: its second
    case is empty, a bare timestamp has a colon. *)
Lemma spec_index_marker_digits (line : string) :
  spec_index_marker line <-> solely_digits line.
Proof.
  split; [| now left].
  intros [H | [H Hc]]; [exact H |].
  apply bare_timestamp_colon in H. congruence.
Qed.

(** The regex of the code, on a trimmed line, is the shape the
    specification describes: digits only, or a bare timestamp. *)
Lemma is_timestamp_line_shape (raw : string) :
  is_timestamp_line (Str.strip raw) = true
  <-> solely_digits (Str.strip raw) \/ bare_timestamp (Str.strip raw).
Proof.
  rewrite is_timestamp_line_alternatives, digits_pattern_trimmed.
  split; (intros [H | H]; [now left | right]).
  - now apply clock_pattern_sound.
  - now apply clock_pattern_complete.
Qed.

(** C6: for a trimmed line that is neither empty, nor a header or metadata
    line, nor a timing line, the guard of the code,
    [is_timestamp_line(line) and not ":" in line], holds exactly when the
    rule of the specification does (the line is made of digits only, or it
    has the shape of a bare timestamp and no colon); these are the lines the
    loop classifies as sequence-index markers and passes over.  The regex of
    the guard itself matches the digit-only lines and the bare timestamps
    H:MM(:SS)?(.mmm)?, and nothing else. *)
Theorem C6_index_marker_guard (raw : string) :
  is_skipped (Str.strip raw) = false ->
  Str.contains "-->" (Str.strip raw) = false ->
  (is_index_marker (Str.strip raw) = true
   <-> spec_index_marker (Str.strip raw))
  /\ (classify (Str.strip raw) = IndexMarker
      <-> spec_index_marker (Str.strip raw))
  /\ (spec_index_marker (Str.strip raw) ->
      forall include_timestamps st, vtt_step include_timestamps st raw = st)
  /\ (is_timestamp_line (Str.strip raw) = true
      <-> solely_digits (Str.strip raw) \/ bare_timestamp (Str.strip raw)).
Proof.
  intros Hs Ht.
  assert (Hg : is_index_marker (Str.strip raw) = true
               <-> spec_index_marker (Str.strip raw)).
  { rewrite spec_index_marker_digits. apply is_index_marker_digits. }
  split; [exact Hg |]. split; [| split].
  - rewrite <- Hg. unfold classify. rewrite Hs, Ht.
    destruct (is_index_marker (Str.strip raw)); split; congruence.
  - intros H include_timestamps st. apply Hg in H.
    unfold vtt_step. cbv zeta. now rewrite Hs, Ht, H.
  - apply is_timestamp_line_shape.
Qed.

Lemma C6_witness :
  (is_index_marker (Str.strip " 42 ") = true
   <-> spec_index_marker (Str.strip " 42 "))
  /\ (classify (Str.strip " 42 ") = IndexMarker
      <-> spec_index_marker (Str.strip " 42 "))
  /\ (spec_index_marker (Str.strip " 42 ") ->
      forall include_timestamps st, vtt_step include_timestamps st " 42 " = st)
  /\ (is_timestamp_line (Str.strip " 42 ") = true
      <-> solely_digits (Str.strip " 42 ") \/ bare_timestamp (Str.strip " 42 ")).
Proof.
  apply (C6_index_marker_guard " 42 "); reflexivity.
Defined.

(** ** The video id *)

Lemma substring_middle (a w rest : string) :
  String.substring (String.length a) (String.length w) (a ++ w ++ rest) = w.
Proof.
  induction a as [| c a IH]; simpl; [| exact IH].
  induction w as [| d w IHw]; simpl; [now destruct rest | now rewrite IHw].
Qed.

(** A pattern that ends with the group of the id: what was matched ends
    with eleven id characters, and group 1 spans them. *)
Lemma id_pattern_sound (items : list regex) :
  forall pos s g e gout,
    mtch (Cat (items ++ [id_group])) accept pos s g = Some (e, gout) ->
    exists w1 w rest : string,
      s = (w1 ++ w ++ rest)%string
      /\ String.length w = 11
      /\ all_in id_char w = true
      /\ span_of 1 gout
         = Some (pos + String.length w1, pos + String.length w1 + 11).
Proof.
  induction items as [| r items IH]; intros pos s g e gout H.
  - change (mtch (Times 11 (Set_ id_char))
              (fun pos' s' g' => accept pos' s' ((1, (pos, pos')) :: g'))
              pos s g = Some (e, gout)) in H.
    apply mtch_sound in H as (w & rest & g' & -> & (n & Hlo & Hhi & Hp) & Hk).
    apply power_set in Hp as [Hl Ha].
    assert (n = 11) as -> by lia.
    injection Hk as _ <-.
    exists "", w, rest. simpl. rewrite Nat.add_0_r, Hl. auto.
  - change (mtch r (mtch (Cat (items ++ [id_group])) accept) pos s g
            = Some (e, gout)) in H.
    apply mtch_sound in H as (w0 & rest0 & g0 & -> & _ & Hk).
    destruct (IH _ _ _ _ _ Hk) as (w1 & w & rest & -> & Hl & Ha & Hsp).
    exists (w0 ++ w1)%string, w, rest.
    rewrite append_assoc, length_append, Nat.add_assoc. auto.
Qed.

Lemma search_from_id (items : list regex) (whole : string) :
  forall s pos pre m,
    whole = (pre ++ s)%string ->
    String.length pre = pos ->
    search_from (Cat (items ++ [id_group])) whole pos s = Some m ->
    exists id,
      group m 1 = Some id
      /\ String.length id = 11
      /\ all_in id_char id = true
      /\ Str.contains id whole = true.
Proof.
  induction s as [| c s IH]; intros pos pre m Hw Hp H;
    cbn [search_from] in H;
    destruct (mtch (Cat (items ++ [id_group])) accept pos _ [])
      as [[e g] |] eqn:Hm.
  1, 3: injection H as <-;
    apply id_pattern_sound in Hm as (w1 & w & rest & Hs & Hl & Ha & Hsp);
    exists w; unfold group; cbn [m_groups subject]; rewrite Hsp;
    rewrite Hw, Hs, <- Hp, <- append_assoc, <- length_append;
    replace (String.length (pre ++ w1) + 11 - String.length (pre ++ w1))
      with (String.length w) by lia;
    rewrite substring_middle; repeat split; auto;
    apply contains_spec; now exists (pre ++ w1)%string, rest.
  - discriminate.
  - apply (IH (S pos) (pre ++ String c "")%string m); auto.
    + now rewrite append_assoc.
    + rewrite length_append. simpl. lia.
Qed.

Lemma search_id (items : list regex) (url : string) (m : match_object) :
  search (Cat (items ++ [id_group])) url = Some m ->
  exists id,
    group m 1 = Some id
    /\ String.length id = 11
    /\ all_in id_char id = true
    /\ Str.contains id url = true.
Proof. apply (search_from_id items url url 0 ""); reflexivity. Qed.

Lemma patterns_id_patterns : id_patterns patterns.
Proof.
  unfold id_patterns, patterns.
  repeat constructor;
    match goal with
    | |- exists items, Cat (url_prefix ++ [?l; id_group]) = _ =>
        exists (url_prefix ++ [l]); reflexivity
    end.
Qed.

Lemma first_match_some (ps : list regex) (url id : string) :
  id_patterns ps ->
  first_match ps url = Some id ->
  String.length id = 11
  /\ all_in id_char id = true
  /\ Str.contains id url = true.
Proof.
  induction 1 as [| p ps [items ->] _ IH]; simpl; [discriminate |].
  destruct (search _ url) as [m |] eqn:Hs; [| exact IH].
  apply search_id in Hs as (id' & -> & Hid). now intros [= <-].
Qed.

Lemma first_match_none (ps : list regex) (url : string) :
  id_patterns ps ->
  first_match ps url = None <-> Forall (fun p => search p url = None) ps.
Proof.
  induction 1 as [| p ps [items ->] _ IH]; simpl.
  - split; auto.
  - destruct (search _ url) as [m |] eqn:Hs.
    + destruct (search_id _ _ _ Hs) as (id' & -> & _).
      split; [discriminate |]. intros H. inversion H; congruence.
    + rewrite IH. split; [now constructor | intros H; now inversion H].
Qed.

(** ** The loop over the lines *)

Lemma format_segment_render ts cur clean_line :
  format_segment ts cur clean_line
  = render {| seg_tag := tag_of ts cur; seg_text := clean_line |}.
Proof.
  unfold format_segment, render, tag_of. simpl.
  destruct cur as [t |]; [| reflexivity].
  destruct (ts && Str.truthy t); reflexivity.
Qed.

(** What an iteration does to [text_builder] and [seen_segments], by the
    cleaned text of the line. *)
Lemma vtt_step_cleaned ts st raw :
  match cleaned_text raw with
  | None =>
      text_builder (vtt_step ts st raw) = text_builder st
      /\ seen_segments (vtt_step ts st raw) = seen_segments st
  | Some c =>
      if decide (c ∈ seen_segments st) then vtt_step ts st raw = st
      else
        vtt_step ts st raw
        = {| text_builder :=
               text_builder st
               ++ [render {| seg_tag := tag_of ts (current_timestamp st);
                             seg_text := c |}];
             seen_segments := {[c]} ∪ seen_segments st;
             current_timestamp := current_timestamp st |}
  end.
Proof.
  unfold cleaned_text, classify, vtt_step. cbv zeta.
  destruct (is_skipped (Str.strip raw)); [auto |].
  destruct (Str.contains "-->" (Str.strip raw)).
  { destruct ts; [| auto]. destruct (Str.split _ _); auto. }
  destruct (is_index_marker (Str.strip raw)); [auto |].
  destruct (Str.truthy (remove_vtt_tags (Str.strip raw))); [| auto].
  destruct (decide (_ ∈ _)); [reflexivity |].
  now rewrite format_segment_render.
Qed.

(** Only timing lines change [current_timestamp]. *)
Lemma vtt_step_timestamp ts st raw :
  classify (Str.strip raw) <> Timing ->
  current_timestamp (vtt_step ts st raw) = current_timestamp st.
Proof.
  unfold classify, vtt_step. cbv zeta.
  destruct (is_skipped (Str.strip raw)); [auto |].
  destruct (Str.contains "-->" (Str.strip raw)); [congruence |].
  destruct (is_index_marker (Str.strip raw)); [auto |].
  destruct (Str.truthy _); [| auto].
  destruct (decide (_ ∈ _)); reflexivity.
Qed.

Lemma cleaned_of_lines_cons (raw : string) (lines : list string) :
  cleaned_of_lines (raw :: lines)
  = match cleaned_text raw with
    | Some c => c :: cleaned_of_lines lines
    | None => cleaned_of_lines lines
    end.
Proof. reflexivity. Qed.

(** The loop from any state: the segments it adds are the cleaned texts
    that are new, each under the timestamp current at its line. *)
Lemma vtt_fold_segments ts lines :
  forall st,
    exists segs : list segment,
      text_builder (fold_left (vtt_step ts) lines st)
      = text_builder st ++ map render segs
      /\ map seg_text segs
         = dedup_from (seen_segments st) (cleaned_of_lines lines)
      /\ seen_segments (fold_left (vtt_step ts) lines st)
         = list_to_set (cleaned_of_lines lines) ∪ seen_segments st
      /\ (ts = false -> Forall (fun sg => seg_tag sg = None) segs).
Proof.
  induction lines as [| raw lines IH]; intros st.
  - exists []. simpl. rewrite app_nil_r. repeat split; auto.
    unfold cleaned_of_lines. simpl. set_solver.
  - cbn [fold_left]. rewrite cleaned_of_lines_cons.
    pose proof (vtt_step_cleaned ts st raw) as Hstep.
    destruct (IH (vtt_step ts st raw)) as (segs & Htb & Htx & Hseen & Htag).
    destruct (cleaned_text raw) as [c |].
    + cbn [dedup_from]. destruct (decide (c ∈ seen_segments st)).
      * rewrite Hstep in Htb, Htx, Hseen. rewrite Hstep.
        exists segs. repeat split; auto.
        rewrite Hseen. set_solver.
      * rewrite Hstep in Htb, Htx, Hseen. rewrite Hstep.
        cbn in Htb, Htx, Hseen.
        exists ({| seg_tag := tag_of ts (current_timestamp st);
                   seg_text := c |} :: segs).
        cbn [map seg_text]. rewrite Htb, Htx, Hseen, <- app_assoc.
        repeat split; auto; [set_solver |].
        intros ->. constructor; [| auto].
        simpl. unfold tag_of. now destruct (current_timestamp st).
    + destruct Hstep as [Ht Hs]. rewrite Ht in Htb. rewrite Hs in Htx, Hseen.
      exists segs. simpl. auto.
Qed.

Lemma elem_of_first_occurrences (x : string) (l : list string) :
  x ∈ first_occurrences l <-> x ∈ l.
Proof.
  induction l as [| y l IH]; simpl; [reflexivity |].
  rewrite !elem_of_cons, list_elem_of_filter, IH.
  destruct (decide (x = y)); naive_solver.
Qed.

Lemma NoDup_first_occurrences (l : list string) : NoDup (first_occurrences l).
Proof.
  induction l as [| y l IH]; simpl; constructor.
  - rewrite list_elem_of_filter. naive_solver.
  - now apply NoDup_filter.
Qed.

Lemma dedup_from_filter (seen : gset string) (l : list string) :
  dedup_from seen l = filter (fun y => y ∉ seen) (first_occurrences l).
Proof.
  revert seen. induction l as [| x l IH]; intros seen; simpl; [reflexivity |].
  rewrite filter_cons. destruct (decide (x ∈ seen)) as [Hin | Hout].
  - rewrite decide_False by tauto.
    rewrite IH, list_filter_filter. apply list_filter_iff.
    intros y. split; [| tauto]. intros Hy. split; [exact Hy | congruence].
  - rewrite decide_True by exact Hout.
    rewrite IH, list_filter_filter. f_equal. apply list_filter_iff.
    intros y. set_solver.
Qed.

Lemma dedup_from_empty (l : list string) :
  dedup_from ∅ l = first_occurrences l.
Proof.
  rewrite dedup_from_filter. induction (first_occurrences l) as [| x t IH];
    [reflexivity |].
  rewrite filter_cons, decide_True by set_solver. now rewrite IH.
Qed.

Lemma emitted_segments_spec (content : string) (ts : bool) :
  exists segs : list segment,
    emitted_segments content ts = map render segs
    /\ map seg_text segs = first_occurrences (cleaned_texts content)
    /\ (ts = false -> Forall (fun sg => seg_tag sg = None) segs).
Proof.
  unfold emitted_segments, vtt_loop.
  destruct (vtt_fold_segments ts (Str.split content newline) vtt_init)
    as (segs & Htb & Htx & _ & Htag).
  exists segs. rewrite Htb, Htx. simpl. now rewrite dedup_from_empty.
Qed.

Lemma render_untagged (segs : list segment) :
  Forall (fun sg => seg_tag sg = None) segs ->
  map render segs = map seg_text segs.
Proof.
  induction 1 as [| sg segs Hsg _ IH]; simpl; [reflexivity |].
  unfold render at 1. now rewrite Hsg, IH.
Qed.

(** C2, as stated, fails: the text the loop compares is the line trimmed
    and then tag-stripped, and it is not trimmed again.  The lines
    "hello <c>" and "hello" give the two segments "hello " and "hello",
    whose tag-stripped, trimmed text is the same, with either value of the
    flag. *)
Lemma C2_counterexample :
  emitted_segments tag_blank_document false = ["hello "; "hello"]
  /\ emitted_segments tag_blank_document true = ["hello "; "hello"]
  /\ map spec_cleaned (emitted_segments tag_blank_document false)
     = ["hello"; "hello"]
  /\ ~ no_two_alike (emitted_segments tag_blank_document false)
  /\ ~ no_two_alike (emitted_segments tag_blank_document true).
Proof.
  assert (Hdup : ~ NoDup ["hello"; "hello"]).
  { intros H. apply NoDup_cons in H as [Hnot _]. apply Hnot. now left. }
  split; [reflexivity |]. split; [reflexivity |]. split; [reflexivity |].
  split; exact Hdup.
Qed.

(** C2, amended: whatever the document and the flag, every emitted segment
    is a cleaned text, under its timestamp if it has one, where the cleaned
    text of a line is the line trimmed and then tag-stripped (not trimmed
    again); the cleaned texts of the emitted segments are the first
    occurrences, in order, of the cleaned texts of the document: no two of
    them are the same string.  Without timestamps the emitted segments are
    these texts themselves.  In the scenario of the specification,
    "hello world" comes out once. *)
Theorem C2_emitted_texts_are_first_occurrences
    (content : string) (include_timestamps : bool) :
  (exists segs : list segment,
      emitted_segments content include_timestamps = map render segs
      /\ map seg_text segs = first_occurrences (cleaned_texts content)
      /\ NoDup (map seg_text segs))
  /\ emitted_segments content false = first_occurrences (cleaned_texts content)
  /\ emitted_segments repeated_cue_document false = ["hello world"]
  /\ emitted_segments repeated_cue_document true = ["[00:00:01] hello world"].
Proof.
  split; [| split; [| split; reflexivity]].
  - destruct (emitted_segments_spec content include_timestamps)
      as (segs & He & Ht & _).
    exists segs. rewrite Ht. auto using NoDup_first_occurrences.
  - destruct (emitted_segments_spec content false) as (segs & He & Ht & Hn).
    now rewrite He, render_untagged, Ht by auto.
Qed.

(** The line is trimmed before its tags are removed, and not again after:
    a text that ends with a tag keeps the blank before it, and is another
    text than the one without the blank. *)
Example cleaned_text_keeps_inner_blank :
  cleaned_text "hello <c>" = Some "hello "
  /\ cleaned_text "  hello  " = Some "hello"
  /\ emitted_segments ("hello <c>" ++ newline ++ "hello") false
     = ["hello "; "hello"].
Proof. repeat split; reflexivity. Qed.

(** A line with the shape of a timestamp and a colon is a text line. *)
Example clock_line_is_text :
  is_timestamp_line "1:23" = true
  /\ classify "1:23" = Text
  /\ emitted_segments ("7" ++ newline ++ "1:23") false = ["1:23"].
Proof. repeat split; reflexivity. Qed.

(** ** Characters kept by the string operations *)

Lemma all_in_append (p : ascii -> bool) (a b : string) :
  all_in p (a ++ b) = all_in p a && all_in p b.
Proof.
  induction a as [| c a IH]; simpl; [reflexivity |].
  now rewrite IH, andb_assoc.
Qed.

Lemma lstrip_all_in (p : ascii -> bool) (s : string) :
  all_in p s = true -> all_in p (Str.lstrip s) = true.
Proof.
  induction s as [| c s IH]; simpl; [auto |].
  intros H. destruct (Str.is_space c); [| exact H].
  apply IH. now apply andb_true_iff in H.
Qed.

Lemma rstrip_all_in (p : ascii -> bool) (s : string) :
  all_in p s = true -> all_in p (Str.rstrip s) = true.
Proof.
  induction s as [| c s IH]; simpl; [auto |].
  intros H. apply andb_true_iff in H as [Hc Hs]. specialize (IH Hs).
  destruct (Str.rstrip s) as [| d r].
  - destruct (Str.is_space c); simpl; [reflexivity | now rewrite Hc].
  - change (all_in p (String c (String d r)))
      with (p c && all_in p (String d r)). now rewrite Hc, IH.
Qed.

Lemma strip_all_in (p : ascii -> bool) (s : string) :
  all_in p s = true -> all_in p (Str.strip s) = true.
Proof. intros H. now apply rstrip_all_in, lstrip_all_in. Qed.

Lemma split_go_cons (sep : string) (skip : nat) (c : ascii) (s : string) :
  Str.split_go sep skip (String c s)
  = match skip with
    | S n => Str.split_go sep n s
    | O =>
        if String.prefix sep (String c s)
        then "" :: Str.split_go sep (String.length sep - 1) s
        else match Str.split_go sep 0 s with
             | h :: t => String c h :: t
             | [] => [String c ""]
             end
    end.
Proof. reflexivity. Qed.

Lemma split_go_all_in (p : ascii -> bool) (sep s : string) :
  all_in p s = true ->
  forall skip, Forall (fun l => all_in p l = true) (Str.split_go sep skip s).
Proof.
  induction s as [| c s IH]; intros H skip.
  - now repeat constructor.
  - rewrite split_go_cons.
    simpl in H. apply andb_true_iff in H as [Hc Hs].
    destruct skip; [| now apply IH].
    destruct (String.prefix sep (String c s)).
    + constructor; [reflexivity | now apply IH].
    + specialize (IH Hs 0). destruct (Str.split_go sep 0 s) as [| h t].
      * repeat constructor. simpl. now rewrite Hc.
      * inversion IH as [| ? ? Hh Ht]; subst.
        constructor; [| exact Ht]. simpl. now rewrite Hc, Hh.
Qed.

Lemma sub_go_all_in (p : ascii -> bool) (r : regex) (s : string) :
  all_in p s = true ->
  forall pos skip, all_in p (sub_go r "" pos skip s) = true.
Proof.
  induction s as [| c s IH]; intros H pos skip; simpl.
  - destruct skip; [| reflexivity]. now destruct (mtch r accept pos "" []).
  - simpl in H. apply andb_true_iff in H as [Hc Hs].
    destruct skip; [| now apply IH].
    destruct (mtch r accept pos (String c s) []) as [[e g] |].
    + destruct (e =? pos)%nat; simpl; [rewrite Hc |]; now apply IH.
    + simpl. rewrite Hc. now apply IH.
Qed.

Lemma join_all_in (p : ascii -> bool) (sep : string) (l : list string) :
  all_in p sep = true ->
  Forall (fun x => all_in p x = true) l ->
  all_in p (Str.join sep l) = true.
Proof.
  intros Hsep. induction 1 as [| x l Hx Hl IH]; [reflexivity |].
  destruct l as [| y l]; [exact Hx |].
  change (Str.join sep (x :: y :: l))
    with (x ++ sep ++ Str.join sep (y :: l))%string.
  now rewrite !all_in_append, Hx, Hsep, IH.
Qed.

(** A string without the character [c] does not contain a string that
    starts with it. *)
Lemma all_in_not_contains (c : ascii) (sub s : string) :
  all_in (fun a => negb (Ascii.eqb a c)) s = true ->
  Str.contains (String c sub) s = false.
Proof.
  induction s as [| d s IH]; intros H; [reflexivity |].
  simpl in H. apply andb_true_iff in H as [Hd Hs].
  rewrite contains_eq, (IH Hs), orb_false_r.
  change (String.prefix (String c sub) (String d s))
    with (if ascii_dec c d then String.prefix sub s else false).
  destruct (ascii_dec c d) as [-> |]; [| reflexivity].
  now rewrite Ascii.eqb_refl in Hd.
Qed.

(** ** Whitespace *)

Lemma lstrip_space (s : string) :
  all_in Str.is_space s = true -> Str.lstrip s = "".
Proof.
  induction s as [| c s IH]; simpl; [reflexivity |].
  intros H. apply andb_true_iff in H as [-> Hs]. now apply IH.
Qed.

Lemma rstrip_empty (s : string) :
  Str.rstrip s = "" -> all_in Str.is_space s = true.
Proof.
  induction s as [| c s IH]; simpl; [reflexivity |].
  destruct (Str.rstrip s); [| discriminate].
  destruct (Str.is_space c); [| discriminate]. intros _. now apply IH.
Qed.

Lemma lstrip_space_inv (s : string) :
  all_in Str.is_space (Str.lstrip s) = true -> all_in Str.is_space s = true.
Proof.
  induction s as [| c s IH]; simpl; [reflexivity |].
  destruct (Str.is_space c) eqn:Hc; [exact IH |].
  simpl. now rewrite Hc.
Qed.

(** [s.strip()] is empty exactly for the strings of whitespace. *)
Lemma strip_empty (s : string) :
  Str.strip s = "" <-> all_in Str.is_space s = true.
Proof.
  unfold Str.strip. split.
  - intros H. now apply lstrip_space_inv, rstrip_empty.
  - intros H. now rewrite lstrip_space.
Qed.

Lemma truthy_false (s : string) : Str.truthy s = false <-> s = "".
Proof.
  unfold Str.truthy. rewrite negb_false_iff. apply String.eqb_eq.
Qed.

Lemma cleaned_text_space (raw : string) :
  all_in Str.is_space raw = true -> cleaned_text raw = None.
Proof.
  intros H. unfold cleaned_text. apply strip_empty in H. now rewrite H.
Qed.

Lemma cleaned_of_lines_none (lines : list string) :
  Forall (fun raw => cleaned_text raw = None) lines ->
  cleaned_of_lines lines = [].
Proof.
  induction 1 as [| raw lines Hr _ IH]; [reflexivity |].
  now rewrite cleaned_of_lines_cons, Hr.
Qed.

(** A document of whitespace has no text. *)
Lemma cleaned_texts_space (content : string) :
  all_in Str.is_space content = true -> cleaned_texts content = [].
Proof.
  intros H. apply cleaned_of_lines_none.
  eapply Forall_impl; [apply (split_go_all_in _ _ _ H) |].
  intros raw. apply cleaned_text_space.
Qed.

Lemma emitted_segments_none (content : string) (ts : bool) :
  cleaned_texts content = [] -> emitted_segments content ts = [].
Proof.
  intros H. destruct (emitted_segments_spec content ts) as (segs & -> & Ht & _).
  rewrite H in Ht. now destruct segs.
Qed.

(** ** Segments are made of the characters of their lines *)

Section MadeOf.

Variable p : ascii -> bool.
Hypothesis p_open : p "[" = true.
Hypothesis p_close : p "]" = true.
Hypothesis p_blank : p " " = true.

Lemma split_head_all_in (s sep : string) :
  all_in p s = true ->
  match Str.split s sep with
  | h :: _ => all_in p h = true
  | [] => True
  end.
Proof.
  intros H. pose proof (split_go_all_in p sep s H 0) as Hf.
  unfold Str.split. destruct (Str.split_go sep 0 s); [exact I |].
  now inversion Hf.
Qed.

Lemma format_vtt_timestamp_all_in (vtt_time : string) :
  all_in p vtt_time = true -> all_in p (format_vtt_timestamp vtt_time) = true.
Proof.
  intros H. unfold format_vtt_timestamp.
  pose proof (split_head_all_in vtt_time "." H) as Hh.
  now destruct (Str.split vtt_time ".").
Qed.

Lemma format_segment_all_in ts cur clean_line :
  (forall t, cur = Some t -> all_in p t = true) ->
  all_in p clean_line = true ->
  all_in p (format_segment ts cur clean_line) = true.
Proof.
  intros Hcur Hc. unfold format_segment.
  destruct cur as [t |]; [| exact Hc].
  destruct (ts && Str.truthy t); [| exact Hc].
  rewrite !all_in_append, (Hcur t eq_refl), Hc. simpl.
  now rewrite p_open, p_close, p_blank.
Qed.

Lemma vtt_step_made_of ts st raw :
  all_in p raw = true -> made_of p st -> made_of p (vtt_step ts st raw).
Proof.
  intros Hraw [Htb Hcur]. apply strip_all_in in Hraw.
  unfold vtt_step. cbv zeta.
  destruct (is_skipped (Str.strip raw)); [now split |].
  destruct (Str.contains "-->" (Str.strip raw)).
  { destruct ts; [| now split].
    pose proof (split_head_all_in (Str.strip raw) " --> " Hraw) as Hh.
    destruct (Str.split (Str.strip raw) " --> ") as [| h t]; [now split |].
    split; [exact Htb |]. simpl. intros t' [= <-].
    now apply format_vtt_timestamp_all_in. }
  destruct (is_index_marker (Str.strip raw)); [now split |].
  destruct (Str.truthy _); [| now split].
  destruct (decide (_ ∈ _)); [now split |].
  split; [| exact Hcur]. simpl.
  apply Forall_app. split; [exact Htb |].
  constructor; [| constructor].
  apply format_segment_all_in; [exact Hcur |].
  now apply sub_go_all_in.
Qed.

Lemma vtt_fold_made_of ts lines :
  Forall (fun raw => all_in p raw = true) lines ->
  forall st, made_of p st -> made_of p (fold_left (vtt_step ts) lines st).
Proof.
  induction 1 as [| raw lines Hraw _ IH]; intros st Hst; [exact Hst |].
  simpl. apply IH. now apply vtt_step_made_of.
Qed.

End MadeOf.

(** The lines of a document have no newline in them. *)
Lemma split_newline_free (s : string) :
  Forall (fun l => all_in not_newline l = true) (Str.split s newline).
Proof.
  unfold Str.split. induction s as [| c s IH].
  - now repeat constructor.
  - rewrite split_go_cons.
    change (String.prefix newline (String c s))
      with (if ascii_dec "010" c then String.prefix "" s else false).
    destruct (ascii_dec "010" c) as [<- | Hc].
    + rewrite prefix_nil. now constructor.
    + assert (Hn : not_newline c = true).
      { unfold not_newline.
        destruct (Ascii.eqb_spec c "010"); [congruence | reflexivity]. }
      destruct (Str.split_go newline 0 s) as [| h t]; inversion IH; subst;
        constructor; auto; simpl; rewrite Hn; auto.
Qed.

(** No segment has a newline in it. *)
Lemma emitted_segments_newline_free (content : string) (ts : bool) :
  Forall (fun seg => all_in not_newline seg = true)
         (emitted_segments content ts).
Proof.
  unfold emitted_segments, vtt_loop.
  apply (vtt_fold_made_of not_newline eq_refl eq_refl eq_refl ts
           (Str.split content newline) (split_newline_free content) vtt_init).
  split; [constructor | discriminate].
Qed.

(** Splitting at a separator that starts with [c]: a part without [c],
    followed by the separator, is the first item. *)
Lemma split_go_first (c : ascii) (sep' x rest : string) :
  all_in (fun a => negb (Ascii.eqb a c)) x = true ->
  Str.split_go (String c sep') 0 (x ++ String c sep' ++ rest)
  = x :: Str.split_go (String c sep') (String.length sep') (sep' ++ rest).
Proof.
  induction x as [| a x IH]; intros H.
  - change ("" ++ String c sep' ++ rest)%string
      with (String c (sep' ++ rest)).
    rewrite split_go_cons.
    change (String c (sep' ++ rest)) with (String c sep' ++ rest)%string.
    rewrite prefix_append. simpl. now rewrite Nat.sub_0_r.
  - simpl in H. apply andb_true_iff in H as [Ha Hx].
    change (String a x ++ String c sep' ++ rest)%string
      with (String a (x ++ String c sep' ++ rest)).
    rewrite split_go_cons, (IH Hx).
    change (String.prefix (String c sep') (String a (x ++ String c sep' ++ rest)))
      with (if ascii_dec c a
            then String.prefix sep' (x ++ String c sep' ++ rest) else false).
    destruct (ascii_dec c a) as [-> |]; [| reflexivity].
    now rewrite Ascii.eqb_refl in Ha.
Qed.

(** A string without [c] is one item. *)
Lemma split_go_whole (c : ascii) (sep' x : string) :
  all_in (fun a => negb (Ascii.eqb a c)) x = true ->
  Str.split_go (String c sep') 0 x = [x].
Proof.
  induction x as [| a x IH]; intros H; [reflexivity |].
  simpl in H. apply andb_true_iff in H as [Ha Hx].
  rewrite split_go_cons, (IH Hx).
  change (String.prefix (String c sep') (String a x))
    with (if ascii_dec c a then String.prefix sep' x else false).
  destruct (ascii_dec c a) as [-> |]; [| reflexivity].
  now rewrite Ascii.eqb_refl in Ha.
Qed.

Lemma split_go_nonempty (sep : string) (s : string) (skip : nat) :
  exists h tl, Str.split_go sep skip s = h :: tl.
Proof.
  revert skip. induction s as [| c s IH]; intros skip; [simpl; eauto |].
  rewrite split_go_cons. destruct skip; [| apply IH].
  destruct (String.prefix sep (String c s)); [eauto |].
  destruct (IH 0) as (h & tl & ->). eauto.
Qed.

(** A part without [c] at the start of a string is the start of the first
    item. *)
Lemma split_go_head (c : ascii) (sep' x rest : string) :
  all_in (fun a => negb (Ascii.eqb a c)) x = true ->
  exists h tl,
    Str.split_go (String c sep') 0 (x ++ rest) = (x ++ h)%string :: tl.
Proof.
  induction x as [| a x IH]; intros H.
  - apply split_go_nonempty.
  - simpl in H. apply andb_true_iff in H as [Ha Hx].
    destruct (IH Hx) as (h & tl & Hs). exists h, tl.
    change (String a x ++ rest)%string with (String a (x ++ rest)).
    rewrite split_go_cons, Hs.
    change (String.prefix (String c sep') (String a (x ++ rest)))
      with (if ascii_dec c a then String.prefix sep' (x ++ rest) else false).
    destruct (ascii_dec c a) as [-> |]; [| reflexivity].
    now rewrite Ascii.eqb_refl in Ha.
Qed.

(** Joined with newlines, segments without newlines come back when the
    result is split at the newlines. *)
Lemma split_join_newline (l : list string) :
  l <> [] ->
  Forall (fun seg => all_in not_newline seg = true) l ->
  Str.split (Str.join newline l) newline = l.
Proof.
  intros Hne Hl. induction Hl as [| x l Hx Hl IH]; [contradiction |].
  destruct l as [| y l].
  - apply (split_go_whole "010" "" x Hx).
  - change (Str.join newline (x :: y :: l))
      with (x ++ String "010" "" ++ Str.join newline (y :: l))%string.
    unfold Str.split. change newline with (String "010" "") at 1.
    rewrite (split_go_first "010" "" x (Str.join newline (y :: l)) Hx).
    change (Str.split_go (String "010" "") (String.length "")
              ("" ++ Str.join newline (y :: l))%string)
      with (Str.split (Str.join newline (y :: l)) newline).
    rewrite IH; [reflexivity | discriminate].
Qed.

(** ** The normalizer as a whole *)

(** The early return on a blank document agrees with the loop: it would
    have emitted nothing. *)
Lemma process_vtt_file_join (content : string) (ts : bool) :
  process_vtt_file (Return content) ts
  = Return (Str.join (separator ts) (emitted_segments content ts)).
Proof.
  unfold process_vtt_file, process_vtt_body, separator.
  destruct (Str.truthy (Str.strip content)) eqn:Ht; simpl.
  - now destruct ts.
  - apply truthy_false, strip_empty, cleaned_texts_space in Ht.
    rewrite (emitted_segments_none content ts Ht). now destruct ts.
Qed.

(** C3: the normalizer returns a string whatever it is given, a file that
    cannot be read or decoded included, for which the string is empty; and it
    returns the empty string when the document has nothing usable: when no
    line of it is a text line with something left once its tags are removed,
    as for a document of whitespace only, or of header, metadata, timing and
    index lines only. *)
Theorem C3_normalizer_never_raises :
  (forall file include_timestamps,
      exists result, process_vtt_file file include_timestamps = Return result)
  /\ (forall e include_timestamps,
         process_vtt_file (Raise e) include_timestamps = Return "")
  /\ (forall content include_timestamps,
         cleaned_texts content = [] ->
         process_vtt_file (Return content) include_timestamps = Return "")
  /\ (forall content,
         all_in Str.is_space content = true -> cleaned_texts content = [])
  /\ (forall content,
         Forall (fun raw => classify (Str.strip raw) <> Text)
                (Str.split content newline) ->
         cleaned_texts content = []).
Proof.
  repeat apply conj.
  - intros file ts. unfold process_vtt_file.
    destruct (process_vtt_body file ts) as [result | e]; eauto.
  - reflexivity.
  - intros content ts H.
    now rewrite process_vtt_file_join, (emitted_segments_none content ts H).
  - apply cleaned_texts_space.
  - intros content H. apply cleaned_of_lines_none.
    eapply Forall_impl; [exact H |]. intros raw. unfold cleaned_text. simpl.
    destruct (classify (Str.strip raw)); congruence.
Qed.

Lemma C3_witness :
  cleaned_texts no_text_document = []
  /\ process_vtt_file (Return no_text_document) true = Return ""
  /\ process_vtt_file (Return no_text_document) false = Return "".
Proof.
  split; [reflexivity |].
  split;
    apply (proj1 (proj2 (proj2 C3_normalizer_never_raises)) no_text_document);
    reflexivity.
Defined.

(** C4: the output is the list of emitted segments joined with "\n" when
    includeTimestamps is true and with one space when it is false.  The
    separators are not mixed: no segment has a newline in it, so without
    timestamps the output has no newline at all, and with timestamps its
    newlines are the separators only: split at them, it gives the segments
    back. *)
Theorem C4_separator_law (content : string) :
  process_vtt_file (Return content) true
  = Return (Str.join newline (emitted_segments content true))
  /\ process_vtt_file (Return content) false
     = Return (Str.join " " (emitted_segments content false))
  /\ (forall include_timestamps,
         Forall (fun seg => Str.contains newline seg = false)
                (emitted_segments content include_timestamps))
  /\ Str.contains newline (Str.join " " (emitted_segments content false))
     = false
  /\ (emitted_segments content true <> [] ->
      Str.split (Str.join newline (emitted_segments content true)) newline
      = emitted_segments content true).
Proof.
  repeat apply conj.
  - apply (process_vtt_file_join content true).
  - apply (process_vtt_file_join content false).
  - intros ts. eapply Forall_impl;
      [apply (emitted_segments_newline_free content ts) |].
    intros seg. apply (all_in_not_contains "010" "").
  - apply (all_in_not_contains "010" ""), join_all_in; [reflexivity |].
    apply emitted_segments_newline_free.
  - intros Hne. apply split_join_newline; [exact Hne |].
    apply emitted_segments_newline_free.
Qed.

Lemma C4_witness :
  emitted_segments two_cue_document true
  = ["[00:01:02] never gonna give"; "[00:01:05] you up"]
  /\ Str.split (Str.join newline (emitted_segments two_cue_document true))
               newline
     = emitted_segments two_cue_document true.
Proof.
  split; [reflexivity |].
  apply (proj2 (proj2 (proj2 (proj2 (C4_separator_law two_cue_document))))).
  vm_compute. discriminate.
Defined.

(** ** Timestamps *)

Lemma digits_all_in (q : ascii -> bool) (s : string) :
  (forall c, digit c = true -> q c = true) ->
  all_digits s = true -> all_in q s = true.
Proof.
  intros Hq. unfold all_digits. induction s as [| c s IH]; simpl; [auto |].
  intros H. apply andb_true_iff in H as [Hc Hs]. now rewrite (Hq c Hc), IH.
Qed.

Lemma digit_clock_char (c : ascii) : digit c = true -> clock_char c = true.
Proof. intros H. unfold clock_char. now rewrite H. Qed.

Lemma clock_char_other (x : ascii) (s : string) :
  clock_char x = false ->
  all_in clock_char s = true ->
  all_in (fun a => negb (Ascii.eqb a x)) s = true.
Proof.
  intros Hx. induction s as [| c s IH]; simpl; [auto |].
  intros H. apply andb_true_iff in H as [Hc Hs]. rewrite (IH Hs), andb_true_r.
  destruct (Ascii.eqb_spec c x) as [-> |]; [congruence | reflexivity].
Qed.

Lemma digit_not_dot (s : string) :
  all_digits s = true -> all_in (fun a => negb (Ascii.eqb a ".")) s = true.
Proof.
  apply digits_all_in. intros c Hc.
  destruct (Ascii.eqb_spec c ".") as [-> |]; [discriminate | reflexivity].
Qed.

(** [format_vtt_timestamp] drops the first "." and what follows it. *)
Lemma format_vtt_timestamp_cut (t ms : string) :
  all_in (fun a => negb (Ascii.eqb a ".")) t = true ->
  format_vtt_timestamp (t ++ "." ++ ms) = t.
Proof.
  intros H. unfold format_vtt_timestamp, Str.split.
  now rewrite (split_go_first "." "" t ms H).
Qed.

Lemma format_vtt_timestamp_clock (hh mm ss ms : string) :
  all_digits hh = true -> all_digits mm = true -> all_digits ss = true ->
  format_vtt_timestamp (hh ++ ":" ++ mm ++ ":" ++ ss ++ "." ++ ms)
  = (hh ++ ":" ++ mm ++ ":" ++ ss)%string.
Proof.
  intros Hh Hm Hs.
  replace (hh ++ ":" ++ mm ++ ":" ++ ss ++ "." ++ ms)%string
    with ((hh ++ ":" ++ mm ++ ":" ++ ss) ++ "." ++ ms)%string
    by now rewrite !append_assoc.
  apply format_vtt_timestamp_cut.
  rewrite !all_in_append.
  rewrite (digit_not_dot hh Hh), (digit_not_dot mm Hm), (digit_not_dot ss Hs).
  reflexivity.
Qed.

Lemma is_skipped_digit (d : ascii) (s : string) :
  digit d = true -> is_skipped (String d s) = false.
Proof.
  intros H.
  destruct d as [[] [] [] [] [] [] [] []]; try discriminate H; reflexivity.
Qed.

(** An iteration on a timing line that starts with [HH:MM:SS.mmm]: the
    current timestamp becomes [HH:MM:SS], and nothing else changes. *)
Lemma vtt_step_timing (st : vtt_state) (timing hh mm ss ms rest : string) :
  digits_n 2 hh -> digits_n 2 mm -> digits_n 2 ss -> digits_n 3 ms ->
  Str.strip timing
  = (hh ++ ":" ++ mm ++ ":" ++ ss ++ "." ++ ms ++ rest)%string ->
  Str.contains "-->" (Str.strip timing) = true ->
  vtt_step true st timing
  = {| text_builder := text_builder st;
       seen_segments := seen_segments st;
       current_timestamp := Some (hh ++ ":" ++ mm ++ ":" ++ ss)%string |}.
Proof.
  intros [Lh Hh] [Lm Hm] [Ls Hs] [Lms Hms] Hline Harrow.
  set (S := (hh ++ ":" ++ mm ++ ":" ++ ss ++ "." ++ ms)%string).
  assert (Hl : Str.strip timing = (S ++ rest)%string).
  { rewrite Hline. unfold S. now rewrite !append_assoc. }
  assert (Hsk : is_skipped (Str.strip timing) = false).
  { rewrite Hline. destruct hh as [| d hh]; [discriminate |].
    unfold all_digits in Hh. simpl in Hh.
    apply andb_true_iff in Hh as [Hd _].
    apply (is_skipped_digit d _ Hd). }
  assert (Hsplit : exists h tl,
             Str.split (Str.strip timing) " --> " = (S ++ h)%string :: tl).
  { rewrite Hl. unfold Str.split.
    apply (split_go_head " " "--> " S rest).
    apply (clock_char_other " "); [reflexivity |].
    unfold S. rewrite !all_in_append.
    rewrite (digits_all_in clock_char hh digit_clock_char Hh).
    rewrite (digits_all_in clock_char mm digit_clock_char Hm).
    rewrite (digits_all_in clock_char ss digit_clock_char Hs).
    rewrite (digits_all_in clock_char ms digit_clock_char Hms).
    reflexivity. }
  destruct Hsplit as (h & tl & Hsplit).
  unfold vtt_step. cbv zeta. rewrite Hsk, Harrow, Hsplit.
  unfold S. rewrite !append_assoc.
  now rewrite format_vtt_timestamp_clock.
Qed.

Lemma vtt_fold_timestamp ts lines :
  Forall (fun l => classify (Str.strip l) <> Timing) lines ->
  forall st,
    current_timestamp (fold_left (vtt_step ts) lines st) = current_timestamp st.
Proof.
  induction 1 as [| raw lines Hraw _ IH]; intros st; [reflexivity |].
  simpl. now rewrite IH, vtt_step_timestamp.
Qed.

(** A timing line adds nothing to [text_builder]. *)
Lemma vtt_step_timing_silent ts st raw :
  classify (Str.strip raw) = Timing ->
  text_builder (vtt_step ts st raw) = text_builder st
  /\ cleaned_text raw = None.
Proof.
  intros H. pose proof (vtt_step_cleaned ts st raw) as Hs.
  unfold cleaned_text in *. rewrite H in *. tauto.
Qed.

(** The state after a timing line with start time [HH:MM:SS.mmm] and
    lines that are not timing lines: the current timestamp is [HH:MM:SS]. *)
Lemma vtt_loop_timestamp (pre mid : list string)
    (timing hh mm ss ms rest : string) :
  digits_n 2 hh -> digits_n 2 mm -> digits_n 2 ss -> digits_n 3 ms ->
  Str.strip timing
  = (hh ++ ":" ++ mm ++ ":" ++ ss ++ "." ++ ms ++ rest)%string ->
  Str.contains "-->" (Str.strip timing) = true ->
  Forall (fun l => classify (Str.strip l) <> Timing) mid ->
  current_timestamp (vtt_loop true (pre ++ timing :: mid))
  = Some (hh ++ ":" ++ mm ++ ":" ++ ss)%string.
Proof.
  intros Hh Hm Hs Hms Hline Harrow Hmid. unfold vtt_loop.
  rewrite fold_left_app. cbn [fold_left].
  rewrite (vtt_fold_timestamp true mid Hmid).
  now rewrite (vtt_step_timing _ timing hh mm ss ms rest).
Qed.

Lemma vtt_loop_seen ts lines :
  seen_segments (vtt_loop ts lines) = list_to_set (cleaned_of_lines lines).
Proof.
  unfold vtt_loop.
  destruct (vtt_fold_segments ts lines vtt_init) as (_ & _ & _ & -> & _).
  simpl. set_solver.
Qed.

(** C5: with includeTimestamps true, a text line that comes after a timing
    line (a line with the arrow in it that is not a header or metadata line)
    with start time HH:MM:SS.mmm, with no other timing line in between,
    is emitted (if its cleaned text has not come before) as "[HH:MM:SS] "
    followed by the cleaned text: the start time is cut at its first ".".
    So "00:01:02.345 --> 00:01:05.000" gives the tag "[00:01:02]".  A timing
    line itself adds nothing to the segments. *)
Theorem C5_timestamp_tag :
  (forall (content : string) (pre mid post : list string)
          (timing raw hh mm ss ms rest clean : string),
      Str.split content newline = pre ++ timing :: mid ++ raw :: post ->
      digits_n 2 hh -> digits_n 2 mm -> digits_n 2 ss -> digits_n 3 ms ->
      Str.strip timing
      = (hh ++ ":" ++ mm ++ ":" ++ ss ++ "." ++ ms ++ rest)%string ->
      Str.contains "-->" (Str.strip timing) = true ->
      Forall (fun l => classify (Str.strip l) <> Timing) mid ->
      cleaned_text raw = Some clean ->
      clean ∉ cleaned_of_lines (pre ++ timing :: mid) ->
      exists later,
        emitted_segments content true
        = text_builder (vtt_loop true (pre ++ timing :: mid))
          ++ ("[" ++ hh ++ ":" ++ mm ++ ":" ++ ss ++ "] " ++ clean)%string
             :: later)
  /\ (forall hh mm ss ms : string,
         digits_n 2 hh -> digits_n 2 mm -> digits_n 2 ss -> digits_n 3 ms ->
         format_vtt_timestamp (hh ++ ":" ++ mm ++ ":" ++ ss ++ "." ++ ms)
         = (hh ++ ":" ++ mm ++ ":" ++ ss)%string)
  /\ format_vtt_timestamp "00:01:02.345" = "00:01:02"
  /\ emitted_segments two_cue_document true
     = ["[00:01:02] never gonna give"; "[00:01:05] you up"]
  /\ (forall include_timestamps st raw,
         classify (Str.strip raw) = Timing ->
         text_builder (vtt_step include_timestamps st raw) = text_builder st
         /\ cleaned_text raw = None).
Proof.
  split; [| split; [| split; [| split]]]; try reflexivity.
  - intros content pre mid post timing raw hh mm ss ms rest clean
      Hsplit Hh Hm Hs Hms Hline Harrow Hmid Hclean Hnew.
    pose proof (vtt_loop_timestamp pre mid timing hh mm ss ms rest
                  Hh Hm Hs Hms Hline Harrow Hmid) as Hts.
    pose proof (vtt_loop_seen true (pre ++ timing :: mid)) as Hseen.
    unfold emitted_segments. rewrite Hsplit.
    replace (pre ++ timing :: mid ++ raw :: post)
      with ((pre ++ timing :: mid) ++ raw :: post)
      by now rewrite <- app_assoc.
    unfold vtt_loop in *. rewrite fold_left_app. cbn [fold_left].
    set (st := fold_left (vtt_step true) (pre ++ timing :: mid) vtt_init) in *.
    pose proof (vtt_step_cleaned true st raw) as Hstep.
    rewrite Hclean in Hstep.
    destruct (decide (clean ∈ seen_segments st)) as [Hin | _].
    { rewrite Hseen in Hin. apply elem_of_list_to_set in Hin. contradiction. }
    destruct (vtt_fold_segments true post (vtt_step true st raw))
      as (segs & -> & _).
    rewrite Hstep. cbn [text_builder]. rewrite <- app_assoc.
    exists (map render segs). f_equal. cbn [app]. f_equal.
    unfold render at 1, tag_of. cbn [seg_tag seg_text]. rewrite Hts.
    destruct Hh as [Lh _]. destruct hh as [| d hh]; [discriminate |].
    replace (Str.truthy (String d hh ++ ":" ++ mm ++ ":" ++ ss)) with true
      by reflexivity.
    cbn [andb]. now rewrite !append_assoc.
  - intros hh mm ss ms [_ Hh] [_ Hm] [_ Hs] _.
    now apply format_vtt_timestamp_clock.
  - intros ts st raw. apply vtt_step_timing_silent.
Qed.

Lemma C5_witness :
  exists later,
    emitted_segments two_cue_document true
    = text_builder
        (vtt_loop true ["WEBVTT"; ""; "00:01:02.345 --> 00:01:05.000"])
      ++ "[00:01:02] never gonna give" :: later.
Proof.
  apply (proj1 C5_timestamp_tag two_cue_document
           ["WEBVTT"; ""] []
           [""; "00:01:05.000 --> 00:01:07.500 align:start"; "you up"; ""]
           "00:01:02.345 --> 00:01:05.000" "never gonna <c>give</c>"
           "00" "01" "02" "345" " --> 00:01:05.000" "never gonna give");
    try reflexivity; try (split; reflexivity).
  - constructor.
  - vm_compute. set_solver.
Defined.

(** ** The retry loop *)

Section ItemFacts.

Variable max_retries : Z.
Variable proxy : option string.
Variable include_timestamps : bool.
Variable url : string.
Variable fetch : nat -> fetch_response.

Abbreviation cond := (loop_cond max_retries).
Abbreviation body := (attempt max_retries proxy include_timestamps url fetch).
Abbreviation loop :=
(while_loop max_retries proxy include_timestamps url fetch).

Lemma while_loop_stop fuel st :
  cond st = false -> loop fuel st = st.
Proof. intros H. destruct fuel; simpl; [reflexivity | now rewrite H]. Qed.

Lemma attempt_success st :
  success (body st) = true -> cond (body st) = false.
Proof.
  intros H. unfold loop_cond. rewrite H. simpl.
  apply andb_false_r.
Qed.

Lemma attempt_retry_count st :
  success st = false ->
  (success (body st) = true /\ retry_count (body st) = retry_count st)
  \/ (success (body st) = false
      /\ retry_count (body st) = (retry_count st + 1)%Z).
Proof.
  intros Hs. unfold attempt.
  destruct (extract_transcript _ _ _ _) as [evs [r | e]]; simpl; auto.
Qed.

(** The loop ends: with as many unfoldings as [max_retries] minus the
    failures so far, its condition is false at the end. *)
Lemma while_loop_ends fuel st :
  (max_retries - retry_count st <= Z.of_nat fuel)%Z ->
  cond (loop fuel st) = false.
Proof.
  revert st. induction fuel as [| fuel IH]; intros st Hle; simpl.
  - unfold loop_cond.
    replace (retry_count st <? max_retries)%Z with false; [reflexivity |].
    symmetry. apply Z.ltb_ge. lia.
  - destruct (loop_cond max_retries st) eqn:Hc; [| exact Hc].
    unfold loop_cond in Hc.
    apply andb_true_iff in Hc as [_ Hs]. apply negb_true_iff in Hs.
    destruct (attempt_retry_count st Hs) as [[Ha _] | [_ Hr]].
    + rewrite while_loop_stop; now apply attempt_success.
    + apply IH. rewrite Hr. lia.
Qed.

(** More unfoldings than [max_retries] change nothing. *)
Lemma while_loop_fuel fuel extra st :
  (max_retries - retry_count st <= Z.of_nat fuel)%Z ->
  loop (fuel + extra) st = loop fuel st.
Proof.
  revert st. induction fuel as [| fuel IH]; intros st Hle; simpl.
  - apply while_loop_stop. unfold loop_cond.
    replace (retry_count st <? max_retries)%Z with false; [reflexivity |].
    symmetry. apply Z.ltb_ge. lia.
  - destruct (loop_cond max_retries st) eqn:Hc; [| reflexivity].
    unfold loop_cond in Hc.
    apply andb_true_iff in Hc as [_ Hs]. apply negb_true_iff in Hs.
    destruct (attempt_retry_count st Hs) as [[Ha _] | [_ Hr]].
    + rewrite !while_loop_stop; auto using attempt_success.
    + apply IH. rewrite Hr. lia.
Qed.

(** The unfoldings [process_url] allows are enough: the loop has ended,
    and more unfoldings give the same state. *)
Lemma process_url_loop_ended :
  cond (loop (Z.to_nat max_retries) retry_init) = false
  /\ forall extra,
       loop (Z.to_nat max_retries + extra) retry_init
       = loop (Z.to_nat max_retries) retry_init.
Proof.
  split; [apply while_loop_ends | intros extra; apply while_loop_fuel];
    simpl; lia.
Qed.

Lemma pushed_app (a b : list event) : pushed (a ++ b) = pushed a ++ pushed b.
Proof. unfold pushed. apply flat_map_app. Qed.

(** [extract_transcript] itself writes nothing to the dataset. *)
Lemma extract_pushes_nothing (resp : fetch_response) :
  pushed (fst (extract_transcript url proxy include_timestamps resp)) = [].
Proof.
  unfold extract_transcript.
  destruct (extract_video_id url) as [v |]; [| reflexivity].
  destruct (negb (Str.truthy v)); reflexivity.
Qed.

(** The record of a success is about [url]. *)
Lemma extract_success_url (resp : fetch_response) (r : success_result) :
  snd (extract_transcript url proxy include_timestamps resp) = Return r ->
  video_url r = url.
Proof.
  unfold extract_transcript.
  destruct (extract_video_id url) as [v |]; [| discriminate].
  destruct (negb (Str.truthy v)); [discriminate |]. simpl.
  unfold after_run. destruct (run resp); try discriminate.
  destruct (negb _); [discriminate |].
  destruct (vtt_files resp); [discriminate |].
  destruct (process_vtt_file _ _); [| discriminate].
  destruct (_ || _); [discriminate |].
  intros H. injection H as <-. reflexivity.
Qed.

Lemma attempt_pushes_ok st :
  success st = false -> pushes_ok url st -> pushes_ok url (body st).
Proof.
  intros Hs [[_ Hp] | [Ht _]]; [| congruence].
  unfold attempt, pushes_ok.
  pose proof (extract_pushes_nothing (fetch (Z.to_nat (retry_count st)))) as Hn.
  pose proof (extract_success_url (fetch (Z.to_nat (retry_count st)))) as Hu.
  destruct (extract_transcript _ _ _ _) as [evs [r | e]]; simpl in *.
  - right. split; [reflexivity |]. exists r.
    rewrite pushed_app, Hp. simpl. rewrite pushed_app, Hn. simpl. auto.
  - left. split; [exact Hs |].
    rewrite pushed_app, Hp. simpl. rewrite pushed_app, Hn. simpl.
    destruct (_ <? _)%Z; reflexivity.
Qed.

Lemma while_loop_pushes_ok fuel st :
  pushes_ok url st -> pushes_ok url (loop fuel st).
Proof.
  revert st. induction fuel as [| fuel IH]; intros st Hok; simpl; [exact Hok |].
  destruct (loop_cond max_retries st) eqn:Hc; [| exact Hok].
  unfold loop_cond in Hc.
  apply andb_true_iff in Hc as [_ Hs]. apply negb_true_iff in Hs.
  apply IH. now apply attempt_pushes_ok.
Qed.

(** Whatever the collaborator does, an item gives exactly one record,
    and the record is about that item. *)
Lemma process_url_one_record :
  exists item,
    pushed (process_url max_retries proxy include_timestamps url fetch)
    = [item]
    /\ item_url item = url.
Proof.
  unfold process_url.
  set (st := loop (Z.to_nat max_retries) retry_init).
  assert (Hok : pushes_ok url st).
  { apply while_loop_pushes_ok. left. split; reflexivity. }
  destruct Hok as [[Hs Hp] | [Hs (r & Hp & Hu)]]; rewrite Hs; simpl.
  - eexists. rewrite pushed_app, Hp. simpl. split; reflexivity.
  - exists (Success r). split; assumption.
Qed.

Lemma attempt_raise st evs e :
  extract_transcript url proxy include_timestamps
    (fetch (Z.to_nat (retry_count st))) = (evs, Raise e) ->
  body st
  = {| retry_count := (retry_count st + 1)%Z;
       success := success st;
       last_error := Some (str_of_exn e);
       trace := trace st ++ CallExtract url :: evs
                ++ (if (retry_count st + 1 <? max_retries)%Z
                    then [Sleep 5] else []) |}.
Proof. intros H. unfold attempt. now rewrite H. Qed.


Lemma extract_invalid (resp : fetch_response) :
  extract_video_id url = None ->
  extract_transcript url proxy include_timestamps resp
  = ([], Raise (invalid_url url)).
Proof. intros H. unfold extract_transcript. now rewrite H. Qed.

(** The loop on a URL without a video id: every unfolding is a failed
    call, followed by the delay unless it was the last. *)
Lemma while_loop_invalid fuel st :
  extract_video_id url = None ->
  success st = false ->
  (0 <= retry_count st)%Z ->
  (retry_count st + Z.of_nat (S fuel) = max_retries)%Z ->
  loop (S fuel) st
  = {| retry_count := max_retries;
       success := false;
       last_error := Some (exc_message (invalid_url url));
       trace := trace st ++ failed_rounds url fuel ++ [CallExtract url] |}.
Proof.
  intros Hid. revert st.
  induction fuel as [| fuel IH]; intros st Hs H0 Hfuel.
  - simpl.
    assert (Hc : loop_cond max_retries st = true).
    { unfold loop_cond. rewrite Hs. simpl.
      rewrite andb_true_r. apply Z.ltb_lt. lia. }
    rewrite Hc, (attempt_raise st [] _ (extract_invalid _ Hid)).
    replace (retry_count st + 1 <? max_retries)%Z with false
      by (symmetry; apply Z.ltb_ge; lia).
    rewrite Hs. f_equal. lia.
  - change (loop (S (S fuel)) st)
      with (if loop_cond max_retries st
            then loop (S fuel) (body st) else st).
    assert (Hc : loop_cond max_retries st = true).
    { unfold loop_cond. rewrite Hs. simpl.
      rewrite andb_true_r. apply Z.ltb_lt. lia. }
    rewrite Hc, (attempt_raise st [] _ (extract_invalid _ Hid)).
    replace (retry_count st + 1 <? max_retries)%Z with true
      by (symmetry; apply Z.ltb_lt; lia).
    rewrite IH; simpl; [| exact Hs | lia | lia].
    f_equal. unfold failed_rounds. simpl. now rewrite <- app_assoc.
Qed.

End ItemFacts.

(** C10: if maxRetries is 0 or negative, no extraction attempt is made for
    an input URL: the loop body never runs, however often the loop is
    unfolded, and the only event is the failure record, whose attempts field
    is maxRetries and whose error field is null. *)
Theorem C10_no_attempt_without_retries
    (max_retries : Z) (proxy : option string) (include_timestamps : bool)
    (url : string) (fetch : nat -> fetch_response) :
  (max_retries <= 0)%Z ->
  (forall fuel,
      while_loop max_retries proxy include_timestamps url fetch fuel retry_init
      = retry_init)
  /\ process_url max_retries proxy include_timestamps url fetch
     = [PushData (Failure {| failed_video_url := url;
                             error := None;
                             attempts := max_retries;
                             failed_source := "ytdlp_vtt_optimized" |})].
Proof.
  intros Hle.
  assert (Hstop : forall fuel,
             while_loop max_retries proxy include_timestamps url fetch fuel
               retry_init = retry_init).
  { intros fuel. apply while_loop_stop. unfold loop_cond. simpl.
    replace (0 <? max_retries)%Z with false; [reflexivity |].
    symmetry. apply Z.ltb_ge. exact Hle. }
  split; [exact Hstop |].
  unfold process_url. rewrite Hstop. reflexivity.
Qed.

Lemma C10_witness :
  (0 <= 0)%Z
  /\ process_url 0 None false "https://youtu.be/dQw4w9WgXcQ" failing_fetch
     = [PushData (Failure {| failed_video_url := "https://youtu.be/dQw4w9WgXcQ";
                             error := None;
                             attempts := 0;
                             failed_source := "ytdlp_vtt_optimized" |})].
Proof.
  split; [lia |].
  apply (C10_no_attempt_without_retries 0 None false
           "https://youtu.be/dQw4w9WgXcQ" failing_fetch).
  lia.
Defined.




(** C1, as stated, fails: a URL without a video id is retried like any
    other failure.  With maxRetries 3 it is tried three times, with two
    delays. *)
Lemma C1_counterexample :
  extract_video_id "not a url" = None
  /\ ~ fails_immediately 3 None false "not a url" failing_fetch
  /\ calls (process_url 3 None false "not a url" failing_fetch)
     = ["not a url"; "not a url"; "not a url"]
  /\ sleeps (process_url 3 None false "not a url" failing_fetch) = [5%Z; 5%Z].
Proof.
  split; [reflexivity |]. split; [| split; reflexivity].
  intros [H _]. vm_compute in H. discriminate H.
Qed.

(** C1, amended: for a URL from which no video id can be parsed, every call
    of the extraction fails with the invalid-URL error before the fetch
    collaborator is invoked, and the loop treats it like any other failure:
    with maxRetries at least 1 there are maxRetries calls, a 5-second delay
    after each but the last, and then the failure record. *)
Theorem C1_invalid_url_is_retried
    (max_retries : Z) (proxy : option string) (include_timestamps : bool)
    (url : string) (fetch : nat -> fetch_response) :
  extract_video_id url = None ->
  (1 <= max_retries)%Z ->
  process_url max_retries proxy include_timestamps url fetch
  = failed_rounds url (Z.to_nat max_retries - 1)
    ++ [CallExtract url;
        PushData (Failure
          {| failed_video_url := url;
             error := Some ("Could not extract video ID from URL: " ++ url)%string;
             attempts := max_retries;
             failed_source := "ytdlp_vtt_optimized" |})].
Proof.
  intros Hid Hmax. unfold process_url.
  destruct (Z.to_nat max_retries) as [| n] eqn:Hn; [lia |].
  rewrite while_loop_invalid; [| exact Hid | reflexivity | simpl; lia ..].
  simpl. rewrite Nat.sub_0_r, <- app_assoc. reflexivity.
Qed.

Lemma C1_witness :
  process_url 3 None false "not a url" failing_fetch
  = [CallExtract "not a url"; Sleep 5; CallExtract "not a url"; Sleep 5;
     CallExtract "not a url";
     PushData (Failure
       {| failed_video_url := "not a url";
          error := Some "Could not extract video ID from URL: not a url";
          attempts := 3;
          failed_source := "ytdlp_vtt_optimized" |})].
Proof.
  apply (C1_invalid_url_is_retried 3 None false "not a url" failing_fetch).
  - reflexivity.
  - lia.
Defined.
(** C7: the watch-page URL and the short link of the specification give
    the 11-character id "dQw4w9WgXcQ", and so do the "shorts" and "embed"
    shapes; an id that is found has eleven characters of [a-zA-Z0-9_-] and
    stands in the URL; no id is found exactly when none of the four patterns
    matches anywhere in the URL, and then [extract_transcript] raises the
    invalid-input error, a ValueError, before anything else is done. *)
Theorem C7_video_id_extraction :
  extract_video_id "https://www.youtube.com/watch?v=dQw4w9WgXcQ"
  = Some "dQw4w9WgXcQ"
  /\ extract_video_id "https://youtu.be/dQw4w9WgXcQ" = Some "dQw4w9WgXcQ"
  /\ extract_video_id "https://www.youtube.com/shorts/dQw4w9WgXcQ"
     = Some "dQw4w9WgXcQ"
  /\ extract_video_id "https://www.youtube.com/embed/dQw4w9WgXcQ"
     = Some "dQw4w9WgXcQ"
  /\ (forall url id,
         extract_video_id url = Some id ->
         String.length id = 11
         /\ all_in id_char id = true
         /\ Str.contains id url = true)
  /\ (forall url,
         extract_video_id url = None
         <-> Forall (fun pattern => search pattern url = None) patterns)
  /\ (forall url proxy include_timestamps resp,
         extract_video_id url = None ->
         extract_transcript url proxy include_timestamps resp
         = ([], Raise {| exc_type := ValueError;
                         exc_message :=
                           ("Could not extract video ID from URL: " ++ url)
                           %string |})).
Proof.
  do 4 (split; [reflexivity |]).
  split; [| split].
  - intros url id H.
    now apply (first_match_some patterns url id patterns_id_patterns).
  - intros url. apply (first_match_none patterns url patterns_id_patterns).
  - intros url proxy include_timestamps resp H. now apply extract_invalid.
Qed.

Lemma C7_witness :
  extract_video_id "https://vimeo.com/12345" = None
  /\ extract_transcript "https://vimeo.com/12345" None false (failing_fetch 0)
     = ([], Raise {| exc_type := ValueError;
                     exc_message :=
                       "Could not extract video ID from URL: https://vimeo.com/12345" |}).
Proof.
  split; [reflexivity |].
  apply (proj2 (proj2 (proj2 (proj2 (proj2 (proj2 C7_video_id_extraction)))))
           "https://vimeo.com/12345" None false (failing_fetch 0)).
  reflexivity.
Defined.

(** ** The title *)

Lemma rfind_append (c : ascii) (a b : string) :
  Str.rfind c (a ++ b)
  = match Str.rfind c b with
    | Some i => Some (String.length a + i)
    | None => Str.rfind c a
    end.
Proof.
  induction a as [| d a IH]; simpl; [now destruct (Str.rfind c b) |].
  rewrite IH. destruct (Str.rfind c b); [reflexivity |].
  now destruct (Str.rfind c a).
Qed.

Lemma substring_prefix (a b : string) :
  String.substring 0 (String.length a) (a ++ b) = a.
Proof.
  induction a as [| c a IH]; simpl; [now destruct b | now rewrite IH].
Qed.

Lemma replace_go_cons (old new : string) (skip : nat) (c : ascii) (s : string) :
  Str.replace_go old new skip (String c s)
  = match skip with
    | S n => Str.replace_go old new n s
    | O =>
        if String.prefix old (String c s)
        then (new ++ Str.replace_go old new (String.length old - 1) s)%string
        else String c (Str.replace_go old new 0 s)
    end.
Proof. reflexivity. Qed.

(** [replace] leaves a part without the first character of [old] as it
    is. *)
Lemma replace_go_keeps (c : ascii) (old' new x rest : string) :
  all_in (fun a => negb (Ascii.eqb a c)) x = true ->
  Str.replace_go (String c old') new 0 (x ++ rest)
  = (x ++ Str.replace_go (String c old') new 0 rest)%string.
Proof.
  induction x as [| a x IH]; intros H; [reflexivity |].
  simpl in H. apply andb_true_iff in H as [Ha Hx].
  change (String a x ++ rest)%string with (String a (x ++ rest)).
  rewrite replace_go_cons, (IH Hx).
  change (String.prefix (String c old') (String a (x ++ rest)))
    with (if ascii_dec c a then String.prefix old' (x ++ rest) else false).
  destruct (ascii_dec c a) as [-> |]; [| reflexivity].
  now rewrite Ascii.eqb_refl in Ha.
Qed.

Lemma substring_all_in (p : ascii -> bool) (s : string) :
  all_in p s = true -> forall n m, all_in p (String.substring n m s) = true.
Proof.
  induction s as [| c s IH]; intros H n m.
  - now destruct n, m.
  - simpl in H. apply andb_true_iff in H as [Hc Hs].
    destruct n, m; simpl; auto. now rewrite Hc, IH.
Qed.

(** A suffix that starts with [c] is not at the end of a string without
    [c]. *)
Lemma removesuffix_absent (c : ascii) (suffix' s : string) :
  all_in (fun a => negb (Ascii.eqb a c)) s = true ->
  removesuffix s (String c suffix') = s.
Proof.
  intros H. unfold removesuffix.
  destruct (_ <=? _)%nat; [| reflexivity]. cbn [andb].
  destruct (String.eqb_spec
              (String.substring
                 (String.length s - String.length (String c suffix'))
                 (String.length (String c suffix')) s)
              (String c suffix')) as [Heq |]; [| reflexivity].
  pose proof (substring_all_in _ s H
                (String.length s - String.length (String c suffix'))
                (String.length (String c suffix'))) as Hsub.
  rewrite Heq in Hsub. simpl in Hsub. now rewrite Ascii.eqb_refl in Hsub.
Qed.

(** For a title without a dot, the title of the record is the title of the
    video, as the specification has it. *)
Lemma title_of_dotless (title : string) (file : outcome string) :
  all_in (fun a => negb (Ascii.eqb a ".")) title = true ->
  title_of {| name := title ++ ".en.vtt"; read_text := file |} = title
  /\ spec_title {| name := title ++ ".en.vtt"; read_text := file |} = title.
Proof.
  intros H.
  assert (Hstem : stem (title ++ ".en.vtt") = (title ++ ".en")%string).
  { unfold stem. rewrite rfind_append.
    replace (Str.rfind "." ".en.vtt") with (Some 3) by reflexivity.
    rewrite length_append. cbn [String.length].
    replace ((0 <? String.length title + 3)%nat
             && (String.length title + 3 <? String.length title + 7 - 1)%nat)
      with true
      by (symmetry; apply andb_true_iff; split; apply Nat.ltb_lt; lia).
    replace (String.length title + 3) with (String.length (title ++ ".en"))
      by (rewrite length_append; reflexivity).
    replace (title ++ ".en.vtt")%string with ((title ++ ".en") ++ ".vtt")%string
      by now rewrite append_assoc.
    apply substring_prefix. }
  split.
  - unfold title_of, Str.replace. cbn [name]. rewrite Hstem.
    rewrite (replace_go_keeps "." "en" "" title ".en" H).
    replace (Str.replace_go ".en" "" 0 ".en") with "" by reflexivity.
    rewrite append_nil_r.
    rewrite <- (append_nil_r title) at 1.
    rewrite (replace_go_keeps "." "vtt" "" title "" H).
    apply append_nil_r.
  - unfold spec_title. cbn [name]. rewrite Hstem.
    assert (Hen : removesuffix (title ++ ".en") ".en" = title).
    { unfold removesuffix. rewrite length_append. cbn [String.length].
      replace (String.length title + 3 - 3) with (String.length title) by lia.
      replace (3 <=? String.length title + 3)%nat with true
        by (symmetry; apply Nat.leb_le; lia).
      rewrite <- (append_nil_r ".en") at 1 2.
      change 3 with (String.length ".en") at 1.
      rewrite substring_middle, String.eqb_refl. cbn [andb].
      apply substring_prefix. }
    rewrite Hen. now apply removesuffix_absent.
Qed.

(** C9, at a title with ".en" inside: the file of the video "Node.env tips"
    is "Node.env tips.en.vtt" and its stem "Node.env tips.en"; stripping the
    known suffixes from the end gives back "Node.env tips", but [replace]
    removes every ".en", and the record's title is "Nodev tips". *)
Theorem C9_title_loses_inner_suffixes :
  stem "Node.env tips.en.vtt" = "Node.env tips.en"
  /\ spec_title {| name := "Node.env tips.en.vtt"; read_text := Return "" |}
     = "Node.env tips"
  /\ title_of {| name := "Node.env tips.en.vtt"; read_text := Return "" |}
     = "Nodev tips"
  /\ snd (extract_transcript "https://youtu.be/dQw4w9WgXcQ" None false
            dotenv_response)
     = Return {| video_id := "dQw4w9WgXcQ";
                 video_url := "https://youtu.be/dQw4w9WgXcQ";
                 video_title := "Nodev tips";
                 transcript := "use a .env file";
                 transcript_length := 15;
                 source := "ytdlp_vtt_optimized";
                 language := "en";
                 proxy_used := "direct";
                 includes_timestamps := false |}.
Proof. repeat split; vm_compute; reflexivity. Qed.

(** * More of the code *)

(** ** remove_vtt_tags *)

Lemma star_not_gt (s : string) :
  forall pos g,
    star not_gt (mtch (Lit ">") (mtch Eps accept)) pos s g
    = option_map (fun n => (pos + n + 1, g)) (first_gt s).
Proof.
  induction s as [| c s IH]; intros pos g; [reflexivity |].
  cbn [star first_gt]. unfold not_gt at 1.
  destruct (Ascii.eqb_spec c ">") as [-> | Hc]; cbn [negb].
  - simpl. now rewrite Nat.add_0_r, Nat.add_1_r.
  - rewrite IH. cbn [mtch].
    destruct (Ascii.eqb_spec c ">") as [| _]; [contradiction |].
    destruct (first_gt s) as [n |]; simpl; [| reflexivity].
    do 2 f_equal. lia.
Qed.

(** [tag_regex] at the start of [s]: what it matches, if anything. *)
Lemma tag_match (pos : nat) (s : string) :
  mtch tag_regex accept pos s []
  = option_map (fun n => (pos + n, [])) (tag_length s).
Proof.
  destruct s as [| c s]; [reflexivity |].
  unfold tag_regex. cbn [Cat fold_right mtch tag_length].
  destruct (Ascii.eqb c "<"); [| reflexivity].
  rewrite star_not_gt. destruct (first_gt s) as [n |]; simpl; [| reflexivity].
  do 2 f_equal. lia.
Qed.

Lemma first_gt_none (s : string) :
  first_gt s = None <-> all_in not_gt s = true.
Proof.
  induction s as [| c s IH]; simpl; [tauto |].
  unfold not_gt at 1. destruct (Ascii.eqb c ">"); simpl.
  - split; discriminate.
  - rewrite <- IH. destruct (first_gt s); simpl; split; congruence.
Qed.

Lemma first_gt_append (w rest : string) :
  all_in not_gt w = true ->
  first_gt (w ++ String ">" rest) = Some (String.length w).
Proof.
  induction w as [| c w IH]; simpl; [reflexivity |].
  unfold not_gt at 1. destruct (Ascii.eqb c ">"); simpl; [discriminate |].
  intros H. now rewrite IH.
Qed.

(** [sub] with the tag pattern, one character on. *)
Lemma sub_go_tag_cons (pos skip : nat) (c : ascii) (s : string) :
  sub_go tag_regex "" pos skip (String c s)
  = match skip with
    | S n => sub_go tag_regex "" (S pos) n s
    | O =>
        match tag_length (String c s) with
        | Some n => sub_go tag_regex "" (S pos) (n - 1) s
        | None => String c (sub_go tag_regex "" (S pos) 0 s)
        end
    end.
Proof.
  cbn [sub_go]. destruct skip; [| reflexivity].
  rewrite tag_match. cbn [tag_length].
  destruct (Ascii.eqb c "<"); [| reflexivity].
  destruct (first_gt s) as [n |]; cbn [option_map]; [| reflexivity].
  replace (pos + (n + 2) =? pos)%nat with false
    by (symmetry; apply Nat.eqb_neq; lia).
  cbn [append]. f_equal. lia.
Qed.

Lemma sub_go_tag_nil (pos skip : nat) : sub_go tag_regex "" pos skip "" = "".
Proof. now destruct skip. Qed.

(** The place in the subject does not matter to the tag pattern. *)
Lemma sub_go_tag_pos (s : string) :
  forall pos pos' skip,
    sub_go tag_regex "" pos skip s = sub_go tag_regex "" pos' skip s.
Proof.
  induction s as [| c s IH]; intros pos pos' skip.
  - now rewrite !sub_go_tag_nil.
  - rewrite !sub_go_tag_cons. destruct skip; [| apply IH].
    destruct (tag_length (String c s)); [apply IH |].
    f_equal. apply IH.
Qed.

Lemma sub_go_tag_skip (x rest : string) (pos : nat) :
  sub_go tag_regex "" pos (String.length x) (x ++ rest)
  = sub_go tag_regex "" pos 0 rest.
Proof.
  revert pos. induction x as [| c x IH]; intros pos; [reflexivity |].
  cbn [String.length append]. rewrite sub_go_tag_cons, IH.
  apply sub_go_tag_pos.
Qed.

Lemma has_tag_gt_free (s : string) :
  all_in not_gt s = true -> has_tag s = false.
Proof.
  induction s as [| c s IH]; [reflexivity |].
  intros H. cbn [has_tag tag_length].
  pose proof H as H'. simpl in H'. apply andb_true_iff in H' as [_ Hs].
  apply first_gt_none in Hs as Hg. rewrite Hg.
  destruct (Ascii.eqb c "<"); simpl; now apply IH.
Qed.

(** What [sub] returns has no tag left in it. *)
Lemma sub_go_tag_free (s : string) :
  forall pos skip, has_tag (sub_go tag_regex "" pos skip s) = false.
Proof.
  induction s as [| c s IH]; intros pos skip.
  - now rewrite sub_go_tag_nil.
  - rewrite sub_go_tag_cons. destruct skip; [| apply IH].
    destruct (tag_length (String c s)) as [n |] eqn:Ht; [apply IH |].
    cbn [has_tag tag_length]. rewrite IH.
    cbn [tag_length] in Ht.
    destruct (Ascii.eqb c "<"); [| reflexivity].
    destruct (first_gt s) eqn:Hg; [discriminate |].
    apply first_gt_none in Hg.
    pose proof (sub_go_all_in not_gt tag_regex s Hg (S pos) 0) as Hk.
    apply first_gt_none in Hk. now rewrite Hk.
Qed.

(** A text with no tag in it is left as it is. *)
Lemma sub_go_tag_id (s : string) :
  has_tag s = false -> forall pos, sub_go tag_regex "" pos 0 s = s.
Proof.
  induction s as [| c s IH]; intros H pos; [reflexivity |].
  rewrite sub_go_tag_cons. cbn [has_tag] in H.
  destruct (tag_length (String c s)); [discriminate |].
  now rewrite IH.
Qed.

(** [has_tag] is what [tag_regex.search] finds. *)
Lemma search_from_tag (whole s : string) :
  forall pos, search_from tag_regex whole pos s = None <-> has_tag s = false.
Proof.
  induction s as [| c s IH]; intros pos.
  - cbn [search_from]. rewrite tag_match. simpl. tauto.
  - cbn [search_from has_tag]. rewrite tag_match.
    destruct (tag_length (String c s)); cbn [option_map].
    + split; discriminate.
    + apply IH.
Qed.

(** X1: the text [remove_vtt_tags] returns has no tag left in it, the tag
    pattern finds nothing there, and removing the tags again changes
    nothing. *)
Theorem X1_remove_vtt_tags_leaves_no_tag (text : string) :
  search tag_regex (remove_vtt_tags text) = None
  /\ remove_vtt_tags (remove_vtt_tags text) = remove_vtt_tags text.
Proof.
  unfold remove_vtt_tags, sub, search. split.
  - apply search_from_tag, sub_go_tag_free.
  - apply sub_go_tag_id, sub_go_tag_free.
Qed.

(** X2: [remove_vtt_tags] leaves a text as it is exactly when the tag
    pattern finds nothing in it; a "<" with no ">" after it, or a ">" alone,
    stays. *)
Theorem X2_remove_vtt_tags_fixed_points (text : string) :
  remove_vtt_tags text = text <-> search tag_regex text = None.
Proof.
  unfold remove_vtt_tags, sub, search. split.
  - intros H. rewrite <- H. apply search_from_tag, sub_go_tag_free.
  - intros H. apply sub_go_tag_id. now apply (search_from_tag text text 0).
Qed.

(** X3: a tag is removed whole and the text around it is kept: after a
    text without "<", a tag "<...>" (up to its first ">") goes, and what
    follows is cleaned in the same way. *)
Theorem X3_remove_vtt_tags_removes_a_tag (before inside after : string) :
  all_in (fun a => negb (Ascii.eqb a "<")) before = true ->
  all_in not_gt inside = true ->
  remove_vtt_tags (before ++ "<" ++ inside ++ ">" ++ after)
  = (before ++ remove_vtt_tags after)%string.
Proof.
  intros Hb Hi. unfold remove_vtt_tags, sub.
  enough (H : forall pos,
             sub_go tag_regex "" pos 0 (before ++ "<" ++ inside ++ ">" ++ after)
             = (before ++ sub_go tag_regex "" 0 0 after)%string) by apply H.
  induction before as [| c before IH]; intros pos.
  - cbn [append]. rewrite sub_go_tag_cons. cbn [tag_length Ascii.eqb Bool.eqb].
    change (inside ++ String ">" after)%string
      with (inside ++ String ">" after)%string.
    rewrite (first_gt_append inside after Hi). cbn [option_map].
    replace (String.length inside + 2 - 1)
      with (String.length (inside ++ ">")) by (rewrite length_append; simpl; lia).
    replace (inside ++ String ">" after)%string
      with ((inside ++ ">") ++ after)%string by now rewrite append_assoc.
    rewrite sub_go_tag_skip. apply sub_go_tag_pos.
  - simpl in Hb. apply andb_true_iff in Hb as [Hc Hb].
    change (String c before ++ "<" ++ inside ++ ">" ++ after)%string
      with (String c (before ++ "<" ++ inside ++ ">" ++ after)).
    rewrite sub_go_tag_cons. cbn [tag_length].
    apply negb_true_iff in Hc. rewrite Hc. cbn [append]. f_equal.
    now apply IH.
Qed.

Lemma X3_witness :
  remove_vtt_tags "so <c.colorE5E5E5>never</c> gonna"
  = ("so " ++ remove_vtt_tags "never</c> gonna")%string.
Proof.
  apply (X3_remove_vtt_tags_removes_a_tag "so " "c.colorE5E5E5"
           "never</c> gonna"); reflexivity.
Defined.

Lemma X2_witness : remove_vtt_tags "if 1 < 2 then" = "if 1 < 2 then".
Proof.
  apply (proj2 (X2_remove_vtt_tags_fixed_points "if 1 < 2 then")).
  reflexivity.
Defined.

(** ** format_vtt_timestamp *)

Lemma split_dot_head (t : string) :
  exists h tl rest,
    Str.split_go "." 0 t = h :: tl
    /\ t = (h ++ rest)%string
    /\ all_in (fun a => negb (Ascii.eqb a ".")) h = true
    /\ (rest = "" \/ exists r, rest = String "." r).
Proof.
  induction t as [| c t IH].
  - exists "", [], "". simpl. auto.
  - rewrite split_go_cons.
    change (String.prefix "." (String c t))
      with (if ascii_dec "." c then String.prefix "" t else false).
    destruct (ascii_dec "." c) as [<- | Hc].
    + rewrite prefix_nil. exists "", (Str.split_go "." (String.length "." - 1) t),
        (String "." t). repeat split; eauto.
    + destruct IH as (h & tl & rest & -> & Ht & Hh & Hr).
      exists (String c h), tl, rest. rewrite Ht at 1. simpl. rewrite Hh.
      repeat split; auto.
      destruct (Ascii.eqb_spec c "."); [congruence | reflexivity].
Qed.

(** X4: [format_vtt_timestamp] returns its argument up to the first ".":
    the result has no "." in it, and what was cut off is nothing or starts
    with ".". *)
Theorem X4_format_vtt_timestamp_cuts_at_first_dot (vtt_time : string) :
  exists rest,
    vtt_time = (format_vtt_timestamp vtt_time ++ rest)%string
    /\ Str.contains "." (format_vtt_timestamp vtt_time) = false
    /\ (rest = "" \/ exists r, rest = String "." r).
Proof.
  unfold format_vtt_timestamp, Str.split.
  destruct (split_dot_head vtt_time) as (h & tl & rest & -> & Ht & Hh & Hr).
  exists rest. repeat split; auto.
  now apply (all_in_not_contains "." "").
Qed.

(** ** process_vtt_file: when the result is empty *)

Lemma cleaned_text_nonempty (raw c : string) :
  cleaned_text raw = Some c -> c <> "".
Proof.
  unfold cleaned_text. destruct (classify (Str.strip raw)); try discriminate.
  destruct (Str.truthy _) eqn:Ht; [| discriminate].
  intros [= <-] H. rewrite H in Ht. discriminate.
Qed.

Lemma cleaned_of_lines_nonempty (lines : list string) :
  Forall (fun c => c <> "") (cleaned_of_lines lines).
Proof.
  induction lines as [| raw lines IH]; [constructor |].
  rewrite cleaned_of_lines_cons.
  destruct (cleaned_text raw) as [c |] eqn:Hc; [| exact IH].
  constructor; [now apply (cleaned_text_nonempty raw) | exact IH].
Qed.

Lemma render_nonempty (sg : segment) : seg_text sg <> "" -> render sg <> "".
Proof.
  unfold render. destruct (seg_tag sg); [discriminate | auto].
Qed.

Lemma join_nonempty (sep x : string) (l : list string) :
  x <> "" -> Str.join sep (x :: l) <> "".
Proof.
  intros Hx. destruct l; [exact Hx |].
  change (Str.join sep (x :: s :: l))
    with (x ++ sep ++ Str.join sep (s :: l))%string.
  destruct x; [contradiction | discriminate].
Qed.

(** X5: the normalizer returns the empty string only when the document has
    nothing usable: as soon as one line is a text line with something left
    once its tags are removed, the result is not empty. *)
Theorem X5_empty_result_only_without_text (content : string)
    (include_timestamps : bool) :
  process_vtt_file (Return content) include_timestamps = Return ""
  <-> cleaned_texts content = [].
Proof.
  rewrite process_vtt_file_join. split.
  - intros H. injection H as H.
    destruct (emitted_segments_spec content include_timestamps)
      as (segs & He & Ht & _).
    rewrite He in H.
    pose proof (cleaned_of_lines_nonempty (Str.split content newline)) as Hn.
    fold (cleaned_texts content) in Hn.
    destruct (cleaned_texts content) as [| c cs]; [reflexivity |].
    exfalso. simpl in Ht. destruct segs as [| sg segs]; [discriminate |].
    injection Ht as Hsg _. inversion Hn as [| ? ? Hc _]; subst.
    apply (join_nonempty (separator include_timestamps) (render sg)
             (map render segs)); [| exact H].
    now apply render_nonempty.
  - intros H. now rewrite (emitted_segments_none content include_timestamps H).
Qed.

Lemma X5_witness :
  process_vtt_file (Return no_text_document) false = Return "".
Proof.
  apply (proj2 (X5_empty_result_only_without_text no_text_document false)).
  reflexivity.
Defined.

(** ** The loop of process_vtt_file: what it keeps *)

Lemma list_to_set_first_occurrences (l : list string) :
  list_to_set (first_occurrences l) = (list_to_set l : gset string).
Proof.
  apply set_eq. intros x.
  now rewrite !elem_of_list_to_set, elem_of_first_occurrences.
Qed.

(** X6: wherever the loop stands, [seen_segments] is the set of the cleaned
    texts of the lines read, [text_builder] has one segment for each of its
    elements, and reading more lines only adds to [text_builder]. *)
Theorem X6_loop_keeps_seen_and_segments_together
    (include_timestamps : bool) (lines more : list string) :
  seen_segments (vtt_loop include_timestamps lines)
  = list_to_set (cleaned_of_lines lines)
  /\ length (text_builder (vtt_loop include_timestamps lines))
     = size (seen_segments (vtt_loop include_timestamps lines))
  /\ exists added,
       text_builder (vtt_loop include_timestamps (lines ++ more))
       = text_builder (vtt_loop include_timestamps lines) ++ added.
Proof.
  split; [apply vtt_loop_seen |]. split.
  - rewrite vtt_loop_seen. unfold vtt_loop.
    destruct (vtt_fold_segments include_timestamps lines vtt_init)
      as (segs & -> & Ht & _).
    simpl. rewrite dedup_from_empty in Ht.
    rewrite length_map, <- (length_map seg_text), Ht.
    rewrite <- list_to_set_first_occurrences.
    symmetry. apply size_list_to_set, NoDup_first_occurrences.
  - unfold vtt_loop. rewrite fold_left_app.
    destruct (vtt_fold_segments include_timestamps more
                (fold_left (vtt_step include_timestamps) lines vtt_init))
      as (segs & -> & _).
    eauto.
Qed.

(** ** The flag and the timing lines *)

Lemma vtt_step_flag (st : vtt_state) (raw : string) :
  classify (Str.strip raw) <> Timing ->
  current_timestamp st = None ->
  vtt_step true st raw = vtt_step false st raw.
Proof.
  unfold classify, vtt_step. cbv zeta. intros Hc Hn.
  destruct (is_skipped (Str.strip raw)); [reflexivity |].
  destruct (Str.contains "-->" (Str.strip raw)); [congruence |].
  destruct (is_index_marker (Str.strip raw)); [reflexivity |].
  destruct (Str.truthy _); [| reflexivity].
  destruct (decide (_ ∈ _)); [reflexivity |].
  now rewrite Hn.
Qed.

Lemma vtt_fold_flag (lines : list string) :
  Forall (fun raw => classify (Str.strip raw) <> Timing) lines ->
  forall st,
    current_timestamp st = None ->
    fold_left (vtt_step true) lines st = fold_left (vtt_step false) lines st.
Proof.
  induction 1 as [| raw lines Hraw _ IH]; intros st Hn; [reflexivity |].
  simpl. rewrite <- (vtt_step_flag st raw Hraw Hn). apply IH.
  now rewrite vtt_step_timestamp.
Qed.

(** X7: for a document without timing lines the flag changes nothing in
    the segments (only the separator of the output): no segment is given a
    timestamp. *)
Theorem X7_no_timing_line_no_timestamp (content : string) :
  Forall (fun raw => classify (Str.strip raw) <> Timing)
         (Str.split content newline) ->
  emitted_segments content true = emitted_segments content false.
Proof.
  intros H. unfold emitted_segments, vtt_loop.
  now rewrite (vtt_fold_flag _ H vtt_init eq_refl).
Qed.

Lemma X7_witness :
  emitted_segments ("WEBVTT" ++ newline ++ "hello" ++ newline ++ "world") true
  = emitted_segments ("WEBVTT" ++ newline ++ "hello" ++ newline ++ "world")
      false.
Proof.
  apply (X7_no_timing_line_no_timestamp
           ("WEBVTT" ++ newline ++ "hello" ++ newline ++ "world")).
  vm_compute. repeat constructor; discriminate.
Defined.

(** X8: without timestamps a timing line plays no part: taking it out of
    the lines leaves the loop's result as it is. *)
Theorem X8_plain_mode_ignores_timing_lines
    (before after : list string) (timing : string) :
  classify (Str.strip timing) = Timing ->
  vtt_loop false (before ++ timing :: after) = vtt_loop false (before ++ after).
Proof.
  intros H. unfold vtt_loop. rewrite !fold_left_app. cbn [fold_left].
  f_equal. unfold classify in H. unfold vtt_step. cbv zeta.
  destruct (is_skipped (Str.strip timing)); [reflexivity |].
  destruct (Str.contains "-->" (Str.strip timing)); [reflexivity |].
  destruct (is_index_marker (Str.strip timing)); discriminate.
Qed.

Lemma X8_witness :
  vtt_loop false ["hello"; "00:00:01.000 --> 00:00:02.000"; "world"]
  = vtt_loop false ["hello"; "world"].
Proof.
  apply (X8_plain_mode_ignores_timing_lines ["hello"] ["world"]
           "00:00:01.000 --> 00:00:02.000").
  reflexivity.
Defined.

(** ** Timing lines in general *)

Lemma format_vtt_timestamp_whole (t : string) :
  all_in (fun a => negb (Ascii.eqb a ".")) t = true ->
  format_vtt_timestamp t = t.
Proof.
  intros H. unfold format_vtt_timestamp, Str.split.
  now rewrite (split_go_whole "." "" t H).
Qed.

(** The timestamp taken from a timing line: its text up to the first "."
    or the first " --> ". *)
Lemma timing_line_timestamp (line t rest : string) :
  all_in (fun a => negb (Ascii.eqb a " ")) t = true ->
  all_in (fun a => negb (Ascii.eqb a ".")) t = true ->
  line = (t ++ "." ++ rest)%string \/ line = (t ++ " --> " ++ rest)%string ->
  exists p tl,
    Str.split line " --> " = p :: tl /\ format_vtt_timestamp p = t.
Proof.
  intros Hb Hd [-> | ->]; unfold Str.split.
  - destruct (split_go_head " " "--> " (t ++ ".") rest) as (h & tl & Hs).
    { rewrite all_in_append, Hb. reflexivity. }
    exists ((t ++ ".") ++ h)%string, tl. split.
    + rewrite <- Hs. now rewrite append_assoc.
    + rewrite append_assoc. now apply format_vtt_timestamp_cut.
  - rewrite (split_go_first " " "--> " t rest Hb).
    eexists _, _. split; [reflexivity |].
    now apply format_vtt_timestamp_whole.
Qed.

(** X9: with timestamps asked for, a timing line sets the current
    timestamp to its text up to the first "." or the first " --> " (for
    "01:02.500 --> 01:04.000" that is "01:02"), and a new text line after it
    is emitted as "[timestamp] text", or bare if that timestamp is empty. *)
Theorem X9_timing_line_sets_the_timestamp
    (st : vtt_state) (timing t rest : string) :
  is_skipped (Str.strip timing) = false ->
  Str.contains "-->" (Str.strip timing) = true ->
  all_in (fun a => negb (Ascii.eqb a " ")) t = true ->
  all_in (fun a => negb (Ascii.eqb a ".")) t = true ->
  Str.strip timing = (t ++ "." ++ rest)%string
  \/ Str.strip timing = (t ++ " --> " ++ rest)%string ->
  vtt_step true st timing
  = {| text_builder := text_builder st;
       seen_segments := seen_segments st;
       current_timestamp := Some t |}
  /\ forall raw clean,
       cleaned_text raw = Some clean ->
       clean ∉ seen_segments st ->
       text_builder (vtt_step true (vtt_step true st timing) raw)
       = text_builder st
         ++ [if Str.truthy t then ("[" ++ t ++ "] " ++ clean)%string
             else clean].
Proof.
  intros Hsk Harrow Hb Hd Hline.
  destruct (timing_line_timestamp _ t rest Hb Hd Hline) as (p & tl & Hs & Hf).
  assert (Hstep : vtt_step true st timing
                  = {| text_builder := text_builder st;
                       seen_segments := seen_segments st;
                       current_timestamp := Some t |}).
  { unfold vtt_step. cbv zeta. now rewrite Hsk, Harrow, Hs, Hf. }
  split; [exact Hstep |].
  intros raw clean Hc Hnew. rewrite Hstep.
  pose proof (vtt_step_cleaned true
                {| text_builder := text_builder st;
                   seen_segments := seen_segments st;
                   current_timestamp := Some t |} raw) as H.
  rewrite Hc in H. cbn [seen_segments] in H.
  destruct (decide (clean ∈ seen_segments st)); [contradiction |].
  rewrite H. cbn [text_builder current_timestamp]. f_equal.
  unfold render, tag_of. cbn [seg_tag seg_text andb].
  now destruct (Str.truthy t).
Qed.

Lemma X9_witness :
  vtt_step true vtt_init "01:02.500 --> 01:04.000"
  = {| text_builder := []; seen_segments := ∅;
       current_timestamp := Some "01:02" |}
  /\ forall raw clean,
       cleaned_text raw = Some clean ->
       clean ∉ (∅ : gset string) ->
       text_builder
         (vtt_step true (vtt_step true vtt_init "01:02.500 --> 01:04.000") raw)
       = [] ++ [if Str.truthy "01:02" then ("[" ++ "01:02" ++ "] " ++ clean)%string
                else clean].
Proof.
  apply (X9_timing_line_sets_the_timestamp vtt_init
           "01:02.500 --> 01:04.000" "01:02" "500 --> 01:04.000");
    try reflexivity.
  left. reflexivity.
Defined.

(** ** Lines taken for headers *)

Lemma is_skipped_marker (marker rest : string) :
  In marker ["NOTE"; "STYLE"; "Kind:"; "Language:"] ->
  is_skipped (marker ++ rest) = true.
Proof.
  intros H. unfold is_skipped, Str.startswith.
  assert (Hp : String.prefix marker (marker ++ rest) = true)
    by apply prefix_append.
  simpl in H. destruct H as [<- | [<- | [<- | [<- | []]]]];
    rewrite Hp; rewrite ?orb_true_r; reflexivity.
Qed.

(** X10: a line whose trimmed text begins with NOTE, STYLE, Kind: or
    Language: is passed over whatever follows the marker: caption text
    that begins so is lost, and a timing line that begins so sets no
    timestamp. *)
Theorem X10_marker_lines_are_dropped
    (raw marker rest : string) (include_timestamps : bool) (st : vtt_state) :
  In marker ["NOTE"; "STYLE"; "Kind:"; "Language:"] ->
  Str.strip raw = (marker ++ rest)%string ->
  vtt_step include_timestamps st raw = st /\ cleaned_text raw = None.
Proof.
  intros Hm Hl. pose proof (is_skipped_marker marker rest Hm) as Hs.
  rewrite <- Hl in Hs. split.
  - unfold vtt_step. cbv zeta. now rewrite Hs.
  - unfold cleaned_text, classify. now rewrite Hs.
Qed.

Lemma X10_witness :
  vtt_step false vtt_init "NOTEBOOKS are on the table" = vtt_init
  /\ cleaned_text "NOTEBOOKS are on the table" = None.
Proof.
  apply (X10_marker_lines_are_dropped "NOTEBOOKS are on the table" "NOTE"
           "BOOKS are on the table" false vtt_init).
  - simpl. auto.
  - reflexivity.
Defined.

Lemma solely_digits_first (c : ascii) (s : string) :
  solely_digits (String c s) -> digit c = true.
Proof.
  intros [_ H]. unfold all_digits in H. simpl in H.
  now apply andb_true_iff in H.
Qed.

(** X11: the header is recognised only as the line "WEBVTT" alone: a
    header line that carries more text, as the format allows, is a text
    line, and is emitted like any caption text. *)
Theorem X11_header_with_text_is_text (raw : string) (c : ascii) (rest : string) :
  Str.strip raw = String "W" (String "E" (String "B" (String "V"
                    (String "T" (String "T" (String c rest)))))) ->
  Str.contains "-->" (Str.strip raw) = false ->
  search tag_regex (Str.strip raw) = None ->
  classify (Str.strip raw) = Text
  /\ cleaned_text raw = Some (Str.strip raw).
Proof.
  intros Hl Harrow Htag.
  assert (Hsk : is_skipped (Str.strip raw) = false).
  { rewrite Hl. reflexivity. }
  assert (Hix : is_index_marker (Str.strip raw) = false).
  { destruct (is_index_marker (Str.strip raw)) eqn:H; [| reflexivity].
    apply is_index_marker_digits in H. rewrite Hl in H.
    apply solely_digits_first in H. discriminate. }
  assert (Hclean : remove_vtt_tags (Str.strip raw) = Str.strip raw).
  { unfold remove_vtt_tags, sub. apply sub_go_tag_id.
    now apply (search_from_tag (Str.strip raw) (Str.strip raw) 0). }
  assert (Hk : classify (Str.strip raw) = Text).
  { unfold classify. now rewrite Hsk, Harrow, Hix. }
  split; [exact Hk |].
  unfold cleaned_text. rewrite Hk. cbv zeta. rewrite Hclean, Hl. reflexivity.
Qed.

Lemma X11_witness :
  classify (Str.strip "WEBVTT - Talk of the day") = Text
  /\ cleaned_text "WEBVTT - Talk of the day" = Some "WEBVTT - Talk of the day".
Proof.
  apply (X11_header_with_text_is_text "WEBVTT - Talk of the day" " "
           "- Talk of the day"); reflexivity.
Defined.

(** ** extract_transcript *)

Lemma rstrip_idem (s : string) : Str.rstrip (Str.rstrip s) = Str.rstrip s.
Proof.
  induction s as [| c s IH]; [reflexivity |].
  cbn [Str.rstrip]. destruct (Str.rstrip s) as [| d r] eqn:Hr.
  - destruct (Str.is_space c) eqn:Hc; [reflexivity |].
    cbn [Str.rstrip]. now rewrite Hc.
  - change (Str.rstrip (String c (String d r)))
      with (match Str.rstrip (String d r) with
            | "" => if Str.is_space c then "" else String c ""
            | String a b => String c (String a b)
            end).
    now rewrite IH.
Qed.

Lemma lstrip_head (s : string) (c : ascii) (t : string) :
  Str.lstrip s = String c t -> Str.is_space c = false.
Proof.
  induction s as [| a s IH]; simpl; [discriminate |].
  destruct (Str.is_space a) eqn:Ha; [exact IH |].
  now intros [= <- _].
Qed.

Lemma rstrip_head (c : ascii) (t : string) :
  Str.is_space c = false -> exists r, Str.rstrip (String c t) = String c r.
Proof.
  intros Hc. cbn [Str.rstrip]. destruct (Str.rstrip t); [| eauto].
  rewrite Hc. eauto.
Qed.

(** A trimmed string is not changed by trimming. *)
Lemma strip_idem (s : string) : Str.strip (Str.strip s) = Str.strip s.
Proof.
  unfold Str.strip. destruct (Str.lstrip s) as [| c t] eqn:Hl; [reflexivity |].
  apply lstrip_head in Hl.
  destruct (rstrip_head c t Hl) as [r Hr]. rewrite Hr.
  cbn [Str.lstrip]. rewrite Hl, <- Hr. apply rstrip_idem.
Qed.

Lemma video_id_truthy (url v : string) :
  extract_video_id url = Some v -> Str.truthy v = true.
Proof.
  intros H.
  destruct (first_match_some patterns url v patterns_id_patterns H) as [L _].
  now destruct v.
Qed.

Lemma extract_transcript_valid (url v : string) (proxy : option string)
    (ts : bool) (resp : fetch_response) :
  extract_video_id url = Some v ->
  extract_transcript url proxy ts resp
  = ([RunYtDlp ("https://www.youtube.com/watch?v=" ++ v) (given proxy)],
     after_run v url proxy ts resp).
Proof.
  intros H. unfold extract_transcript.
  now rewrite H, (video_id_truthy url v H).
Qed.

Lemma given_nonempty (proxy : option string) (p : string) :
  given proxy = Some p -> p <> "" /\ proxy = Some p.
Proof.
  unfold given. destruct proxy as [q |]; [| discriminate].
  destruct (Str.truthy q) eqn:Hq; [| discriminate].
  intros [= <-]. split; [| reflexivity]. intros ->. discriminate.
Qed.

(** X12: what every success record carries: the URL it was asked for, the
    11-character id found in it, a transcript that is not empty and has no
    blank at either end, its length, the flag, and the proxy or "direct";
    and what a success takes: the collaborator was run once, on the watch
    page of that id, and ended with status 0. *)
Theorem X12_success_record
    (url : string) (proxy : option string) (include_timestamps : bool)
    (resp : fetch_response) (r : success_result) :
  snd (extract_transcript url proxy include_timestamps resp) = Return r ->
  video_url r = url
  /\ extract_video_id url = Some (video_id r)
  /\ String.length (video_id r) = 11
  /\ transcript r <> ""
  /\ Str.strip (transcript r) = transcript r
  /\ transcript_length r = String.length (transcript r)
  /\ includes_timestamps r = include_timestamps
  /\ proxy_used r <> ""
  /\ (proxy = Some (proxy_used r) \/ proxy_used r = "direct")
  /\ fst (extract_transcript url proxy include_timestamps resp)
     = [RunYtDlp ("https://www.youtube.com/watch?v=" ++ video_id r)
                 (given proxy)]
  /\ exists stderr, run resp = Completed 0 stderr.
Proof.
  destruct (extract_video_id url) as [v |] eqn:Hv;
    [| rewrite (extract_invalid proxy include_timestamps url resp Hv);
       discriminate].
  rewrite (extract_transcript_valid url v proxy include_timestamps resp Hv).
  cbn [fst snd]. unfold after_run.
  destruct (run resp) as [| e | rc stderr]; try discriminate.
  destruct (Z.eqb_spec rc 0) as [-> | Hrc]; cbn [negb]; [| discriminate].
  destruct (vtt_files resp) as [| f files]; [discriminate |].
  destruct (process_vtt_file (read_text f) include_timestamps)
    as [text | e]; [| discriminate].
  destruct (negb (Str.truthy text)
            || (String.length (Str.strip text) =? 0)%nat) eqn:Hc;
    [discriminate |].
  apply orb_false_iff in Hc as [_ Hlen]. apply Nat.eqb_neq in Hlen.
  intros [= <-]. cbn.
  destruct (first_match_some patterns url v patterns_id_patterns Hv) as [L _].
  repeat split; auto.
  - intros H. rewrite H in Hlen. now apply Hlen.
  - apply strip_idem.
  - destruct (given proxy) as [p |] eqn:Hp; [| discriminate].
    now apply given_nonempty in Hp.
  - destruct (given proxy) as [p |] eqn:Hp; [| now right].
    left. now apply given_nonempty in Hp.
  - eauto.
Qed.

Lemma X12_witness :
  extract_video_id "https://youtu.be/dQw4w9WgXcQ" = Some "dQw4w9WgXcQ"
  /\ Str.strip "use a .env file" = "use a .env file".
Proof.
  destruct (X12_success_record "https://youtu.be/dQw4w9WgXcQ" None false
              dotenv_response
              {| video_id := "dQw4w9WgXcQ";
                 video_url := "https://youtu.be/dQw4w9WgXcQ";
                 video_title := "Nodev tips";
                 transcript := "use a .env file";
                 transcript_length := 15;
                 source := "ytdlp_vtt_optimized";
                 language := "en";
                 proxy_used := "direct";
                 includes_timestamps := false |} eq_refl)
    as (_ & Hid & _ & _ & Hstrip & _).
  split; [exact Hid | exact Hstrip].
Defined.

(** X13: how an attempt can fail when [subprocess.run] itself raises
    nothing: with the ValueError of an unparseable URL, the collaborator not
    run; or, the collaborator run, with a RuntimeError whose message tells a
    timeout, a status other than 0 (with the status and the diagnostic
    stream), no caption file, or no transcript content. *)
Theorem X13_failures_of_an_attempt
    (url : string) (proxy : option string) (include_timestamps : bool)
    (resp : fetch_response) (e : exn) :
  snd (extract_transcript url proxy include_timestamps resp) = Raise e ->
  (forall e', run resp <> RunRaised e') ->
  (extract_video_id url = None
   /\ e = invalid_url url
   /\ fst (extract_transcript url proxy include_timestamps resp) = [])
  \/ (extract_video_id url <> None
      /\ exc_type e = RuntimeError
      /\ ((run resp = TimeoutExpired
           /\ exc_message e = "yt-dlp command timed out after 120 seconds")
          \/ (exists rc stderr,
                 run resp = Completed rc stderr /\ rc <> 0%Z
                 /\ exc_message e
                    = ("yt-dlp failed with return code " ++ Str.of_Z rc
                       ++ ": " ++ stderr)%string)
          \/ (vtt_files resp = []
              /\ exc_message e = "No VTT files found")
          \/ (vtt_files resp <> []
              /\ exc_message e = "No transcript content found in VTT file"))).
Proof.
  destruct (extract_video_id url) as [v |] eqn:Hv.
  - rewrite (extract_transcript_valid url v proxy include_timestamps resp Hv).
    cbn [fst snd]. unfold after_run. intros H Hrun. right.
    split; [discriminate |].
    destruct (run resp) as [| e' | rc stderr].
    + injection H as <-. split; [reflexivity |]. left. auto.
    + now destruct (Hrun e').
    + destruct (Z.eqb_spec rc 0) as [-> | Hrc]; cbn [negb] in H.
      * destruct (vtt_files resp) as [| f files].
        { injection H as <-. split; [reflexivity |]. right. right. left. auto. }
        destruct (process_vtt_file (read_text f) include_timestamps)
          as [text | e0] eqn:Hp.
        -- destruct (_ || _) in H; [| discriminate].
           injection H as <-. split; [reflexivity |].
           right. right. right. split; [discriminate | reflexivity].
        -- unfold process_vtt_file in Hp.
           destruct (process_vtt_body _ _); discriminate.
      * injection H as <-. split; [reflexivity |]. right. left.
        exists rc, stderr. auto.
  - rewrite (extract_invalid proxy include_timestamps url resp Hv).
    cbn [fst snd]. intros [= <-] _. left. auto.
Qed.

Lemma X13_witness :
  (extract_video_id "https://youtu.be/dQw4w9WgXcQ" = None
   /\ runtime_error "yt-dlp failed with return code 1: ERROR: blocked"
      = invalid_url "https://youtu.be/dQw4w9WgXcQ"
   /\ fst (extract_transcript "https://youtu.be/dQw4w9WgXcQ" None false
             (failing_fetch 0)) = [])
  \/ (extract_video_id "https://youtu.be/dQw4w9WgXcQ" <> None
      /\ exc_type (runtime_error
                     "yt-dlp failed with return code 1: ERROR: blocked")
         = RuntimeError
      /\ ((run (failing_fetch 0) = TimeoutExpired
           /\ exc_message
                (runtime_error "yt-dlp failed with return code 1: ERROR: blocked")
              = "yt-dlp command timed out after 120 seconds")
          \/ (exists rc stderr,
                 run (failing_fetch 0) = Completed rc stderr /\ rc <> 0%Z
                 /\ exc_message
                      (runtime_error
                         "yt-dlp failed with return code 1: ERROR: blocked")
                    = ("yt-dlp failed with return code " ++ Str.of_Z rc
                       ++ ": " ++ stderr)%string)
          \/ (vtt_files (failing_fetch 0) = []
              /\ exc_message
                   (runtime_error
                      "yt-dlp failed with return code 1: ERROR: blocked")
                 = "No VTT files found")
          \/ (vtt_files (failing_fetch 0) <> []
              /\ exc_message
                   (runtime_error
                      "yt-dlp failed with return code 1: ERROR: blocked")
                 = "No transcript content found in VTT file"))).
Proof.
  apply (X13_failures_of_an_attempt "https://youtu.be/dQw4w9WgXcQ" None false
           (failing_fetch 0)
           (runtime_error "yt-dlp failed with return code 1: ERROR: blocked")).
  - reflexivity.
  - discriminate.
Defined.

(** X14: with status 0 and a caption file, the attempt fails for lack of
    content exactly when the first file cannot be read (the read error
    itself is not passed on) or when what the normalizer makes of it is
    blank. *)
Theorem X14_no_transcript_content
    (url v : string) (proxy : option string) (include_timestamps : bool)
    (resp : fetch_response) (stderr : string) (f : vtt_path)
    (files : list vtt_path) :
  extract_video_id url = Some v ->
  run resp = Completed 0 stderr ->
  vtt_files resp = f :: files ->
  snd (extract_transcript url proxy include_timestamps resp)
  = Raise (runtime_error "No transcript content found in VTT file")
  <-> (exists e, read_text f = Raise e)
      \/ (exists content,
             read_text f = Return content
             /\ all_in Str.is_space
                  (Str.join (separator include_timestamps)
                     (emitted_segments content include_timestamps)) = true).
Proof.
  intros Hv Hrun Hfiles.
  rewrite (extract_transcript_valid url v proxy include_timestamps resp Hv).
  cbn [snd]. unfold after_run. rewrite Hrun, Hfiles. cbn [Z.eqb negb].
  destruct (read_text f) as [content | e0] eqn:Hread.
  - rewrite process_vtt_file_join.
    set (out := Str.join (separator include_timestamps)
                  (emitted_segments content include_timestamps)).
    destruct (Str.strip out) as [| c s] eqn:Hs.
    + rewrite orb_true_r. split; [| reflexivity].
      intros _. right. exists content. split; [reflexivity |].
      now apply strip_empty.
    + assert (Ht : Str.truthy out = true).
      { destruct out; [discriminate | reflexivity]. }
      rewrite Ht. cbn. split; [discriminate |].
      intros [[e He] | (c' & Hc' & Hc)]; [discriminate |].
      injection Hc' as <-. apply strip_empty in Hc. fold out in Hc.
      congruence.
  - cbn. split; [| reflexivity]. intros _. left. eauto.
Qed.

Lemma X14_witness :
  snd (extract_transcript "https://youtu.be/dQw4w9WgXcQ" None false
         unreadable_response)
  = Raise (runtime_error "No transcript content found in VTT file").
Proof.
  apply (proj2 (X14_no_transcript_content "https://youtu.be/dQw4w9WgXcQ"
                  "dQw4w9WgXcQ" None false unreadable_response ""
                  {| name := "a.en.vtt";
                     read_text :=
                       Raise {| exc_type := UnicodeDecodeError;
                                exc_message := "invalid start byte" |} |}
                  [] eq_refl eq_refl eq_refl)).
  left. eexists. reflexivity.
Defined.

(** ** The retry loop: counts *)

Lemma calls_app (a b : list event) : calls (a ++ b) = calls a ++ calls b.
Proof. unfold calls. apply flat_map_app. Qed.

Lemma sleeps_app (a b : list event) : sleeps (a ++ b) = sleeps a ++ sleeps b.
Proof. unfold sleeps. apply flat_map_app. Qed.

Lemma extract_events (url : string) (proxy : option string) (ts : bool)
    (resp : fetch_response) :
  calls (fst (extract_transcript url proxy ts resp)) = []
  /\ sleeps (fst (extract_transcript url proxy ts resp)) = []
  /\ Forall (event_ok url proxy) (fst (extract_transcript url proxy ts resp)).
Proof.
  destruct (extract_video_id url) as [v |] eqn:Hv.
  - rewrite (extract_transcript_valid url v proxy ts resp Hv). cbn.
    repeat split; auto. repeat constructor. cbn. eauto.
  - rewrite (extract_invalid proxy ts url resp Hv). cbn. auto.
Qed.

Lemma repeat_snoc (x : Z) (n : nat) : repeat x n ++ [x] = repeat x (S n).
Proof. induction n as [| n IH]; simpl; [reflexivity | now rewrite IH]. Qed.

Section RetryCounts.

Variable max_retries : Z.
Variable proxy : option string.
Variable include_timestamps : bool.
Variable url : string.
Variable fetch : nat -> fetch_response.
Hypothesis max_retries_pos : (1 <= max_retries)%Z.

Abbreviation go := (while_loop max_retries proxy include_timestamps url fetch).
Abbreviation once := (attempt max_retries proxy include_timestamps url fetch).

Lemma attempt_counts st :
  loop_cond max_retries st = true ->
  counts_ok max_retries st -> counts_ok max_retries (once st).
Proof.
  unfold loop_cond. intros Hc (Hrc & Hs & Hcalls & Hsleeps).
  apply andb_true_iff in Hc as [Hlt Hns].
  apply Z.ltb_lt in Hlt. apply negb_true_iff in Hns.
  rewrite Hns in Hcalls.
  destruct (extract_events url proxy include_timestamps
              (fetch (Z.to_nat (retry_count st)))) as (Hec & Hes & _).
  unfold attempt.
  destruct (extract_transcript url proxy include_timestamps
              (fetch (Z.to_nat (retry_count st)))) as [evs [r | e]];
    cbn [fst] in Hec, Hes; unfold counts_ok;
    cbn [retry_count success trace].
  - split; [lia |]. split; [intros _; lia |]. split.
    + rewrite calls_app. cbn. rewrite calls_app, Hec, length_app. cbn. lia.
    + rewrite sleeps_app. cbn. rewrite sleeps_app, Hes. cbn.
      now rewrite app_nil_r.
  - rewrite Hns. split; [lia |]. split; [intros H; discriminate H |]. split.
    + rewrite calls_app. cbn. rewrite calls_app, Hec, length_app.
      destruct (_ <? _)%Z; cbn; lia.
    + rewrite sleeps_app. cbn. rewrite sleeps_app, Hes, Hsleeps. cbn [app].
      destruct (Z.ltb_spec (retry_count st + 1) max_retries); cbn.
      * rewrite repeat_snoc. f_equal. lia.
      * rewrite app_nil_r. f_equal. lia.
Qed.

Lemma while_loop_counts fuel st :
  counts_ok max_retries st -> counts_ok max_retries (go fuel st).
Proof.
  revert st. induction fuel as [| fuel IH]; intros st H; [exact H |].
  cbn [while_loop]. destruct (loop_cond max_retries st) eqn:Hc; [| exact H].
  apply IH. now apply attempt_counts.
Qed.

Lemma process_url_counts :
  1 <= length (calls (process_url max_retries proxy include_timestamps url fetch))
  /\ length (calls (process_url max_retries proxy include_timestamps url fetch))
     <= Z.to_nat max_retries
  /\ sleeps (process_url max_retries proxy include_timestamps url fetch)
     = repeat 5%Z
         (length (calls (process_url max_retries proxy include_timestamps
                           url fetch)) - 1).
Proof.
  unfold process_url.
  set (st := go (Z.to_nat max_retries) retry_init).
  assert (Hok : counts_ok max_retries st).
  { apply while_loop_counts. unfold counts_ok. cbn.
    split; [lia |]. split; [intros H; discriminate H |]. split; [reflexivity |].
    now replace (Z.to_nat (Z.min 0 (max_retries - 1))) with 0%nat by lia. }
  assert (Hend : loop_cond max_retries st = false).
  { apply while_loop_ends. cbn. lia. }
  destruct Hok as (Hrc & Hs & Hcalls & Hsleeps). unfold loop_cond in Hend.
  destruct (success st) eqn:Hsucc; cbn [negb].
  - specialize (Hs eq_refl). rewrite Hcalls, Hsleeps.
    repeat split; try lia. f_equal. lia.
  - rewrite andb_true_r in Hend. apply Z.ltb_ge in Hend.
    rewrite calls_app, sleeps_app, length_app. cbn.
    rewrite !app_nil_r, Nat.add_0_r, Hcalls, Hsleeps.
    repeat split; try lia. f_equal. lia.
Qed.

End RetryCounts.

(** X15: whatever the collaborator does, an item is tried at most
    maxRetries times, and at least once if maxRetries is at least 1; the
    delays are of 5 seconds, one after each try but the last: none follows a
    success or the last failure. *)
Theorem X15_tries_and_delays
    (max_retries : Z) (proxy : option string) (include_timestamps : bool)
    (url : string) (fetch : nat -> fetch_response) :
  length (calls (process_url max_retries proxy include_timestamps url fetch))
  <= Z.to_nat max_retries
  /\ sleeps (process_url max_retries proxy include_timestamps url fetch)
     = repeat 5%Z
         (length (calls (process_url max_retries proxy include_timestamps
                           url fetch)) - 1)
  /\ ((1 <= max_retries)%Z ->
      1 <= length (calls (process_url max_retries proxy include_timestamps
                            url fetch))).
Proof.
  destruct (Z.le_gt_cases 1 max_retries) as [Hpos | Hneg].
  - destruct (process_url_counts max_retries proxy include_timestamps url
                fetch Hpos) as (H1 & H2 & H3).
    auto.
  - unfold process_url.
    replace (Z.to_nat max_retries) with 0%nat by lia.
    cbn. repeat split; [lia | lia].
Qed.

Lemma X15_witness :
  1 <= length (calls (process_url 3 None false "https://youtu.be/dQw4w9WgXcQ"
                        failing_fetch)).
Proof.
  apply (proj2 (proj2 (X15_tries_and_delays 3 None false
                         "https://youtu.be/dQw4w9WgXcQ" failing_fetch))).
  lia.
Defined.

(** ** The retry loop: success after failures *)

Lemma while_loop_first_success
    (max_retries : Z) (proxy : option string) (include_timestamps : bool)
    (url : string) (fetch : nat -> fetch_response) (r : success_result)
    (n : nat) :
  forall st fuel,
    success st = false ->
    (0 <= retry_count st)%Z ->
    (retry_count st + Z.of_nat n < max_retries)%Z ->
    (forall j, j < n ->
               exists e, attempt_outcome proxy include_timestamps url fetch
                           (Z.to_nat (retry_count st) + j) = Raise e) ->
    attempt_outcome proxy include_timestamps url fetch
      (Z.to_nat (retry_count st) + n) = Return r ->
    n < fuel ->
    success (while_loop max_retries proxy include_timestamps url fetch fuel st)
    = true
    /\ retry_count
         (while_loop max_retries proxy include_timestamps url fetch fuel st)
       = (retry_count st + Z.of_nat n)%Z
    /\ pushed (trace (while_loop max_retries proxy include_timestamps url
                        fetch fuel st))
       = pushed (trace st) ++ [Success r].
Proof.
  induction n as [| n IH]; intros st fuel Hs H0 Hlt Hfail Hok Hfuel;
    (destruct fuel as [| fuel]; [lia |]); cbn [while_loop];
    assert (Hc : loop_cond max_retries st = true)
      by (unfold loop_cond; rewrite Hs; cbn;
          rewrite andb_true_r; apply Z.ltb_lt; lia);
    rewrite Hc.
  - rewrite Nat.add_0_r in Hok. unfold attempt_outcome in Hok.
    pose proof (extract_pushes_nothing proxy include_timestamps url
                  (fetch (Z.to_nat (retry_count st)))) as Hn.
    assert (Ha : attempt max_retries proxy include_timestamps url fetch st
                 = {| retry_count := retry_count st;
                      success := true;
                      last_error := last_error st;
                      trace := trace st
                               ++ CallExtract url
                                  :: fst (extract_transcript url proxy
                                            include_timestamps
                                            (fetch (Z.to_nat (retry_count st))))
                                  ++ [PushData (Success r)] |}).
    { unfold attempt.
      destruct (extract_transcript url proxy include_timestamps
                  (fetch (Z.to_nat (retry_count st)))) as [evs res].
      cbn in Hok. now subst res. }
    rewrite while_loop_stop
      by (apply attempt_success; rewrite Ha; reflexivity).
    rewrite Ha. cbn [success retry_count trace].
    split; [reflexivity |]. split; [lia |].
    rewrite pushed_app. simpl. rewrite pushed_app, Hn. reflexivity.
  - destruct (Hfail 0) as [e He]; [lia |].
    rewrite Nat.add_0_r in He. unfold attempt_outcome in He.
    destruct (extract_transcript url proxy include_timestamps
                (fetch (Z.to_nat (retry_count st)))) as [evs res] eqn:Hx.
    cbn in He. subst res.
    pose proof (extract_pushes_nothing proxy include_timestamps url
                  (fetch (Z.to_nat (retry_count st)))) as Hn.
    rewrite Hx in Hn. cbn [fst] in Hn.
    rewrite (attempt_raise max_retries proxy include_timestamps url fetch
               st evs e Hx).
    match goal with
    | |- context [while_loop _ _ _ _ _ fuel ?s] => set (st1 := s)
    end.
    destruct (IH st1 fuel) as (Ha & Hb & Hc'); unfold st1;
      cbn [success retry_count trace]; try lia; try assumption.
    + intros j Hj. destruct (Hfail (S j)) as [e' He']; [lia |].
      exists e'. rewrite <- He'. f_equal. lia.
    + rewrite <- Hok. f_equal. lia.
    + fold st1. split; [exact Ha |]. split; [rewrite Hb; cbn; lia |].
      rewrite Hc'. unfold st1. cbn [trace].
      rewrite pushed_app. simpl. rewrite pushed_app, Hn.
      destruct (_ <? _)%Z; simpl; now rewrite app_nil_r.
Qed.

(** X16: if the first [k] attempts fail and the next one succeeds, with
    [k] less than maxRetries, the item's only record is the success record
    of that attempt: no failure record is written.  There were [k + 1] calls
    and [k] delays of 5 seconds. *)
Theorem X16_success_after_failures
    (max_retries : Z) (proxy : option string) (include_timestamps : bool)
    (url : string) (fetch : nat -> fetch_response) (k : nat)
    (r : success_result) :
  (Z.of_nat k < max_retries)%Z ->
  (forall j, j < k ->
             exists e, attempt_outcome proxy include_timestamps url fetch j
                       = Raise e) ->
  attempt_outcome proxy include_timestamps url fetch k = Return r ->
  pushed (process_url max_retries proxy include_timestamps url fetch)
  = [Success r]
  /\ length (calls (process_url max_retries proxy include_timestamps url fetch))
     = k + 1
  /\ sleeps (process_url max_retries proxy include_timestamps url fetch)
     = repeat 5%Z k.
Proof.
  intros Hk Hfail Hok.
  pose proof (while_loop_first_success max_retries proxy include_timestamps
                url fetch r k retry_init (Z.to_nat max_retries)) as Hfirst.
  cbn [success retry_count retry_init] in Hfirst.
  destruct Hfirst as (Hs & Hrc & Hp);
    [reflexivity | lia | lia | exact Hfail | exact Hok | lia |].
  assert (Hcount : counts_ok max_retries
                     (while_loop max_retries proxy include_timestamps url
                        fetch (Z.to_nat max_retries) retry_init)).
  { apply while_loop_counts. unfold counts_ok. cbn.
    split; [lia |]. split; [intros H; discriminate H |]. split; [reflexivity |].
    now replace (Z.to_nat (Z.min 0 (max_retries - 1))) with 0%nat by lia. }
  destruct Hcount as (_ & _ & Hcalls & Hsleeps).
  unfold process_url. rewrite Hs. cbn [negb].
  rewrite Hp, Hcalls, Hsleeps, Hs, Hrc. cbn.
  repeat split; [lia |]. f_equal. lia.
Qed.

Lemma X16_witness :
  exists r,
    pushed (process_url 3 None false "https://youtu.be/dQw4w9WgXcQ"
              third_time_lucky) = [Success r]
    /\ length (calls (process_url 3 None false "https://youtu.be/dQw4w9WgXcQ"
                        third_time_lucky)) = 2 + 1
    /\ sleeps (process_url 3 None false "https://youtu.be/dQw4w9WgXcQ"
                 third_time_lucky) = repeat 5%Z 2.
Proof.
  eexists.
  apply (X16_success_after_failures 3 None false
           "https://youtu.be/dQw4w9WgXcQ" third_time_lucky 2).
  - lia.
  - intros j Hj. destruct j as [| [| j]]; [| | lia]; eexists; reflexivity.
  - reflexivity.
Defined.

(** X17: the retry loop ends: after max(maxRetries, 0) rounds its condition
    is false, and going round more often changes nothing. *)
Theorem X17_retry_loop_ends
    (max_retries : Z) (proxy : option string) (include_timestamps : bool)
    (url : string) (fetch : nat -> fetch_response) (fuel : nat) :
  Z.to_nat max_retries <= fuel ->
  loop_cond max_retries
    (while_loop max_retries proxy include_timestamps url fetch fuel retry_init)
  = false
  /\ while_loop max_retries proxy include_timestamps url fetch fuel retry_init
     = while_loop max_retries proxy include_timestamps url fetch
         (Z.to_nat max_retries) retry_init.
Proof.
  intros H. split.
  - apply while_loop_ends. cbn. lia.
  - replace fuel with (Z.to_nat max_retries + (fuel - Z.to_nat max_retries))
      by lia.
    apply while_loop_fuel. cbn. lia.
Qed.

Lemma X17_witness :
  loop_cond 2
    (while_loop 2 None false "https://youtu.be/dQw4w9WgXcQ" failing_fetch 7
       retry_init) = false
  /\ while_loop 2 None false "https://youtu.be/dQw4w9WgXcQ" failing_fetch 7
       retry_init
     = while_loop 2 None false "https://youtu.be/dQw4w9WgXcQ" failing_fetch
         (Z.to_nat 2) retry_init.
Proof.
  apply (X17_retry_loop_ends 2 None false "https://youtu.be/dQw4w9WgXcQ"
           failing_fetch 7).
  vm_compute. lia.
Defined.

(** ** The events of a run *)

Lemma attempt_events
    (max_retries : Z) (proxy : option string) (include_timestamps : bool)
    (url : string) (fetch : nat -> fetch_response) (st : retry_state) :
  Forall (event_ok url proxy) (trace st) ->
  Forall (event_ok url proxy)
    (trace (attempt max_retries proxy include_timestamps url fetch st)).
Proof.
  intros H.
  destruct (extract_events url proxy include_timestamps
              (fetch (Z.to_nat (retry_count st)))) as (_ & _ & He).
  pose proof (extract_success_url proxy include_timestamps url
                (fetch (Z.to_nat (retry_count st)))) as Hu.
  unfold attempt.
  destruct (extract_transcript url proxy include_timestamps
              (fetch (Z.to_nat (retry_count st)))) as [evs [r | e]];
    cbn [fst snd] in He, Hu; cbn [trace];
    apply Forall_app; (split; [exact H |]);
    (constructor; [reflexivity |]); apply Forall_app; (split; [exact He |]).
  - constructor; [| constructor]. cbn. now apply Hu.
  - destruct (_ <? _)%Z; repeat constructor.
Qed.

Lemma while_loop_events
    (max_retries : Z) (proxy : option string) (include_timestamps : bool)
    (url : string) (fetch : nat -> fetch_response) (fuel : nat) :
  forall st,
    Forall (event_ok url proxy) (trace st) ->
    Forall (event_ok url proxy)
      (trace (while_loop max_retries proxy include_timestamps url fetch
                fuel st)).
Proof.
  induction fuel as [| fuel IH]; intros st H; cbn [while_loop]; [exact H |].
  destruct (loop_cond max_retries st); [| exact H].
  apply IH. now apply attempt_events.
Qed.

Lemma process_url_events
    (max_retries : Z) (proxy : option string) (include_timestamps : bool)
    (url : string) (fetch : nat -> fetch_response) :
  Forall (event_ok url proxy)
    (process_url max_retries proxy include_timestamps url fetch).
Proof.
  unfold process_url.
  pose proof (while_loop_events max_retries proxy include_timestamps url fetch
                (Z.to_nat max_retries) retry_init ltac:(constructor)) as H.
  destruct (negb _); [| exact H].
  apply Forall_app. split; [exact H |]. repeat constructor.
Qed.

Lemma process_all_events (input : actor_input)
    (fetch : nat -> nat -> fetch_response) (urls : list string) :
  forall i,
    Forall (fun ev => exists u, In u urls /\ event_ok u (proxy input) ev)
      (process_all input fetch i urls).
Proof.
  induction urls as [| url urls IH]; intros i; cbn [process_all];
    [constructor |].
  apply Forall_app. split.
  - eapply Forall_impl; [apply process_url_events |].
    intros ev Hev. exists url. split; [now left | exact Hev].
  - eapply Forall_impl; [apply IH |].
    intros ev (u & Hu & Hev). exists u. split; [now right | exact Hev].
Qed.

Lemma process_all_records (input : actor_input)
    (fetch : nat -> nat -> fetch_response) (urls : list string) :
  forall i, map item_url (pushed (process_all input fetch i urls)) = urls.
Proof.
  induction urls as [| url urls IH]; intros i; cbn [process_all];
    [reflexivity |].
  rewrite pushed_app, map_app, IH.
  destruct (process_url_one_record (max_retries_of input) (proxy input)
              (include_timestamps_of input) url (fetch i))
    as (item & Hitem & Hurl).
  rewrite Hitem. cbn [map app]. now rewrite Hurl.
Qed.

(** X18: the run is failed with [Actor.fail] exactly when the input gives
    no URL at all; nothing else happens then: no attempt, no delay, no
    record. *)
Theorem X18_run_fails_only_without_urls
    (input : actor_input) (fetch : nat -> nat -> fetch_response) :
  ((exists message, In (ActorFail message) (main input fetch))
   <-> all_urls input = [])
  /\ ((exists message, In (ActorFail message) (main input fetch)) ->
      exists message, main input fetch = [ActorFail message]).
Proof.
  unfold main.
  destruct (all_urls input) as [| url urls] eqn:Hurls.
  - split; [split; [reflexivity |] |]; intros _; eexists;
      [left |]; reflexivity.
  - assert (Hno : ~ exists message,
                      In (ActorFail message)
                         (process_all input fetch 0 (url :: urls))).
    { intros [message Hin].
      pose proof (process_all_events input fetch (url :: urls) 0) as H.
      rewrite List.Forall_forall in H.
      destruct (H _ Hin) as (u & _ & Hev). exact Hev. }
    split; [split; [| discriminate] |]; intros H; now destruct Hno.
Qed.

(** X19: in a run with URLs, every event is about one of them: the
    extractor is called on input URLs only, the collaborator is run only on
    the watch page of the id found in such a URL, with the proxy of the input
    if it is not empty, the delays are of 5 seconds, and every record is
    about an input URL. *)
Theorem X19_events_of_a_run
    (input : actor_input) (fetch : nat -> nat -> fetch_response) :
  all_urls input <> [] ->
  Forall (run_event_ok input) (main input fetch).
Proof.
  intros H. unfold main, run_event_ok.
  destruct (all_urls input) as [| url urls] eqn:Hurls; [now destruct H |].
  apply process_all_events.
Qed.

Lemma X19_witness :
  Forall (run_event_ok one_url_input)
    (main one_url_input (fun _ => failing_fetch)).
Proof.
  apply (X19_events_of_a_run one_url_input (fun _ => failing_fetch)).
  discriminate.
Defined.

(** X20: a run writes one record for each input URL, in the order of the
    input, whatever the collaborator does. *)
Theorem X20_one_record_for_each_url
    (input : actor_input) (fetch : nat -> nat -> fetch_response) :
  map item_url (pushed (main input fetch)) = all_urls input.
Proof.
  unfold main.
  destruct (all_urls input) as [| url urls] eqn:Hurls; [reflexivity |].
  apply process_all_records.
Qed.

(** ** The video id: which URLs are accepted *)

Lemma or_else_none_r (a : option Re.result) : or_else a None = a.
Proof. now destruct a. Qed.

(** Eleven characters of the id set, matched by [[a-zA-Z0-9_-]{11}]. *)
Lemma rep_set (p : ascii -> bool) (k : cont) (rest : string) (g : groups)
    (n : nat) :
  forall (w : string) (pos : nat),
    String.length w = n ->
    all_in p w = true ->
    rep (mtch (Set_ p)) k n n pos (w ++ rest) g
    = k (pos + n) rest g.
Proof.
  induction n as [| n IH]; intros w pos Hlen Hall.
  - destruct w; [| discriminate]. cbn. now rewrite Nat.add_0_r.
  - destruct w as [| c w]; [discriminate |].
    cbn [all_in] in Hall. apply andb_true_iff in Hall as [Hc Hw].
    cbn [rep Nat.pred]. rewrite or_else_none_r.
    cbn [mtch String.append]. rewrite Hc.
    rewrite IH by (cbn in Hlen; (lia || assumption)).
    f_equal. lia.
Qed.

Lemma mtch_id_group (k : cont) (pos : nat) (id rest : string) (g : groups) :
  String.length id = 11 ->
  all_in id_char id = true ->
  mtch id_group k pos (id ++ rest) g
  = k (pos + 11) rest ((1, (pos, pos + 11)) :: g).
Proof.
  intros Hlen Hall. unfold id_group, Times. cbn [mtch].
  now rewrite (rep_set id_char _ rest g 11 id pos Hlen Hall).
Qed.

Lemma search_from_finds (r : regex) (whole : string) (s : string)
    (before : string) :
  forall pos,
    mtch r accept (pos + String.length before) s [] <> None ->
    search_from r whole pos (before ++ s) <> None.
Proof.
  induction before as [| c before IH]; intros pos H.
  - cbn [String.append]. cbn [String.length] in H. rewrite Nat.add_0_r in H.
    destruct s as [| c s]; cbn [search_from];
      destruct (mtch r accept pos _ []) as [[e g] |]; congruence.
  - cbn [String.append search_from].
    destruct (mtch r accept pos _ []) as [[e g] |]; [discriminate |].
    apply IH. cbn [String.length] in H.
    now replace (S pos + String.length before)
      with (pos + S (String.length before)) by lia.
Qed.

Lemma marker_match (marker : string) (pos : nat) (id after : string) :
  In marker markers ->
  String.length id = 11 ->
  all_in id_char id = true ->
  exists p,
    In p patterns
    /\ mtch p accept pos (marker ++ id ++ after) [] <> None.
Proof.
  intros Hm Hlen Hall. unfold markers in Hm. cbn [In] in Hm.
  destruct Hm as [<- | [<- | [<- | [<- | []]]]].
  - exists (Cat (url_prefix ++ [Re.Str "youtube.com/watch?v="; id_group])).
    split; [cbn; auto |].
    cbn -[id_group]. now rewrite (mtch_id_group _ _ id after [] Hlen Hall).
  - exists (Cat (url_prefix ++ [Re.Str "youtu.be/"; id_group])).
    split; [cbn; auto |].
    cbn -[id_group]. now rewrite (mtch_id_group _ _ id after [] Hlen Hall).
  - exists (Cat (url_prefix ++ [Re.Str "youtube.com/shorts/"; id_group])).
    split; [cbn; auto |].
    cbn -[id_group]. now rewrite (mtch_id_group _ _ id after [] Hlen Hall).
  - exists (Cat (url_prefix ++ [Re.Str "youtube.com/embed/"; id_group])).
    split; [cbn; auto 6 |].
    cbn -[id_group]. now rewrite (mtch_id_group _ _ id after [] Hlen Hall).
Qed.

(** X21: the patterns are searched for, not anchored: a URL in which one
    of the four markers is followed by eleven characters of the id set is
    accepted, whatever stands before the marker and after the eleven
    characters; what is returned is eleven characters of the id set. *)
Theorem X21_marker_and_id_anywhere
    (before marker id after : string) :
  In marker markers ->
  String.length id = 11 ->
  all_in id_char id = true ->
  exists found,
    extract_video_id (before ++ marker ++ id ++ after) = Some found
    /\ String.length found = 11
    /\ all_in id_char found = true.
Proof.
  intros Hm Hlen Hall.
  destruct (extract_video_id (before ++ marker ++ id ++ after))
    as [found |] eqn:Hx.
  - exists found. split; [reflexivity |].
    destruct (first_match_some patterns _ found patterns_id_patterns Hx)
      as (H1 & H2 & _).
    now split.
  - exfalso. unfold extract_video_id in Hx.
    apply (first_match_none patterns _ patterns_id_patterns) in Hx.
    destruct (marker_match marker (0 + String.length before) id after
                Hm Hlen Hall) as (p & Hp & Hmatch).
    rewrite List.Forall_forall in Hx. specialize (Hx p Hp).
    unfold search in Hx.
    now apply (search_from_finds p (before ++ marker ++ id ++ after)
                 (marker ++ id ++ after) before 0) in Hmatch.
Qed.

Lemma X21_witness :
  exists found,
    extract_video_id
      ("https://example.org/?next=" ++ "youtu.be/" ++ "dQw4w9WgXcQ" ++ "&t=1")
    = Some found
    /\ String.length found = 11
    /\ all_in id_char found = true.
Proof.
  apply (X21_marker_and_id_anywhere "https://example.org/?next="
           "youtu.be/" "dQw4w9WgXcQ" "&t=1").
  - cbn. auto.
  - reflexivity.
  - reflexivity.
Defined.

(** X22: the address the collaborator is given, the watch page of an id,
    is read back to that id, whatever follows the id. *)
Theorem X22_watch_page_round_trip (id after : string) :
  String.length id = 11 ->
  all_in id_char id = true ->
  extract_video_id ("https://www.youtube.com/watch?v=" ++ id ++ after)
  = Some id.
Proof.
  intros Hlen Hall.
  unfold extract_video_id, patterns. cbn [first_match].
  unfold search.
  assert (Hm : mtch (Cat (url_prefix
                          ++ [Re.Str "youtube.com/watch?v="; id_group]))
                 accept 0
                 ("https://www.youtube.com/watch?v=" ++ id ++ after) []
               = Some (43, [(1, (32, 43))])).
  { cbn -[id_group].
    rewrite (mtch_id_group _ _ id after [] Hlen Hall). reflexivity. }
  replace ("https://www.youtube.com/watch?v=" ++ id ++ after)%string
    with (String "h" ("ttps://www.youtube.com/watch?v=" ++ id ++ after))
    in * by reflexivity.
  cbn [search_from]. rewrite Hm.
  unfold group. cbn [m_groups span_of Nat.eqb subject].
  change (Some (String.substring 0 11 (id ++ after)) = Some id).
  rewrite <- Hlen. now rewrite substring_prefix.
Qed.

Lemma X22_witness :
  extract_video_id
    ("https://www.youtube.com/watch?v=" ++ "dQw4w9WgXcQ" ++ "&list=PL1")
  = Some "dQw4w9WgXcQ".
Proof.
  apply (X22_watch_page_round_trip "dQw4w9WgXcQ" "&list=PL1");
    reflexivity.
Defined.

(** ** The title and the transcript of a success record *)

(** X23: a success record is made from the first caption file alone: its
    transcript is what the normalizer returns for that file, without the
    blanks at both ends, and its title comes from that file's name; further
    files are not looked at.  When the name is a title without a dot followed
    by [.en.vtt], the title of the record is that title. *)
Theorem X23_record_from_the_first_file
    (url : string) (proxy : option string) (include_timestamps : bool)
    (resp : fetch_response) (r : success_result) :
  snd (extract_transcript url proxy include_timestamps resp) = Return r ->
  exists f rest text,
    vtt_files resp = f :: rest
    /\ process_vtt_file (read_text f) include_timestamps = Return text
    /\ transcript r = Str.strip text
    /\ video_title r = title_of f
    /\ (forall rest',
          snd (extract_transcript url proxy include_timestamps
                 {| run := run resp; vtt_files := f :: rest' |}) = Return r)
    /\ (forall title,
          all_in (fun a => negb (Ascii.eqb a ".")) title = true ->
          name f = (title ++ ".en.vtt")%string ->
          video_title r = title).
Proof.
  destruct (extract_video_id url) as [v |] eqn:Hv;
    [| rewrite (extract_invalid proxy include_timestamps url resp Hv);
       discriminate].
  rewrite (extract_transcript_valid url v proxy include_timestamps resp Hv).
  cbn [fst snd]. unfold after_run.
  destruct (run resp) as [| e | rc stderr] eqn:Hrun; try discriminate.
  destruct (negb (rc =? 0)%Z) eqn:Hrc; [discriminate |].
  destruct (vtt_files resp) as [| f files]; [discriminate |].
  destruct (process_vtt_file (read_text f) include_timestamps)
    as [text | e] eqn:Htext; [| discriminate].
  destruct (negb (Str.truthy text)
            || (String.length (Str.strip text) =? 0)%nat) eqn:Hc;
    [discriminate |].
  intros [= <-]. exists f, files, text. cbn [transcript video_title].
  split; [reflexivity |]. split; [exact Htext |]. split; [reflexivity |].
  split; [reflexivity |]. split.
  - intros rest'.
    rewrite (extract_transcript_valid url v proxy include_timestamps _ Hv).
    cbn [snd]. unfold after_run. cbn [run vtt_files].
    now rewrite Hrc, Htext, Hc.
  - intros title Hdot Hname. destruct f as [fname fread].
    cbn [name] in Hname. subst fname.
    exact (proj1 (title_of_dotless title fread Hdot)).
Qed.

Lemma X23_witness :
  exists f rest text,
    vtt_files plain_response = f :: rest
    /\ process_vtt_file (read_text f) false = Return text
    /\ "never gonna give you up" = Str.strip text
    /\ "Rick Astley" = title_of f.
Proof.
  destruct (X23_record_from_the_first_file "https://youtu.be/dQw4w9WgXcQ"
              None false plain_response
              {| video_id := "dQw4w9WgXcQ";
                 video_url := "https://youtu.be/dQw4w9WgXcQ";
                 video_title := "Rick Astley";
                 transcript := "never gonna give you up";
                 transcript_length := 23;
                 source := "ytdlp_vtt_optimized";
                 language := "en";
                 proxy_used := "direct";
                 includes_timestamps := false |} eq_refl)
    as (f & rest & text & H1 & H2 & H3 & H4 & _).
  exists f, rest, text. auto.
Defined.

(** ** The URLs of the input *)

(** X24: which URLs a run works on: the strings of [startUrls], the [url]
    of its dictionaries when it is not empty, and the entries of
    [videoUrls]; entries of [startUrls] of another kind, and dictionaries
    without a [url] or with an empty one, are passed over in silence, while
    an empty string given directly is worked on like any URL. *)
Theorem X24_urls_of_the_input (input : actor_input) (u : string) :
  In u (all_urls input)
  <-> (exists l, startUrls input = Some l
                 /\ (In (UrlStr u) l
                     \/ (In (UrlDict (Some u)) l /\ u <> "")))
      \/ (exists l, videoUrls input = Some l /\ In u l).
Proof.
  unfold all_urls. rewrite in_app_iff, in_flat_map. split.
  - intros [(x & Hx & Hu) | Hv].
    + left. destruct (startUrls input) as [l |]; [| now destruct Hx].
      exists l. split; [reflexivity |].
      destruct x as [[url |] | url |]; cbn in Hu; try now destruct Hu.
      * destruct (Str.truthy url) eqn:Ht; [| now destruct Hu].
        destruct Hu as [<- | []]. right. split; [exact Hx |].
        intros ->. discriminate Ht.
      * destruct Hu as [<- | []]. now left.
    + right. destruct (videoUrls input) as [l |]; [| now destruct Hv].
      now exists l.
  - intros [(l & -> & [Hs | [Hd Hne]]) | (l & -> & Hv)].
    + left. exists (UrlStr u). split; [exact Hs | now left].
    + left. exists (UrlDict (Some u)). split; [exact Hd |].
      unfold Str.truthy. destruct (String.eqb_spec u ""); [contradiction |].
      now left.
    + now right.
Qed.
